(* ===== verification/_CoqProject ===== *)
-Q . S2P
Prelude.v
Services.v
Json.v
MappingModel.v
MappingViews.v
MappingSpec.v
Concurrency.v
Matcher.v
BatchSweep.v
PyFloat.v
DummyData.v
PatientViews.v
PyDateTime.v
OcsLogs.v
Migrations.v
Routing.v
Modules.v
StatusViews.v
ProxyViews.v
App.v
