(* ===== verification/Prelude.v ===== *)
(** * A verification development of the medical_system patient-mapping backend

    The repository is a Django backend that connects an OpenMRS registry
    (patients with an internal UUID and human "patient identifiers") to an
    Orthanc DICOM archive (patients, studies, series, instances).  The
    persisted core is the [PatientMapping] table that links one Orthanc
    patient id to one OpenMRS patient UUID; the HTTP views in
    [src/backend/medical_integration/views.py] create, list, fetch,
    deactivate and re-validate mappings, upload DICOM files with automatic
    mapping, and run a batch sweep over the unmapped archive patients.

    ** How the program is modelled

    Every view is a function in a small state-and-exception monad [st]
    (this file): the state is the mapping table (Django's database), the
    exception channel is Python's [raise], and [try_except] is the view's
    [try: ... except Exception as e:].  State written before an exception
    stays written, as with Django's autocommit.  The external services are
    not in [src/]: they are type classes (file [Services]) whose
    instances are snapshots of what Orthanc and OpenMRS answer during one
    request; each call may raise.  Theorems about views are proved for
    every instance, witnesses use small concrete instances.

    Files, in dependency order:
    - [Prelude]      Python values ([exc], truthiness), the [st] monad with
                     its notation in [pm_scope], the tactics and the
                     [medsys] hint database, shared list lemmas.
    - [Services]     interfaces of the collaborators: [OrthancAPI]
                     (archive listing, studies/series/instances, instance
                     bytes, upload), [OpenMRSAPI] (search by identifier,
                     by demographics, fetch) and [DicomCodec] (bytes to a
                     flat tag map), with small concrete instances for the
                     witnesses.  Modelled from spec.md sections 4 and 6:
                     their code is outside src/.
    - [Json]         the Python values [json.loads] builds and the
                     operations the views apply to them: [dict.get],
                     iteration, [len], truthiness, [str] and [int] on
                     strings, each raising as Python does on a value of
                     the wrong type.
    - [MappingModel] the [PatientMapping] record and its table (record
                     [Store]: rows in primary-key order, the id counter,
                     the clock): creation with auto-increment ids, save,
                     soft deletion, [validate_mapping], [update_sync_time],
                     the active-mapping queries, and the table invariant
                     [store_wf] (ids unique and below the counter, an error
                     message exactly in ERROR state, no two active rows
                     for one pair).  models.py is not under src/: these
                     definitions follow spec.md sections 3 and 4.4.
    - [MappingViews] the mapping views of views.py: get_patient_mappings,
                     create_patient_mapping, get_patient_mapping,
                     delete_patient_mapping (both definitions; the second
                     is the one Python binds), sync_patient_mapping; the routes of
                     urls.py as a request type and [serve]; the databases
                     [reachable] by any sequence of requests.
    - [MappingSpec]  the abstract specification: the set of active pairs
                     ([gset]) and its steps, refined by every request.
    - [Concurrency]  create_patient_mapping as a two-phase thread (the
                     duplicate query, then the insert and validation) and
                     the interleaving step relation [cstep] of concurrent
                     requests on one database, as Django's threaded server
                     runs them without a lock or unique constraint.
    - [Matcher]      the DicomPatientMapper of spec.md sections 4.1 to 4.4
                     (tag extraction, identifier-first matching,
                     process_dicom_upload, create_manual_mapping); its
                     source is outside src/.
    - [BatchSweep]   the views that drive the mapper: batch_auto_mapping,
                     upload_dicom_with_auto_mapping,
                     create_manual_patient_mapping,
                     get_unmapped_orthanc_patients.
    - [PyFloat]      Python floats as IEEE 754 binary64 ([SpecFloat]),
                     int true division and CPython's [round(x, 2)], with
                     the reference rounding of the exact rational.
    - [DummyData]    create_dummy_data, create_simple_dummy_dicom (the
                     patient tags it writes), clear_dummy_data and
                     get_mapping_test_status, whose success rate is
                     computed as binary64 floats.
    - [PatientViews] search_patients (choice of the primary identifier)
                     and create_patient (required fields, identifier taken
                     from the request or generated), against the registry
                     interface [PatientDirectory] and its laws, with a
                     list-backed instance.
    - [PyDateTime]   [datetime] fields and comparison, the zero-padded
                     [strftime] directives, and [strptime] for
                     '%Y-%m-%d' as CPython's [_strptime] runs it
                     (backtracking over the alternatives of its regular
                     expression, then [date]'s range checks).
    - [OcsLogs]      src/backend/ocs: the [LISLog] model (ocs/models.py),
                     create_log_view, get_logs_view with its filters and
                     newest-first ordering, combined_log_view merging the
                     LIS table with the MongoDB records, strftime's
                     zero-padded timestamp format, and the import of
                     [LISLog] by ocs/views.py against the models module.
    - [Migrations]   Django's executor for CreateModel and DeleteModel and
                     the operation lists of orders/migrations/0001 and
                     ocs/migrations/0001, 0002.
    - [Routing]      the whole [urlpatterns] of urls.py and Django's
                     resolver: routes compiled to anchored patterns with
                     the [str] and [int] converters, first match wins,
                     and [reverse] by url name; greedy matching is shown
                     equal to the backtracking semantics of the pattern.
    - [Modules]      the top-level statements of views.py and urls.py
                     run as Python runs them: imports (one of them of the
                     external openmrs_models app), [def]s rebinding names,
                     and the functions the routes of urls.py name.
    - [StatusViews]  health_check, test_all_connections,
                     calculate_age_from_birthdate, get_mapping_status
                     (counts by type, ten newest mappings) and
                     create_test_mapping.
    - [ProxyViews]   the views that reshape service answers: get_patient,
                     get_patient_by_identifier, the Orthanc listings
                     (search_orthanc_patients, get_orthanc_patient,
                     get_dicom_study_details, get_patient_dicom_studies),
                     get_all_patients_simple and proxy_openmrs_providers
                     over an HTTP client, with the requests each sends,
                     and get_all_openmrs_patients over the rows of the
                     external openmrs_models app.
    - [App]          the application: a request resolved by urls.py and
                     dispatched under the [@api_view] method check to
                     every view that reads or writes the mapping table;
                     the tables any sequence of requests produces.

    ** What the theorems show (groups)
    - invariants: every view and the mapper preserve [store_wf], so every
      reachable database satisfies it (C1);
    - functional behaviour of each view on every branch, errors included
      (C2 to C8, C12 to C17, C20);
    - refinement of the views by the abstract active relation (C9);
    - the batch sweep processes every unmapped patient exactly once, in
      order, whatever fails, and its counters add up; it only appends AUTO
      rows for distinct unmapped patients (C10, C11);
    - roundtrip: the dummy DICOM tags are read back as the dummy patient
      (C16); clearing the dummy data, then the test statistics (C18) and
      their bounds (C19);
    - equivalence of the identifier loop of search_patients with the
      reference choice (C21); create_patient keeps registry identifiers
      unique and refuses duplicates and incomplete forms (C22 to C24);
    - concurrency: one request alone under [cstep] is exactly the view
      (C25); every interleaving terminates (C26) and ends with every
      request answered (C27, liveness); two concurrent identical requests
      can both insert, breaking [store_wf] (C28, the race);
    - ocs logs: create_log_view on every branch (C29); the filters of
      get_logs_view keep exactly the matching rows in newest-first order
      (C30); combined_log_view is a sorted permutation of both sources
      (C31); the lemmas also show that importing views.py fails because
      models.py defines no [LISLog], and that the formatted timestamps
      sort as the times do;
    - migrations: every table a successful run creates is well formed
      (C32); every run that includes ocs 0002 fails (C33);
    - routing: reversing any route's name with arguments its converters
      accept and resolving the path gives the route back, except three
      argument values an earlier literal route catches (C34, roundtrip);
    - calculate_age_from_birthdate returns the number of completed years
      for every valid ISO date (C35); get_mapping_status's counts and its
      ten newest mappings, sorted (C36);
    - get_all_patients_simple forwards limit and startIndex to OpenMRS
      before int() validates them (C37); get_patient formats every
      well-typed registry answer (C38);
    - the float success rate equals the correctly rounded percentage for
      every table of up to 100 dummy mappings (C39, equivalence), but not
      beyond (23 of 160 gives 14.37);
    - composition: HTTP requests through urls.py refine the mapping views,
      and every sequence of requests to any route keeps [store_wf] (C40);
      loading urls.py binds each route to the function [Routing] names,
      and fails without the openmrs_models app ([Modules]);
    - findings where the code departs from the spec or from its intent
      (duplicate check over inactive rows, second active mapping per
      archive patient, deleted mappings not retrievable by id, SYNCED
      instead of AUTO_MAPPED/MANUAL_MAPPED, auto-mapping of dummy DICOMs
      gated by position, DUMMY filter on Orthanc's hashed ids, a null
      patient_identifier answered 500, routes shadowed by earlier ones,
      totals that do not add up, parameters validated after the remote
      call, a rate rounded off the correct decimal, a module import
      outside the repository).

    Fuel: every loop of the code iterates over a finite list and is
    modelled by structural recursion on it.  The only fuel is that of
    Django's route parser ([Routing.parse_route]), which consumes one
    character per step; [route_to_parts] gives it the length of the
    route plus one, enough for every route ([urlpatterns_wf] shows each
    route of urls.py parses).  Integers are Python's unbounded ints
    ([nat], or [Z] where they can be negative); floats are binary64.

    Bounds: the success-rate theorem covers tables of up to 100 dummy
    mappings (about 5000 pairs of counts), checked by evaluation.
    create_dummy_data adds three dummy mappings per run, so 100 covers
    33 runs.  The bound keeps the kernel check of the evaluation to about
    a minute; the same check finds the first counterexample at 160.

    ** What is not modelled
    Every function of the src/ files is modelled, the top-level
    statements of views.py and urls.py included.  Left out: field
    choices and verbose names of the migrations (no effect on the
    tables), temporary-file handling and logging (no observable state),
    the pydicom serialisation, OpenMRS patient creation and the model
    method get_dicom_studies_count (parameters of [DummyData]), the MongoDB client (pure I/O; its answer is a
    parameter of combined_log_view), Django's [parse_datetime] (a
    parameter of get_logs_view), [str()] of lists and dicts (a
    parameter of [py_str]), the clock of [datetime.today()] (a
    parameter of calculate_age_from_birthdate), time zones, the CSRF
    checks of DRF's session authentication, and the project-level
    urls.py and settings (outside src/).  The
    commented-out first version of ocs/models.py is not code. *)

From Stdlib Require Import DecimalString.
From stdpp Require Import base list strings.

(** ** Python values *)

(** A Python computation either returns a value or raises; the message is
    what [str(e)] gives. *)
Inductive exc (A : Type) : Type :=
| Ok (a : A)
| Raise (e : string).
Arguments Ok {A} a.
Arguments Raise {A} e.

(** Python truthiness of the values the views test with [if x:] or
    [if not x:].  A missing request field ([None]) and [""] are false; a
    list is true when it is not empty; [None] and [[]] returned by a
    service are both false, so both are modelled by the empty list. *)
Definition str_truthy (o : option string) : bool :=
  match o with
  | Some s => negb (String.eqb s "")
  | None => false
  end.

Definition list_truthy {A} (l : list A) : bool :=
  match l with [] => false | _ :: _ => true end.

(** An ASCII decimal digit, what [\d] and [[0-9]] match. *)
Definition is_digit (c : Ascii.ascii) : bool :=
  let n := Ascii.nat_of_ascii c in (48 <=? n) && (n <=? 57).

(** Sequencing of calls that may raise, outside the database. *)
Definition exc_bind {A B} (x : exc A) (k : A -> exc B) : exc B :=
  match x with Ok a => k a | Raise e => Raise e end.

(** [exc] as a monad, for the notation [x ← m; k] and [mapM]. *)
#[export] Instance exc_ret : MRet exc := @Ok.
#[export] Instance exc_mbind : MBind exc := fun A B k x => exc_bind x k.
#[export] Instance exc_fmap : FMap exc := fun A B f x => exc_bind x (fun a => Ok (f a)).

(** Python's [str(n)] for a natural number. *)
Definition str_of_nat (n : nat) : string :=
  DecimalString.NilEmpty.string_of_uint (Nat.to_uint n).

(** ** The request monad: state (the database) and exceptions *)

Definition st (S A : Type) : Type := S -> exc A * S.

Section Monad.
Context {S : Type}.

Definition st_ret {A} (a : A) : st S A := fun s => (Ok a, s).

Definition st_bind {A B} (m : st S A) (k : A -> st S B) : st S B :=
  fun s => match m s with
           | (Ok a, s') => k a s'
           | (Raise e, s') => (Raise e, s')
           end.

Definition st_raise {A} (e : string) : st S A := fun s => (Raise e, s).

(** A call to an external service: its answer, the database untouched. *)
Definition st_lift {A} (x : exc A) : st S A := fun s => (x, s).

Definition st_get : st S S := fun s => (Ok s, s).

Definition st_put (s' : S) : st S unit := fun _ => (Ok tt, s').

(** [try: m except Exception as e: h(e)]; what [m] wrote before raising
    stays written. *)
Definition try_except {A} (m : st S A) (h : string -> st S A) : st S A :=
  fun s => match m s with
           | (Ok a, s') => (Ok a, s')
           | (Raise e, s') => h e s'
           end.

(** A sequence of computations over a Python list ([for x in l:]),
    collecting their results. *)
Fixpoint st_map {A B} (f : A -> st S B) (l : list A) : st S (list B) :=
  match l with
  | [] => st_ret []
  | x :: l' => st_bind (f x) (fun b => st_bind (st_map f l') (fun bs => st_ret (b :: bs)))
  end.
End Monad.

Declare Scope pm_scope.
Delimit Scope pm_scope with pm.
Notation "'do' x <- m ; k" := (st_bind m (fun x => k))
  (at level 10, x name, m at level 100, k at level 200) : pm_scope.
Notation "'do' ' p <- m ; k" := (st_bind m (fun x => match x with p => k end))
  (at level 10, p pattern, m at level 100, k at level 200) : pm_scope.
Open Scope pm_scope.

(** ** Automation *)

Create HintDb medsys.

(** Unfold the monad and compute; used to run a view symbolically. *)
Ltac st_unfold :=
  unfold st_bind, st_ret, st_raise, st_lift, st_get, st_put, try_except in *.

Ltac st_simpl := st_unfold; cbn in *.

(** ** Shared lemmas *)

Section Lemmas.
Context {S : Type}.

(** A state invariant preserved by every step of [f] on the elements of
    [l] is preserved by [st_map f l], whatever raises. *)
Lemma st_map_preserves {A B} (P : S -> Prop) (f : A -> st S B) (l : list A) s :
  (forall x s0, In x l -> P s0 -> P (snd (f x s0))) -> P s -> P (snd (st_map f l s)).
Proof.
  revert s. induction l as [|x l IH]; intros s Hf Hs; [done|].
  cbn. unfold st_bind. pose proof (Hf x s (or_introl eq_refl) Hs) as Hx.
  destruct (f x s) as [[b|e] s1]; [|done]. cbn in *.
  assert (Hl : P (snd (st_map f l s1))) by (apply IH; [intros; apply Hf; [right|]|]; done).
  destruct (st_map f l s1) as [[bs|e] s2]; done.
Qed.

(** A step that never raises and returns its argument with a result:
    [st_map] returns one pair per element, with the elements in order. *)
Lemma st_map_keys {A B} (f : A -> st S (A * B)) (l : list A) s :
  (forall x s0, exists b s1, f x s0 = (Ok (x, b), s1)) ->
  exists rs s', st_map f l s = (Ok rs, s') /\ map fst rs = l.
Proof.
  intros Hf. revert s. induction l as [|x l IH]; intros s; [by exists [], s|].
  destruct (Hf x s) as (b & s1 & Hb). destruct (IH s1) as (rs & s2 & Hl & Hk).
  exists ((x, b) :: rs), s2. cbn. unfold st_bind. rewrite Hb, Hl. cbn. by rewrite Hk.
Qed.

Lemma st_bind_get {A} (k : S -> st S A) s : st_bind st_get k s = k s s.
Proof. reflexivity. Qed.

Lemma st_bind_ret {A B} (a : A) (k : A -> st S B) s : st_bind (st_ret a) k s = k a s.
Proof. reflexivity. Qed.

Lemma st_bind_ok {A B} (m : st S A) (k : A -> st S B) s a s' :
  m s = (Ok a, s') -> st_bind m k s = k a s'.
Proof. intros Hm. unfold st_bind. by rewrite Hm. Qed.

Lemma st_bind_lift_ok {A B} (x : exc A) a (k : A -> st S B) s :
  x = Ok a -> st_bind (st_lift x) k s = k a s.
Proof. by intros ->. Qed.

(** Answering with the result of [m] leaves the state where [m] left it. *)
Lemma st_bind_ret_snd {A B} (m : st S A) (f : A -> B) s :
  snd (st_bind m (fun a => st_ret (f a)) s) = snd (m s).
Proof. unfold st_bind, st_ret. by destruct (m s) as [[a|e] s']. Qed.

(** A handler that only answers leaves the state where the body left it. *)
Lemma try_except_ret_snd {A} (m : st S A) (f : string -> A) s :
  snd (try_except m (fun e => st_ret (f e)) s) = snd (m s).
Proof. unfold try_except, st_ret. by destruct (m s) as [[a|e] s']. Qed.

Lemma try_except_ok {A} (m : st S A) h s a s' :
  m s = (Ok a, s') -> try_except m h s = (Ok a, s').
Proof. intros Hm. unfold try_except. by rewrite Hm. Qed.

(** A loop of reads that raise nothing: it returns one result per element
    and leaves the state as it is. *)
Lemma st_map_lift_ok {A B} (f : A -> exc B) (l : list A) (s : S) :
  (forall x, In x l -> exists y, f x = Ok y) ->
  exists ys, st_map (fun x => st_lift (f x)) l s = (Ok ys, s) /\
             Forall2 (fun x y => f x = Ok y) l ys.
Proof.
  induction l as [|x l IH]; intros Hf; [by exists []|].
  destruct (Hf x (or_introl eq_refl)) as [y Hy].
  destruct IH as (ys & Hys & H2); [intros z Hz; apply Hf; by right|].
  exists (y :: ys). cbn [st_map]. rewrite (st_bind_lift_ok _ y) by done.
  unfold st_bind. rewrite Hys. split; [reflexivity|by constructor].
Qed.

(** ... and a field of the results follows the elements. *)
Lemma st_map_lift_keys {A B C} (f : A -> exc B) (g : B -> C) (h : A -> C) (l : list A) (s : S) :
  (forall x, In x l -> exists y, f x = Ok y) -> (forall x y, f x = Ok y -> g y = h x) ->
  exists ys, st_map (fun x => st_lift (f x)) l s = (Ok ys, s) /\ map g ys = map h l.
Proof.
  intros Hf Hk. destruct (st_map_lift_ok f l s Hf) as (ys & Hys & H2).
  exists ys. split; [done|]. clear Hys Hf.
  induction H2 as [|x y l ys Hy _ IH]; [done|]. cbn. f_equal; [by apply Hk|done].
Qed.

(** A loop of reads leaves the state as it is, whatever raises. *)
Lemma st_map_lift_state {A B} (f : A -> exc B) (l : list A) (s : S) :
  snd (st_map (fun x => st_lift (f x)) l s) = s.
Proof. apply (st_map_preserves (fun s0 => s0 = s)); [by intros x s0 _ ->|done]. Qed.
End Lemmas.

(** The two list comprehensions that split results by a boolean field
    partition the list. *)
Lemma length_filter_split {A} (f : A -> bool) (l : list A) :
  length (List.filter f l) + length (List.filter (fun x => negb (f x)) l) = length l.
Proof. induction l as [|x l IH]; cbn; [done|]. destruct (f x); cbn; lia. Qed.

(** Python's [str.strip()] on ASCII text: [isspace] holds for the
    space, [\t\n\v\f\r] and the separators [\x1c] to [\x1f]. *)
Definition is_space (c : Ascii.ascii) : bool :=
  let n := Ascii.nat_of_ascii c in (n =? 32) || ((9 <=? n) && (n <=? 13)) || ((28 <=? n) && (n <=? 31)).

Fixpoint lstrip (s : string) : string :=
  match s with
  | EmptyString => EmptyString
  | String c s' => if is_space c then lstrip s' else s
  end.

Fixpoint rstrip (s : string) : string :=
  match s with
  | EmptyString => EmptyString
  | String c s' =>
      let r := rstrip s' in
      if String.eqb r "" && is_space c then EmptyString else String c r
  end.

Definition py_strip (s : string) : string := rstrip (lstrip s).

(** Every character of a string satisfies [p]. *)
Fixpoint str_forall (p : Ascii.ascii -> bool) (s : string) : bool :=
  match s with EmptyString => true | String c s' => p c && str_forall p s' end.

(** [String.append] does not unfold by [simpl]; these are its equations. *)
Lemma append_cons c s t : String.append (String c s) t = String c (String.append s t).
Proof. reflexivity. Qed.

Lemma append_nil_l t : String.append EmptyString t = t.
Proof. reflexivity. Qed.

Lemma append_nil_r s : String.append s EmptyString = s.
Proof. induction s as [|c s IH]; [done|]. rewrite append_cons. by f_equal. Qed.

Lemma str_forall_app p s t :
  str_forall p (String.append s t) = str_forall p s && str_forall p t.
Proof. induction s as [|c s IH]; [done|]. rewrite append_cons. cbn. rewrite IH. apply andb_assoc. Qed.

Lemma str_truthy_Some s : str_truthy (Some s) = true <-> s <> "".
Proof.
  cbn. destruct (String.eqb_spec s ""); cbn; split; congruence.
Qed.

(** Two elements of a list on which [f] is injective by [NoDup] and that
    have the same image are the same element (two rows with the same
    primary key are the same row). *)
Lemma NoDup_map_in_inj {A B} (f : A -> B) (l : list A) a b :
  NoDup (map f l) -> In a l -> In b l -> f a = f b -> a = b.
Proof.
  induction l as [|x l IH]; cbn; [done|]. intros Hnd Ha Hb Hf.
  apply NoDup_cons in Hnd as [Hx Hnd].
  destruct Ha as [<-|Ha], Hb as [<-|Hb]; auto.
  - exfalso. apply Hx. apply list_elem_of_In, in_map_iff. eauto.
  - exfalso. apply Hx. apply list_elem_of_In, in_map_iff. eauto.
Qed.

Lemma NoDup_map_filter {A B} (f : A -> B) (q : A -> bool) (l : list A) :
  NoDup (map f l) -> NoDup (map f (List.filter q l)).
Proof.
  induction l as [|x l IH]; cbn; [done|]. intros Hnd.
  apply NoDup_cons in Hnd as [Hx Hnd]. destruct (q x); cbn; [|auto].
  constructor; [|auto]. intros Hin. apply Hx.
  apply list_elem_of_In, in_map_iff in Hin as (y & Hy & Hin).
  apply filter_In in Hin as [Hin _]. apply list_elem_of_In, in_map_iff. eauto.
Qed.

Lemma find_app {A} (f : A -> bool) (l1 l2 : list A) :
  List.find f (l1 ++ l2) = match List.find f l1 with Some x => Some x | None => List.find f l2 end.
Proof. induction l1 as [|x l1 IH]; cbn; [done|]. by destruct (f x). Qed.

Lemma find_map {A B} (f : B -> bool) (g : A -> B) (l : list A) :
  List.find f (map g l) = option_map g (List.find (fun x => f (g x)) l).
Proof. induction l as [|x l IH]; cbn; [done|]. by destruct (f (g x)). Qed.

Lemma find_ext {A} (f g : A -> bool) (l : list A) :
  (forall x, f x = g x) -> List.find f l = List.find g l.
Proof. intros Hfg. induction l as [|x l IH]; cbn; [done|]. by rewrite Hfg, IH. Qed.

Lemma find_const_false {A} (l : list A) : List.find (fun _ => false) l = None.
Proof. by induction l. Qed.

(** [find] returns something as soon as one element satisfies the test. *)
Lemma find_in_some {A} (f : A -> bool) (l : list A) x :
  In x l -> f x = true -> exists y, List.find f l = Some y.
Proof.
  intros Hin Hx. destruct (List.find f l) as [y|] eqn:Hf; [by exists y|].
  by rewrite (find_none _ _ Hf x Hin) in Hx.
Qed.

#[export] Hint Resolve try_except_ok : medsys.
