(* ===== verification/Services.v ===== *)
(** * The external services the views call

    [OrthancAPI] (orthanc_api.py), [OpenMRSAPI] (openmrs_api.py) and the
    DICOM decoding done by the mapper are not under src/: they are stated
    here as type classes, from the collaborator contracts of spec.md
    section 6.  An instance is what the service answers during one request;
    every call may raise (a connection error or a timeout), which is the
    [Raise] of [exc].  The views and the mapper are proved against these
    interfaces; [ArchiveDb] and [directory_of] are concrete instances used by
    the witnesses, with the case-insensitive demographic comparison that
    spec.md section 4.2 asks of the registry. *)

From stdpp Require Import base list strings.
From S2P Require Import Prelude.

(** ** Data exchanged with the services *)

Definition Bytes := list Byte.byte.

(** A decoded DICOM header as a flat tag map ([{tag_name: value}]); lookup
    returns the first binding. *)
Definition tagmap := list (string * string).

Definition tag_get (t : tagmap) (k : string) : option string :=
  snd <$> List.find (fun kv => String.eqb (fst kv) k) t.

(** The JSON that Orthanc returns for an uploaded instance; the views read
    [ID], [ParentPatient], [ParentStudy], [ParentSeries] and [Status]. *)
Record UploadResult := mkUploadResult {
  up_ID : option string;
  up_ParentPatient : option string;
  up_ParentStudy : option string;
  up_ParentSeries : option string;
  up_Status : option string
}.

(** [orthanc_api.get_patient(id)]: the fields the views read. *)
Record PatientInfo := mkPatientInfo {
  pi_MainDicomTags : tagmap;
  pi_Studies : list string;
  pi_LastUpdate : string
}.

(** An OpenMRS patient as the mapper sees it. *)
Record RegistryPatient := mkRegistryPatient {
  rp_uuid : string;
  rp_identifiers : list string;
  rp_family : string;
  rp_given : string;
  rp_birthdate : string
}.

(** ** Interfaces *)

Class OrthancAPI := {
  orthanc_get_patients : exc (list string);
  orthanc_get_patient : string -> exc (option PatientInfo);
  orthanc_get_patient_studies : string -> exc (list string);
  orthanc_get_study_series : string -> exc (list string);
  orthanc_get_series_instances : string -> exc (list string);
  orthanc_get_instance_file : string -> exc (option Bytes);
  orthanc_upload_dicom : Bytes -> exc (option UploadResult)
}.

Class OpenMRSAPI := {
  openmrs_find_by_identifier : string -> exc (list RegistryPatient);
  openmrs_find_by_demographics : string -> string -> string -> exc (list RegistryPatient);
  openmrs_get_patient : string -> exc (option RegistryPatient)
}.

Class DicomCodec := {
  dicom_decode : Bytes -> option tagmap
}.

(** ** A concrete archive, for witnesses *)

Definition assoc {A} (l : list (string * A)) (k : string) : option A :=
  snd <$> List.find (fun kv => String.eqb (fst kv) k) l.

Record ArchiveDb := mkArchiveDb {
  adb_patients : list (string * PatientInfo);
  adb_studies : list (string * list string);
  adb_series : list (string * list string);
  adb_instances : list (string * list string);
  adb_files : list (string * Bytes);
  adb_uploads : list (Bytes * UploadResult)
}.

Fixpoint bytes_eqb (a b : Bytes) : bool :=
  match a, b with
  | [], [] => true
  | x :: a', y :: b' => Byte.eqb x y && bytes_eqb a' b'
  | _, _ => false
  end.

Definition archive_of (db : ArchiveDb) : OrthancAPI := {|
  orthanc_get_patients := Ok (map fst (adb_patients db));
  orthanc_get_patient id := Ok (assoc (adb_patients db) id);
  orthanc_get_patient_studies id := Ok (default [] (assoc (adb_studies db) id));
  orthanc_get_study_series id := Ok (default [] (assoc (adb_series db) id));
  orthanc_get_series_instances id := Ok (default [] (assoc (adb_instances db) id));
  orthanc_get_instance_file id := Ok (assoc (adb_files db) id);
  orthanc_upload_dicom d :=
    Ok (snd <$> List.find (fun p => bytes_eqb (fst p) d) (adb_uploads db))
|}.

(** ** A concrete registry, for witnesses *)

Definition ascii_lower (c : Ascii.ascii) : Ascii.ascii :=
  let n := Ascii.nat_of_ascii c in
  if (65 <=? n) && (n <=? 90) then Ascii.ascii_of_nat (n + 32) else c.

Fixpoint str_lower (s : string) : string :=
  match s with
  | EmptyString => EmptyString
  | String c s' => String (ascii_lower c) (str_lower s')
  end.

Definition ieq (a b : string) : bool := String.eqb (str_lower a) (str_lower b).

Definition directory_of (db : list RegistryPatient) : OpenMRSAPI := {|
  openmrs_find_by_identifier i :=
    Ok (List.filter (fun p => existsb (String.eqb i) (rp_identifiers p)) db);
  openmrs_find_by_demographics fam giv bd :=
    Ok (List.filter (fun p => ieq (rp_family p) fam && ieq (rp_given p) giv
                              && String.eqb (rp_birthdate p) bd) db);
  openmrs_get_patient u := Ok (List.find (fun p => String.eqb (rp_uuid p) u) db)
|}.

(** ** Demo data for the witnesses

    Two archive patients and a registry with the two patients of spec.md
    section 8: A has identifier P100, B has identifier P999, both are
    Kim/Min born 1985-03-15. *)

Definition demo_tags_1 : tagmap :=
  [("PatientID", "P100"); ("PatientName", "Kim^Min");
   ("PatientBirthDate", "19850315"); ("PatientSex", "M")].

Definition demo_tags_2 : tagmap :=
  [("PatientName", "KIM^MIN"); ("PatientBirthDate", "19850315")].

Definition demo_archive : ArchiveDb := {|
  adb_patients := [("orth-1", mkPatientInfo demo_tags_1 ["st-1"] "20250601");
                   ("orth-2", mkPatientInfo demo_tags_2 ["st-2"] "20250601");
                   ("orth-3", mkPatientInfo [] [] "20250601")];
  adb_studies := [("orth-1", ["st-1"]); ("orth-2", ["st-2"])];
  adb_series := [("st-1", ["se-1"]); ("st-2", ["se-2"])];
  adb_instances := [("se-1", ["in-1"]); ("se-2", ["in-2"])];
  adb_files := [("in-1", [Byte.x01]); ("in-2", [Byte.x02])];
  adb_uploads := [([Byte.x01], mkUploadResult (Some "in-1") (Some "orth-1") (Some "st-1")
                                 (Some "se-1") (Some "Success"))]
|}.

Definition demo_registry : list RegistryPatient :=
  [mkRegistryPatient "uuid-a" ["P100"] "Kim" "Min" "1985-03-15";
   mkRegistryPatient "uuid-b" ["P999"] "Kim" "Min" "1985-03-15"].

(** The two instance files decode to the two tag maps. *)
Definition demo_codec : DicomCodec := {|
  dicom_decode b := match b with
                    | [Byte.x01] => Some demo_tags_1
                    | [Byte.x02] => Some demo_tags_2
                    | _ => None
                    end
|}.
