(* ===== verification/Json.v ===== *)
(** * JSON values and the Python operations the views apply to them

    The answers of OpenMRS and Orthanc reach the views as the Python
    values [json.loads] builds: [None], booleans, integers, strings,
    lists and dicts.  The views read them with [d.get(k, default)],
    iterate over them, take their [len] and test their truthiness; each
    of these raises on a value of the wrong type ([AttributeError],
    [TypeError]), which is the [Raise] of [exc].  [str()] of a list or a
    dict (Python's [repr]) is a parameter of [py_str]: the views only
    format strings with it. *)

From Stdlib Require Import Ascii ZArith.
From stdpp Require Import base list strings.
From S2P Require Import Prelude Services.

#[warnings="-register-all"]
Inductive json :=
| JNull
| JBool (b : bool)
| JInt (z : Z)
| JStr (s : string)
| JList (l : list json)
| JDict (kvs : list (string * json)).

Definition type_name (v : json) : string :=
  match v with
  | JNull => "NoneType" | JBool _ => "bool" | JInt _ => "int"
  | JStr _ => "str" | JList _ => "list" | JDict _ => "dict"
  end.

(** [d.get(k, default)]; [d.get(k)] is [py_get d k JNull]. *)
Definition py_get (d : json) (k : string) (default : json) : exc json :=
  match d with
  | JDict kvs => Ok (match assoc kvs k with Some v => v | None => default end)
  | _ => Raise ("'" +:+ type_name d +:+ "' object has no attribute 'get'")
  end.

Definition str_chars (s : string) : list json :=
  map (fun c => JStr (String c EmptyString)) (String.list_ascii_of_string s).

(** [for x in v]: a dict yields its keys, a string its characters. *)
Definition py_iter (v : json) : exc (list json) :=
  match v with
  | JList l => Ok l
  | JDict kvs => Ok (map (fun kv => JStr kv.1) kvs)
  | JStr s => Ok (str_chars s)
  | _ => Raise ("'" +:+ type_name v +:+ "' object is not iterable")
  end.

(** [len(v)] *)
Definition py_len (v : json) : exc nat :=
  match v with
  | JList l => Ok (length l)
  | JDict kvs => Ok (length kvs)
  | JStr s => Ok (String.length s)
  | _ => Raise ("object of type '" +:+ type_name v +:+ "' has no len()")
  end.

(** [bool(v)] *)
Definition py_truthy (v : json) : bool :=
  match v with
  | JNull => false
  | JBool b => b
  | JInt z => negb (Z.eqb z 0)
  | JStr s => negb (String.eqb s "")
  | JList l => negb (Nat.eqb (length l) 0)
  | JDict kvs => negb (Nat.eqb (length kvs) 0)
  end.

(** [a or b] *)
Definition py_or (a b : json) : json := if py_truthy a then a else b.

Definition str_of_Z (z : Z) : string :=
  match z with
  | Zneg p => "-" +:+ str_of_nat (Pos.to_nat p)
  | _ => str_of_nat (Z.to_nat z)
  end.

Section Str.
(** Python's [repr] of a list or a dict. *)
Variable container_repr : json -> string.

(** [str(v)], as an f-string formats [v]. *)
Definition py_str (v : json) : string :=
  match v with
  | JNull => "None"
  | JBool true => "True"
  | JBool false => "False"
  | JInt z => str_of_Z z
  | JStr s => s
  | JList _ | JDict _ => container_repr v
  end.
End Str.

(** ** Lemmas *)

Lemma py_get_dict kvs k d :
  py_get (JDict kvs) k d = Ok (match assoc kvs k with Some v => v | None => d end).
Proof. reflexivity. Qed.

Lemma py_get_not_dict v k d :
  (forall kvs, v <> JDict kvs) -> exists e, py_get v k d = Raise e.
Proof. destruct v; try by eexists. intros H. by destruct (H kvs). Qed.

(** ** [int(s)] on a string *)

(** Digits with single underscores between them, read as a number. *)
Fixpoint digits_value (acc : Z) (prev_digit : bool) (s : string) : option Z :=
  match s with
  | EmptyString => if prev_digit then Some acc else None
  | String c s' =>
      if is_digit c then digits_value (10 * acc + Z.of_nat (Ascii.nat_of_ascii c - 48))%Z true s'
      else if Ascii.eqb c "_"%char && prev_digit then digits_value acc false s'
      else None
  end.

(** [int(s)]: surrounding whitespace, an optional sign, then digits;
    [None] is the [ValueError]. *)
Definition py_int (s : string) : option Z :=
  match py_strip s with
  | String c s' =>
      if Ascii.eqb c "-"%char then Z.opp <$> digits_value 0 false s'
      else if Ascii.eqb c "+"%char then digits_value 0 false s'
      else digits_value 0 false (String c s')
  | EmptyString => None
  end.
