(* ===== verification/MappingModel.v ===== *)
(** * The PatientMapping table

    The Django model [PatientMapping] (medical_integration/models.py, not
    under src/) as the views of views.py use it: its fields (spec.md
    section 3), [objects.create] with an auto-increment primary key,
    [save], the active-row queries, [validate_mapping] (spec.md section 4.4)
    and [update_sync_time].  The table is the list of rows in primary-key
    order, which is the order Django's unordered [filter(...).first()] and
    iteration use.  [store_wf] is the table invariant; each operation
    preserves it. *)

From stdpp Require Import base list strings.
From S2P Require Import Prelude Services.

(** ** Fields *)

Inductive MappingType := AUTO | MANUAL.
Inductive SyncStatus := SYNCED | ERROR | AUTO_MAPPED | MANUAL_MAPPED.

#[export] Instance MappingType_eq_dec : EqDecision MappingType.
Proof. solve_decision. Defined.
#[export] Instance SyncStatus_eq_dec : EqDecision SyncStatus.
Proof. solve_decision. Defined.

(** [mapping_type] and [sync_status] are [None] while they hold the model
    default, which models.py sets and the spec does not name:
    [create_patient_mapping] passes no [mapping_type], and a row's status
    is the default until its first [update_sync_time].  Times are ticks of
    the database clock [now]. *)
Record PatientMapping := mkMapping {
  mapping_id : nat;
  orthanc_patient_id : string;
  openmrs_patient_uuid : string;
  mapping_type : option MappingType;
  sync_status : option SyncStatus;
  error_message : option string;
  created_date : nat;
  last_sync : option nat;
  is_active : bool
}.

Record Store := mkStore {
  rows : list PatientMapping;
  next_id : nat;
  now : nat
}.

Definition empty_store (t : nat) : Store := mkStore [] 1 t.

(** ** Queries *)

(** [PatientMapping.get_active_mappings()] *)
Definition get_active_mappings (s : Store) : list PatientMapping :=
  List.filter is_active (rows s).

(** [set(PatientMapping.objects.filter(is_active=True)
      .values_list('orthanc_patient_id', flat=True))] *)
Definition mapped_patient_ids (s : Store) : list string :=
  map orthanc_patient_id (get_active_mappings s).

Definition mem_str (x : string) (l : list string) : bool := existsb (String.eqb x) l.

(** [objects.get(mapping_id=i, is_active=True)]; [None] is DoesNotExist. *)
Definition objects_get_active (i : nat) (s : Store) : option PatientMapping :=
  List.find (fun r => Nat.eqb (mapping_id r) i && is_active r) (rows s).

(** [objects.filter(orthanc_patient_id=o, openmrs_patient_uuid=u).first()]:
    all rows, active or not. *)
Definition find_pair_first (o u : string) (s : Store) : option PatientMapping :=
  List.find (fun r => String.eqb (orthanc_patient_id r) o
                      && String.eqb (openmrs_patient_uuid r) u) (rows s).

(** The mapper's check that an archive patient already has an active
    mapping (spec.md section 4.3, step 3). *)
Definition active_for_archive (o : string) (s : Store) : option PatientMapping :=
  List.find (fun r => is_active r && String.eqb (orthanc_patient_id r) o) (rows s).

(** ** Writes *)

(** [PatientMapping.objects.create(...)]: a fresh primary key, the
    creation time, an active row with default status. *)
Definition new_row (o u : string) (mt : option MappingType) (s : Store) : PatientMapping :=
  {| mapping_id := next_id s; orthanc_patient_id := o;
     openmrs_patient_uuid := u; mapping_type := mt;
     sync_status := None; error_message := None;
     created_date := now s; last_sync := None; is_active := true |}.

Definition objects_create (o u : string) (mt : option MappingType)
    : st Store PatientMapping :=
  fun s => let m := new_row o u mt s in
           (Ok m, mkStore (rows s ++ [m]) (S (next_id s)) (now s)).

(** [m.save()]: the row with the same primary key takes the new values. *)
Definition replace_row (m : PatientMapping) (r : PatientMapping) : PatientMapping :=
  if Nat.eqb (mapping_id r) (mapping_id m) then m else r.

Definition mapping_save (m : PatientMapping) : st Store unit :=
  fun s => (Ok tt, mkStore (map (replace_row m) (rows s)) (next_id s) (now s)).

Definition set_sync (m : PatientMapping) (status : SyncStatus) (err : option string)
    (t : nat) : PatientMapping :=
  {| mapping_id := mapping_id m; orthanc_patient_id := orthanc_patient_id m;
     openmrs_patient_uuid := openmrs_patient_uuid m; mapping_type := mapping_type m;
     sync_status := Some status; error_message := err;
     created_date := created_date m; last_sync := Some t; is_active := is_active m |}.

(** [mapping.update_sync_time(status, error_message=None)]: status, message
    and [last_sync] are written together and saved. *)
Definition update_sync_time (m : PatientMapping) (status : SyncStatus)
    (err : option string) : st Store PatientMapping :=
  do s <- st_get;
  let m' := set_sync m status err (now s) in
  do _ <- mapping_save m';
  st_ret m'.

Definition deactivate (m : PatientMapping) : PatientMapping :=
  {| mapping_id := mapping_id m; orthanc_patient_id := orthanc_patient_id m;
     openmrs_patient_uuid := openmrs_patient_uuid m; mapping_type := mapping_type m;
     sync_status := sync_status m; error_message := error_message m;
     created_date := created_date m; last_sync := last_sync m; is_active := false |}.

(** ** Validation *)

(** [', '.join]-style joining used by the views ([sep.join(l)]). *)
Fixpoint py_join (sep : string) (l : list string) : string :=
  match l with
  | [] => ""
  | [x] => x
  | x :: l' => String.append x (String.append sep (py_join sep l'))
  end.

Section Validate.
Context `{OrthancAPI} `{OpenMRSAPI}.

(** [mapping.validate_mapping()]: both endpoints are checked, each
    independently; a failed call counts as an unresolved endpoint. *)
Definition check_orthanc (o : string) : list string :=
  match orthanc_get_patient o with
  | Ok (Some _) => []
  | Ok None => [String.append "Orthanc patient not found: " o]
  | Raise e => [String.append "Orthanc patient check failed: " e]
  end.

Definition check_openmrs (u : string) : list string :=
  match openmrs_get_patient u with
  | Ok (Some _) => []
  | Ok None => [String.append "OpenMRS patient not found: " u]
  | Raise e => [String.append "OpenMRS patient check failed: " e]
  end.

Definition validate_mapping (m : PatientMapping) : list string :=
  check_orthanc (orthanc_patient_id m) ++ check_openmrs (openmrs_patient_uuid m).

(** Validation reads the two ids only. *)
Lemma validate_mapping_set_sync m status err t :
  validate_mapping (set_sync m status err t) = validate_mapping m.
Proof. reflexivity. Qed.
End Validate.

(** ** The table invariant *)

(** ERROR carries a non-empty message; every other status carries none. *)
Definition row_consistent (r : PatientMapping) : bool :=
  match sync_status r, error_message r with
  | Some ERROR, Some e => negb (String.eqb e "")
  | Some ERROR, None => false
  | _, None => true
  | _, Some _ => false
  end.

Definition mapping_pair (r : PatientMapping) : string * string :=
  (orthanc_patient_id r, openmrs_patient_uuid r).

(** Primary keys are unique and below the counter, every row is
    consistent, and (spec.md section 3) no two active rows map the same
    pair. *)
Record store_wf (s : Store) : Prop := {
  wf_ids_nodup : NoDup (map mapping_id (rows s));
  wf_ids_fresh : Forall (fun r => mapping_id r < next_id s) (rows s);
  wf_rows_consistent : Forall (fun r => row_consistent r = true) (rows s);
  wf_active_pairs : NoDup (map mapping_pair (get_active_mappings s))
}.

(** ** Lemmas on the table operations *)

Lemma replace_row_id m r : mapping_id (replace_row m r) = mapping_id r.
Proof. unfold replace_row. destruct (Nat.eqb_spec (mapping_id r) (mapping_id m)); auto. Qed.

Lemma map_replace_row_ids m l :
  map mapping_id (map (replace_row m) l) = map mapping_id l.
Proof. rewrite map_map. apply map_ext, replace_row_id. Qed.

(** Saving a row whose activity and pair are those of the row it replaces
    leaves the active pairs as they were. *)
Lemma active_pairs_replace m' l :
  (forall r, In r l -> mapping_id r = mapping_id m' ->
     is_active r = is_active m' /\ mapping_pair r = mapping_pair m') ->
  map mapping_pair (List.filter is_active (map (replace_row m') l))
  = map mapping_pair (List.filter is_active l).
Proof.
  induction l as [|r l IH]; intros Hk; cbn [map List.filter]; [done|].
  assert (IH' : map mapping_pair (List.filter is_active (map (replace_row m') l))
                = map mapping_pair (List.filter is_active l)).
  { apply IH. intros r0 Hr0. apply Hk. by right. }
  change (replace_row m' r) with (if Nat.eqb (mapping_id r) (mapping_id m') then m' else r).
  destruct (Nat.eqb_spec (mapping_id r) (mapping_id m')) as [E|E].
  - destruct (Hk r (or_introl eq_refl) E) as [Ha Hp]. rewrite Ha.
    destruct (is_active m'); cbn [map]; by rewrite IH', ?Hp.
  - destruct (is_active r); cbn [map]; by rewrite IH'.
Qed.

(** Saving the deactivated row drops it, and only it, from the active rows. *)
Lemma filter_replace_deactivate m l :
  List.filter is_active (map (replace_row (deactivate m)) l)
  = List.filter (fun r => negb (Nat.eqb (mapping_id r) (mapping_id m)))
      (List.filter is_active l).
Proof.
  induction l as [|r l IH]; cbn [map List.filter]; [done|].
  change (replace_row (deactivate m) r)
    with (if Nat.eqb (mapping_id r) (mapping_id (deactivate m)) then deactivate m else r).
  cbn [mapping_id deactivate].
  destruct (Nat.eqb_spec (mapping_id r) (mapping_id m)) as [E|E]; cbn [is_active deactivate].
  - rewrite IH. destruct (is_active r); cbn; [|done].
    by destruct (Nat.eqb_spec (mapping_id r) (mapping_id m)).
  - rewrite IH. destruct (is_active r); cbn; [|done].
    by destruct (Nat.eqb_spec (mapping_id r) (mapping_id m)).
Qed.

Lemma save_consistent m s :
  row_consistent m = true -> Forall (fun r => row_consistent r = true) (rows s) ->
  Forall (fun r => row_consistent r = true) (map (replace_row m) (rows s)).
Proof.
  intros Hm Hc. apply Forall_map. eapply Forall_impl; [exact Hc|].
  intros r Hr. unfold replace_row. by case_match.
Qed.

Lemma save_fresh m s :
  Forall (fun r => mapping_id r < next_id s) (rows s) ->
  Forall (fun r => mapping_id r < next_id s) (map (replace_row m) (rows s)).
Proof.
  intros Hfr. apply Forall_map. eapply Forall_impl; [exact Hfr|].
  intros r. by rewrite replace_row_id.
Qed.

(** Creation keeps the invariant when no active row maps the same pair:
    the check each caller makes first. *)
Lemma objects_create_wf o u mt s :
  Forall (fun r => mapping_pair r <> (o, u)) (get_active_mappings s) ->
  store_wf s -> store_wf (snd (objects_create o u mt s)).
Proof.
  intros Hnew [Hnd Hfr Hc Hp]. split; cbn.
  - rewrite map_app. cbn. apply NoDup_app. split; [done|]. split.
    + intros x Hx Hin. apply list_elem_of_singleton in Hin. subst x.
      apply list_elem_of_In, in_map_iff in Hx as (r & Hr_id & Hr).
      eapply List.Forall_forall in Hfr; [|exact Hr]. lia.
    + apply NoDup_singleton.
  - apply Forall_app. split; [|repeat constructor; cbn; lia].
    eapply Forall_impl; [exact Hfr|]. cbn. lia.
  - apply Forall_app. split; [done|]. by constructor.
  - unfold get_active_mappings in *. cbn. rewrite List.filter_app, map_app. cbn.
    apply NoDup_app. split; [done|]. split; [|apply NoDup_singleton].
    intros x Hx Hin. apply list_elem_of_singleton in Hin. subst x.
    apply list_elem_of_In, in_map_iff in Hx as (r & Hr_p & Hr).
    eapply List.Forall_forall in Hnew; [|exact Hr]. done.
Qed.

Lemma objects_get_active_in i s m :
  objects_get_active i s = Some m -> In m (rows s) /\ mapping_id m = i /\ is_active m = true.
Proof.
  unfold objects_get_active. intros Hf. pose proof (find_some _ _ Hf) as [Hin Hp].
  apply andb_prop in Hp as [Hi Ha]. apply Nat.eqb_eq in Hi. auto.
Qed.

(** The statuses the views and the mapper write: ERROR with a non-empty
    message, or another status with the message cleared. *)
Definition sync_args_ok (status : SyncStatus) (err : option string) : bool :=
  match status, err with
  | ERROR, Some e => negb (String.eqb e "")
  | ERROR, None => false
  | _, None => true
  | _, Some _ => false
  end.

Lemma update_sync_time_result m status err s :
  update_sync_time m status err s
  = (Ok (set_sync m status err (now s)),
     mkStore (map (replace_row (set_sync m status err (now s))) (rows s)) (next_id s) (now s)).
Proof. reflexivity. Qed.

Lemma update_sync_time_wf m status err s :
  sync_args_ok status err = true -> In m (rows s) -> store_wf s ->
  store_wf (snd (update_sync_time m status err s)).
Proof.
  intros Hok Hin [Hnd Hfr Hc Hp]. rewrite update_sync_time_result. split; cbn.
  - by rewrite map_replace_row_ids.
  - by apply save_fresh.
  - apply save_consistent; [|done]. unfold row_consistent, set_sync; cbn.
    by destruct status, err.
  - unfold get_active_mappings in *. cbn. rewrite active_pairs_replace; [done|].
    intros r Hr Hid. cbn in Hid. by rewrite (NoDup_map_in_inj _ _ r m Hnd Hr Hin Hid).
Qed.

Lemma save_deactivate_wf m s :
  In m (rows s) -> store_wf s -> store_wf (snd (mapping_save (deactivate m) s)).
Proof.
  intros Hin [Hnd Hfr Hc Hp]. split; cbn.
  - by rewrite map_replace_row_ids.
  - by apply save_fresh.
  - apply save_consistent; [|done].
    eapply List.Forall_forall in Hc; [|exact Hin]. done.
  - unfold get_active_mappings in *. cbn. rewrite filter_replace_deactivate.
    by apply NoDup_map_filter.
Qed.

Lemma find_pair_first_none o u s :
  find_pair_first o u s = None ->
  Forall (fun r => mapping_pair r <> (o, u)) (get_active_mappings s).
Proof.
  unfold find_pair_first, get_active_mappings. intros Hn.
  apply List.Forall_forall. intros r Hr Hp. apply filter_In in Hr as [Hr _].
  pose proof (find_none _ _ Hn r Hr) as Hf. unfold mapping_pair in Hp.
  injection Hp as Ho Hu. cbn in Hf. rewrite Ho, Hu, !String.eqb_refl in Hf. done.
Qed.

Lemma find_pair_first_some o u s ex :
  find_pair_first o u s = Some ex -> In ex (rows s) /\ mapping_pair ex = (o, u).
Proof.
  unfold find_pair_first. intros Hf. apply find_some in Hf as [Hin Hp].
  apply andb_prop in Hp as [Ho Hu]. apply String.eqb_eq in Ho, Hu.
  unfold mapping_pair. by rewrite Ho, Hu.
Qed.

(** Saving the row just created only touches the last row: every older
    key is below the counter. *)
Lemma replace_new_row o u mt s m' :
  store_wf s -> mapping_id m' = next_id s ->
  map (replace_row m') (rows s ++ [new_row o u mt s]) = rows s ++ [m'].
Proof.
  intros [_ Hfr _ _] Hid. rewrite map_app. cbn. f_equal.
  - rewrite <- (map_id (rows s)) at 2. apply map_ext_in. intros r Hr.
    eapply List.Forall_forall in Hfr; [|exact Hr]. unfold replace_row.
    destruct (Nat.eqb_spec (mapping_id r) (mapping_id m')); [lia|done].
  - unfold replace_row. cbn. by rewrite Hid, Nat.eqb_refl.
Qed.

Lemma py_join_nonempty sep x l : x <> "" -> py_join sep (x :: l) <> "".
Proof. intros Hx. destruct l; cbn; [done|]. by destruct x. Qed.

Lemma validate_msgs_nonempty `{OrthancAPI} `{OpenMRSAPI} m :
  Forall (fun e => e <> "") (validate_mapping m).
Proof.
  unfold validate_mapping, check_orthanc, check_openmrs.
  apply Forall_app; split; repeat case_match; repeat constructor; done.
Qed.

(** ERROR with the joined validation messages is a legal write. *)
Lemma sync_args_ok_errors `{OrthancAPI} `{OpenMRSAPI} m x l :
  validate_mapping m = x :: l -> sync_args_ok ERROR (Some (py_join "; " (x :: l))) = true.
Proof.
  intros Hv. pose proof (validate_msgs_nonempty m) as Hne. rewrite Hv in Hne.
  apply Forall_cons in Hne as [Hx _]. cbn [sync_args_ok].
  destruct (String.eqb_spec (py_join "; " (x :: l)) ""); [|done].
  by apply (py_join_nonempty "; " x l) in Hx.
Qed.

Lemma empty_store_wf t : store_wf (empty_store t).
Proof. split; cbn; constructor. Qed.

#[export] Hint Resolve objects_create_wf update_sync_time_wf save_deactivate_wf
  sync_args_ok_errors empty_store_wf : medsys.
