(* ===== verification/MappingViews.v ===== *)
(** * The mapping views of views.py

    The five views behind [patient-mappings/] in urls.py:
    [get_patient_mappings], [create_patient_mapping],
    [get_patient_mapping], [delete_patient_mapping] and
    [sync_patient_mapping].  views.py defines [delete_patient_mapping]
    twice (lines 400 and 725); Python binds the name to the second
    definition when the module is executed, so that one is routed.  The
    first is modelled too ([delete_patient_mapping_first]), with the
    bodies of both; they differ only in their messages.
    Each view returns the branches of its [Response(...)] as a constructor
    of its own response type, with [status_code] giving the HTTP status.

    Theorems: every view preserves the table invariant, and so does every
    sequence of requests ([reachable]); the behaviour of each view on each
    branch; the refinement of the table by the abstract relation of active
    pairs; and three departures from spec.md (see PROJECT.json). *)

From stdpp Require Import base list strings gmap.
From S2P Require Import Prelude Services Json MappingModel.

(** ** Responses *)

Inductive ListMappingsResponse :=
| LM_ok (results : list PatientMapping) (total : nat)
| LM_server_error (e : string).

Inductive CreateMappingResponse :=
| CM_missing_ids
| CM_duplicate (existing_mapping_id : nat)
| CM_created (m : PatientMapping) (validation_errors : option (list string))
| CM_server_error (e : string).

Inductive GetMappingResponse :=
| GM_found (m : PatientMapping) (orthanc_patient : option PatientInfo)
           (openmrs_patient : option RegistryPatient)
| GM_not_found
| GM_server_error (e : string).

Inductive DeleteMappingResponse :=
| DM_deleted
| DM_not_found
| DM_server_error (e : string).

Inductive SyncMappingResponse :=
| SM_synced (last_sync : option nat)
| SM_error (error_message : string) (last_sync : option nat)
| SM_not_found
| SM_server_error (e : string).

Definition create_status (r : CreateMappingResponse) : nat :=
  match r with
  | CM_missing_ids | CM_duplicate _ => 400
  | CM_created _ _ => 201
  | CM_server_error _ => 500
  end.

(** ** Views *)

(** [if not orthanc_patient_id or not openmrs_patient_uuid:] *)
Definition request_ids (o u : option string) : option (string * string) :=
  match o, u with
  | Some o', Some u' => if str_truthy o && str_truthy u then Some (o', u') else None
  | _, _ => None
  end.

Section Views.
Context `{OrthancAPI} `{OpenMRSAPI}.

Definition get_patient_mappings : st Store ListMappingsResponse :=
  try_except
    (do s <- st_get;
     let data := get_active_mappings s in
     st_ret (LM_ok data (length data)))
    (fun e => st_ret (LM_server_error e)).

(** Validate a fresh row and record the outcome (views.py 347-354). *)
Definition validate_and_record (m : PatientMapping)
    : st Store (PatientMapping * option (list string)) :=
  match validate_mapping m with
  | [] => do m' <- update_sync_time m SYNCED None; st_ret (m', None)
  | errs => do m' <- update_sync_time m ERROR (Some (py_join "; " errs));
            st_ret (m', Some errs)
  end.

Definition create_patient_mapping (o u : option string)
    : st Store CreateMappingResponse :=
  try_except
    (match request_ids o u with
     | None => st_ret CM_missing_ids
     | Some (o', u') =>
         do s <- st_get;
         match find_pair_first o' u' s with
         | Some ex => st_ret (CM_duplicate (mapping_id ex))
         | None =>
             do m <- objects_create o' u' None;
             do '(m', errs) <- validate_and_record m;
             st_ret (CM_created m' errs)
         end
     end)
    (fun e => st_ret (CM_server_error e)).

Definition get_patient_mapping (i : nat) : st Store GetMappingResponse :=
  try_except
    (do s <- st_get;
     match objects_get_active i s with
     | None => st_ret GM_not_found
     | Some m =>
         do oi <- st_lift (orthanc_get_patient (orthanc_patient_id m));
         do ri <- st_lift (openmrs_get_patient (openmrs_patient_uuid m));
         st_ret (GM_found m oi ri)
     end)
    (fun e => st_ret (GM_server_error e)).

Definition delete_patient_mapping (i : nat) : st Store DeleteMappingResponse :=
  try_except
    (do s <- st_get;
     match objects_get_active i s with
     | None => st_ret DM_not_found
     | Some m => do _ <- mapping_save (deactivate m); st_ret DM_deleted
     end)
    (fun e => st_ret (DM_server_error e)).

Definition sync_patient_mapping (i : nat) : st Store SyncMappingResponse :=
  try_except
    (do s <- st_get;
     match objects_get_active i s with
     | None => st_ret SM_not_found
     | Some m =>
         match validate_mapping m with
         | [] => do m' <- update_sync_time m SYNCED None;
                 st_ret (SM_synced (last_sync m'))
         | errs => do m' <- update_sync_time m ERROR (Some (py_join "; " errs));
                   st_ret (SM_error (py_join "; " errs) (last_sync m'))
         end
     end)
    (fun e => st_ret (SM_server_error e)).

(** ** Routing: the mapping routes of urls.py *)

Inductive MappingRequest :=
| ReqList
| ReqCreate (o u : option string)
| ReqGet (i : nat)
| ReqDelete (i : nat)
| ReqSync (i : nat).

(** The database after serving one request. *)
Definition serve (r : MappingRequest) (s : Store) : Store :=
  match r with
  | ReqList => snd (get_patient_mappings s)
  | ReqCreate o u => snd (create_patient_mapping o u s)
  | ReqGet i => snd (get_patient_mapping i s)
  | ReqDelete i => snd (delete_patient_mapping i s)
  | ReqSync i => snd (sync_patient_mapping i s)
  end.
(** The status and body of the answers of [delete_patient_mapping]
    (lines 734-749). *)
Definition delete_response (r : DeleteMappingResponse) : nat * json :=
  match r with
  | DM_deleted => (200, JDict [("success", JBool true); ("message", JStr "매핑이 삭제되었습니다")])
  | DM_not_found => (404, JDict [("success", JBool false); ("error", JStr "매핑을 찾을 수 없습니다")])
  | DM_server_error e => (500, JDict [("success", JBool false); ("error", JStr e)])
  end.

(** The first [delete_patient_mapping] (lines 399-418), which the second
    definition rebinds when the module runs: the same queries, other
    answers. *)
Definition delete_patient_mapping_first (i : nat) : st Store (nat * json) :=
  try_except
    (do s <- st_get;
     match objects_get_active i s with
     | None => st_ret (404, JDict [("error", JStr "매핑을 찾을 수 없습니다")])
     | Some m =>
         do _ <- mapping_save (deactivate m);
         st_ret (200, JDict [("success", JBool true); ("message", JStr "매핑이 비활성화되었습니다")])
     end)
    (fun e => st_ret (500, JDict [("error", JStr e)])).
End Views.

(** ** Every view preserves the table invariant *)

Section ViewsWf.
Context `{OrthancAPI} `{OpenMRSAPI}.

Lemma validate_and_record_wf m s r s' :
  validate_and_record m s = (r, s') -> In m (rows s) -> store_wf s -> store_wf s'.
Proof.
  unfold validate_and_record. intros Hv Hin Hwf.
  destruct (validate_mapping m) as [|x l] eqn:Hval; st_unfold;
    rewrite update_sync_time_result in Hv; injection Hv as _ <-.
  - exact (update_sync_time_wf m SYNCED None s eq_refl Hin Hwf).
  - exact (update_sync_time_wf m ERROR _ s (sync_args_ok_errors m x l Hval) Hin Hwf).
Qed.

Lemma create_patient_mapping_wf o u s :
  store_wf s -> store_wf (snd (create_patient_mapping o u s)).
Proof.
  intros Hwf. unfold create_patient_mapping. st_unfold.
  destruct (request_ids o u) as [[o' u']|]; [|done].
  destruct (find_pair_first o' u' s) eqn:Hf; [done|].
  cbn. destruct (validate_and_record _ _) as [[[m' errs]|e] s'] eqn:Hv;
    (eapply validate_and_record_wf; [exact Hv| |]);
    [| exact (objects_create_wf o' u' None s (find_pair_first_none _ _ _ Hf) Hwf)
     | | exact (objects_create_wf o' u' None s (find_pair_first_none _ _ _ Hf) Hwf)];
    cbn; apply in_or_app; right; by left.
Qed.

Lemma delete_patient_mapping_wf i s :
  store_wf s -> store_wf (snd (delete_patient_mapping i s)).
Proof.
  intros Hwf. unfold delete_patient_mapping. st_unfold.
  destruct (objects_get_active i s) as [m|] eqn:Hg; [|done].
  apply objects_get_active_in in Hg as (Hin & _ & _).
  exact (save_deactivate_wf m s Hin Hwf).
Qed.

Lemma sync_patient_mapping_wf i s :
  store_wf s -> store_wf (snd (sync_patient_mapping i s)).
Proof.
  intros Hwf. unfold sync_patient_mapping. st_unfold.
  destruct (objects_get_active i s) as [m|] eqn:Hg; [|done].
  apply objects_get_active_in in Hg as (Hin & _ & _).
  destruct (validate_mapping m) as [|x l] eqn:Hval; rewrite update_sync_time_result; cbn.
  - exact (update_sync_time_wf m SYNCED None s eq_refl Hin Hwf).
  - exact (update_sync_time_wf m ERROR _ s (sync_args_ok_errors m x l Hval) Hin Hwf).
Qed.

Lemma get_patient_mapping_state i s : snd (get_patient_mapping i s) = s.
Proof.
  unfold get_patient_mapping. st_unfold.
  destruct (objects_get_active i s) as [m|]; [|done].
  destruct (orthanc_get_patient (orthanc_patient_id m));
    [destruct (openmrs_get_patient (openmrs_patient_uuid m))|]; done.
Qed.

Lemma serve_wf r s : store_wf s -> store_wf (serve r s).
Proof.
  intros Hwf. destruct r; cbn [serve].
  - done.
  - by apply create_patient_mapping_wf.
  - by rewrite get_patient_mapping_state.
  - by apply delete_patient_mapping_wf.
  - by apply sync_patient_mapping_wf.
Qed.

(** The two definitions of [delete_patient_mapping] do the same to the
    table and answer the same status codes; only their bodies differ. *)
Lemma delete_definitions_same_effect i s :
  snd (delete_patient_mapping_first i s) = snd (delete_patient_mapping i s) /\
  fst <$> fst (delete_patient_mapping_first i s)
  = (fun r => fst (delete_response r)) <$> fst (delete_patient_mapping i s).
Proof.
  unfold delete_patient_mapping_first, delete_patient_mapping, try_except, st_bind, st_get.
  destruct (objects_get_active i s) as [m|]; [|done].
  destruct (mapping_save (deactivate m) s) as [[]] ; done.
Qed.
End ViewsWf.

(** The databases the mapping views can produce: from an empty table, any
    sequence of requests, each served while Orthanc and OpenMRS answer as
    they do at that moment, with the clock advancing in between. *)
Inductive reachable : Store -> Prop :=
| reach_init t : reachable (empty_store t)
| reach_serve (O : OrthancAPI) (R : OpenMRSAPI) r s :
    reachable s -> reachable (@serve O R r s)
| reach_tick s :
    reachable s -> reachable (mkStore (rows s) (next_id s) (S (now s))).

(** C1: In every reachable database the table invariant holds: primary
    keys are unique and below the counter, ERROR rows and only they carry
    a non-empty error message, and no two active rows map the same pair. *)
Theorem reachable_store_wf s : reachable s -> store_wf s.
Proof.
  induction 1 as [t|O R r s _ IH|s _ [Hnd Hfr Hc Hp]].
  - apply empty_store_wf.
  - by apply serve_wf.
  - by split.
Qed.

Lemma reachable_store_wf_witness :
  store_wf (@serve (archive_of demo_archive) (directory_of demo_registry)
              (ReqCreate (Some "orth-1") (Some "uuid-a")) (empty_store 0)).
Proof. apply reachable_store_wf. apply reach_serve. apply reach_init. Defined.

(** ** The views' successful branches as equations *)

Section ViewEquations.
Context `{OrthancAPI} `{OpenMRSAPI}.

(** The sync outcome [validate_and_record] and [sync_patient_mapping]
    record for a row. *)
Definition sync_outcome (errs : list string) : SyncStatus * option string :=
  match errs with
  | [] => (SYNCED, None)
  | _ => (ERROR, Some (py_join "; " errs))
  end.

Definition synced_row (m : PatientMapping) (t : nat) : PatientMapping :=
  set_sync m (fst (sync_outcome (validate_mapping m))) (snd (sync_outcome (validate_mapping m))) t.

Lemma create_patient_mapping_eq o u o' u' s :
  store_wf s -> request_ids o u = Some (o', u') -> find_pair_first o' u' s = None ->
  let m' := synced_row (new_row o' u' None s) (now s) in
  create_patient_mapping o u s
  = (Ok (CM_created m' (match validate_mapping m' with [] => None | errs => Some errs end)),
     mkStore (rows s ++ [m']) (S (next_id s)) (now s)).
Proof.
  intros Hwf Hr Hf. unfold create_patient_mapping, validate_and_record, synced_row.
  rewrite Hr. st_unfold. cbn -[validate_mapping]. rewrite Hf. cbn -[validate_mapping].
  rewrite validate_mapping_set_sync.
  destruct (validate_mapping (new_row o' u' None s)) eqn:Hv; cbn -[validate_mapping];
    by rewrite replace_new_row.
Qed.

Lemma delete_patient_mapping_eq i s m :
  objects_get_active i s = Some m ->
  delete_patient_mapping i s
  = (Ok DM_deleted, mkStore (map (replace_row (deactivate m)) (rows s)) (next_id s) (now s)).
Proof. intros Hg. unfold delete_patient_mapping. st_unfold. by rewrite Hg. Qed.

Lemma sync_patient_mapping_eq i s m :
  objects_get_active i s = Some m ->
  snd (sync_patient_mapping i s)
  = mkStore (map (replace_row (synced_row m (now s))) (rows s)) (next_id s) (now s).
Proof.
  intros Hg. unfold sync_patient_mapping, synced_row. st_unfold. rewrite Hg.
  by destruct (validate_mapping m).
Qed.

(** After a row is replaced by an active row with the same key, fetching
    that key returns the new row. *)
Lemma objects_get_active_replace i s m m' :
  store_wf s -> objects_get_active i s = Some m ->
  mapping_id m' = i -> is_active m' = true ->
  objects_get_active i (mkStore (map (replace_row m') (rows s)) (next_id s) (now s)) = Some m'.
Proof.
  intros [Hnd _ _ _] Hg Hid Ha. apply objects_get_active_in in Hg as (Hin & Hmi & _).
  unfold objects_get_active. cbn. rewrite find_map.
  assert (Hfind : List.find (fun r => Nat.eqb (mapping_id (replace_row m' r)) i
                                      && is_active (replace_row m' r)) (rows s)
                  = List.find (fun r => Nat.eqb (mapping_id r) i) (rows s)).
  { apply find_ext. intros r. rewrite replace_row_id. unfold replace_row.
    destruct (Nat.eqb_spec (mapping_id r) (mapping_id m')); cbn;
      destruct (Nat.eqb_spec (mapping_id r) i); cbn; try done; lia. }
  rewrite Hfind. destruct (find_in_some (fun r => Nat.eqb (mapping_id r) i) (rows s) m Hin)
    as [y Hy]; [by apply Nat.eqb_eq|].
  rewrite Hy. apply find_some in Hy as [Hyin Hyi]. apply Nat.eqb_eq in Hyi.
  cbn. unfold replace_row. rewrite Hid, Hyi, Nat.eqb_refl. done.
Qed.
End ViewEquations.

(** ** Behaviour of the mapping views *)

Section ViewBehaviour.
Context `{OrthancAPI} `{OpenMRSAPI}.

(** C2: Creating a mapping for a fresh pair with both ids present adds
    exactly one row: the new key, the pair asked for, active; its status is
    SYNCED with no message when both endpoints validate, and ERROR with a
    non-empty message and the validation errors in the response
    otherwise. *)
Theorem create_patient_mapping_fresh o u o' u' s :
  store_wf s -> request_ids o u = Some (o', u') -> find_pair_first o' u' s = None ->
  exists m errs,
    fst (create_patient_mapping o u s) = Ok (CM_created m errs) /\
    rows (snd (create_patient_mapping o u s)) = rows s ++ [m] /\
    mapping_pair m = (o', u') /\ mapping_id m = next_id s /\ is_active m = true /\
    (validate_mapping m = [] ->
       sync_status m = Some SYNCED /\ error_message m = None /\ errs = None) /\
    (validate_mapping m <> [] ->
       sync_status m = Some ERROR /\ errs = Some (validate_mapping m) /\
       exists e, error_message m = Some e /\ e <> "").
Proof.
  intros Hwf Hr Hf. rewrite (create_patient_mapping_eq o u o' u' s Hwf Hr Hf). cbn.
  set (m0 := new_row o' u' None s).
  eexists _, _. split; [reflexivity|]. split; [reflexivity|].
  unfold synced_row. rewrite !validate_mapping_set_sync.
  destruct (validate_mapping m0) as [|x l] eqn:Hv; cbn.
  - split_and!; try done.
  - split_and!; try done. intros _. split_and!; [done|done|].
    eexists. split; [reflexivity|].
    pose proof (sync_args_ok_errors m0 x l Hv) as Hok. cbn [sync_args_ok] in Hok.
    by destruct (String.eqb_spec (py_join "; " (x :: l)) "").
Qed.

(** C3: Calling create_patient_mapping twice with the same ids answers
    the second call with the duplicate response and leaves the table as
    the first call left it. *)
Theorem create_patient_mapping_twice o u o' u' s :
  store_wf s -> request_ids o u = Some (o', u') ->
  let s1 := snd (create_patient_mapping o u s) in
  exists i, create_patient_mapping o u s1 = (Ok (CM_duplicate i), s1).
Proof.
  intros Hwf Hr s1. unfold s1.
  destruct (find_pair_first o' u' s) as [ex|] eqn:Hf.
  - assert (He : create_patient_mapping o u s = (Ok (CM_duplicate (mapping_id ex)), s)).
    { unfold create_patient_mapping. rewrite Hr. st_unfold. by rewrite Hf. }
    rewrite He. cbn. exists (mapping_id ex). exact He.
  - rewrite (create_patient_mapping_eq o u o' u' s Hwf Hr Hf). cbn.
    set (m' := synced_row (new_row o' u' None s) (now s)).
    set (s' := mkStore (rows s ++ [m']) (S (next_id s)) (now s)).
    destruct (find_in_some (fun r => String.eqb (orthanc_patient_id r) o'
                              && String.eqb (openmrs_patient_uuid r) u') (rows s') m')
      as [ex Hex].
    + apply in_or_app. right. by left.
    + cbn. by rewrite !String.eqb_refl.
    + exists (mapping_id ex). unfold create_patient_mapping. rewrite Hr. st_unfold.
      unfold find_pair_first. by rewrite Hex.
Qed.

(** C4: Deleting a mapping only deactivates it: the row stays in the
    table with its key and data and [is_active] false, the table keeps its
    size, and no active row has the deleted key any more. *)
Theorem delete_patient_mapping_soft i s m :
  objects_get_active i s = Some m ->
  let s' := snd (delete_patient_mapping i s) in
  fst (delete_patient_mapping i s) = Ok DM_deleted /\
  In (deactivate m) (rows s') /\ length (rows s') = length (rows s) /\
  Forall (fun r => mapping_id r <> i) (get_active_mappings s').
Proof.
  intros Hg s'. unfold s'. rewrite (delete_patient_mapping_eq i s m Hg). cbn.
  apply objects_get_active_in in Hg as (Hin & Hmi & Ha).
  split; [done|]. split; [|split].
  - apply in_map_iff. exists m. split; [|done]. unfold replace_row. cbn. by rewrite Nat.eqb_refl.
  - apply length_map.
  - unfold get_active_mappings. cbn. rewrite filter_replace_deactivate.
    apply List.Forall_forall. intros r Hr. apply filter_In in Hr as [_ Hr].
    rewrite <- Hmi. by destruct (Nat.eqb_spec (mapping_id r) (mapping_id m)).
Qed.

(** C5: After a mapping is deleted, get_patient_mapping answers 404 for
    its key: the deactivated row is kept in the table but the view cannot
    return it (spec.md section 8 says it stays retrievable by id). *)
Theorem get_after_delete_not_found i s :
  fst (get_patient_mapping i (snd (delete_patient_mapping i s))) = Ok GM_not_found.
Proof.
  destruct (objects_get_active i s) as [m|] eqn:Hg.
  - rewrite (delete_patient_mapping_eq i s m Hg). unfold get_patient_mapping. st_unfold.
    cbn -[replace_row]. unfold objects_get_active. cbn. rewrite find_map.
    rewrite (find_ext _ (fun _ => false)); [by rewrite find_const_false|].
    intros r. unfold replace_row. cbn.
    apply objects_get_active_in in Hg as (_ & Hmi & _).
    destruct (Nat.eqb_spec (mapping_id r) (mapping_id m)); cbn; [|].
    + by rewrite andb_false_r.
    + destruct (Nat.eqb_spec (mapping_id r) i); [congruence|done].
  - unfold delete_patient_mapping. st_unfold. rewrite Hg. cbn.
    unfold get_patient_mapping. st_unfold. by rewrite Hg.
Qed.

(** C6: Deleting a mapping and asking again for the same pair is refused
    as a duplicate: the duplicate check of create_patient_mapping reads
    inactive rows too, while spec.md section 3 restricts it to active
    mappings. *)
Theorem create_after_delete_duplicate i s m :
  objects_get_active i s = Some m ->
  orthanc_patient_id m <> "" -> openmrs_patient_uuid m <> "" ->
  let s1 := snd (delete_patient_mapping i s) in
  exists j, create_patient_mapping (Some (orthanc_patient_id m))
              (Some (openmrs_patient_uuid m)) s1 = (Ok (CM_duplicate j), s1).
Proof.
  intros Hg Ho Hu s1. unfold s1. rewrite (delete_patient_mapping_eq i s m Hg). cbn.
  apply objects_get_active_in in Hg as (Hin & _ & _).
  set (s' := mkStore (map (replace_row (deactivate m)) (rows s)) (next_id s) (now s)).
  destruct (find_in_some (fun r => String.eqb (orthanc_patient_id r) (orthanc_patient_id m)
                            && String.eqb (openmrs_patient_uuid r) (openmrs_patient_uuid m))
              (rows s') (deactivate m)) as [ex Hex].
  - apply in_map_iff. exists m. split; [|done]. unfold replace_row. cbn. by rewrite Nat.eqb_refl.
  - cbn. by rewrite !String.eqb_refl.
  - exists (mapping_id ex). unfold create_patient_mapping, request_ids.
    apply str_truthy_Some in Ho, Hu. rewrite Ho, Hu. cbn. st_unfold.
    unfold find_pair_first. by rewrite Hex.
Qed.

(** C7: create_patient_mapping gives an archive patient that already has
    an active mapping a second active mapping when the OpenMRS uuid
    differs: its duplicate check is on the pair only, while spec.md
    section 3 says an archive patient has at most one active mapping. *)
Theorem create_second_active_mapping o u s m :
  store_wf s -> active_for_archive o s = Some m -> find_pair_first o u s = None ->
  o <> "" -> u <> "" ->
  2 <= length (List.filter (fun r => is_active r && String.eqb (orthanc_patient_id r) o)
                 (rows (snd (create_patient_mapping (Some o) (Some u) s)))).
Proof.
  intros Hwf Ha Hf Ho Hu.
  assert (Hr : request_ids (Some o) (Some u) = Some (o, u)).
  { unfold request_ids. apply str_truthy_Some in Ho, Hu. by rewrite Ho, Hu. }
  rewrite (create_patient_mapping_eq _ _ o u s Hwf Hr Hf). cbn.
  rewrite List.filter_app, length_app. cbn. rewrite String.eqb_refl.
  apply find_some in Ha as [Hin Hp].
  destruct (List.filter _ (rows s)) eqn:Hfl; [|cbn; lia].
  exfalso. assert (Hin' : In m (List.filter (fun r => is_active r && String.eqb (orthanc_patient_id r) o) (rows s)))
    by (apply filter_In; auto).
  by rewrite Hfl in Hin'.
Qed.
End ViewBehaviour.

(** ** Re-validation *)

Lemma sync_patient_mapping_get `{OrthancAPI} `{OpenMRSAPI} i s m :
  store_wf s -> objects_get_active i s = Some m ->
  objects_get_active i (snd (sync_patient_mapping i s)) = Some (synced_row m (now s)).
Proof.
  intros Hwf Hg. rewrite (sync_patient_mapping_eq i s m Hg).
  apply objects_get_active_in in Hg as Hg'. destruct Hg' as (_ & Hmi & Ha).
  apply (objects_get_active_replace i s m); [done|done|done|].
  unfold synced_row. by destruct (sync_outcome _).
Qed.

(** C8: Re-validating a mapping while one endpoint cannot be resolved
    records ERROR with a non-empty message; re-validating it again once
    both endpoints resolve records SYNCED and clears the message (spec.md
    section 8). *)
Theorem sync_error_then_synced (O : OrthancAPI) (R1 R2 : OpenMRSAPI) i s m :
  store_wf s -> objects_get_active i s = Some m ->
  @validate_mapping O R1 m <> [] -> @validate_mapping O R2 m = [] ->
  let s1 := snd (@sync_patient_mapping O R1 i s) in
  let s2 := snd (@sync_patient_mapping O R2 i s1) in
  (exists m1, objects_get_active i s1 = Some m1 /\ sync_status m1 = Some ERROR /\
              exists e, error_message m1 = Some e /\ e <> "") /\
  (exists m2, objects_get_active i s2 = Some m2 /\ sync_status m2 = Some SYNCED /\
              error_message m2 = None).
Proof.
  intros Hwf Hg Hbad Hgood s1 s2.
  pose proof (@sync_patient_mapping_get O R1 i s m Hwf Hg) as Hg1.
  pose proof (@sync_patient_mapping_wf O R1 i s Hwf) as Hwf1.
  pose proof (@sync_patient_mapping_get O R2 i s1 _ Hwf1 Hg1) as Hg2.
  split.
  - eexists. split; [exact Hg1|]. unfold synced_row.
    destruct (@validate_mapping O R1 m) as [|x l] eqn:Hv; [done|]. cbn.
    split; [done|]. eexists. split; [reflexivity|].
    apply py_join_nonempty.
    pose proof (@validate_msgs_nonempty O R1 m) as Hne. rewrite Hv in Hne.
    by apply Forall_cons in Hne as [? _].
  - eexists. split; [exact Hg2|]. unfold synced_row.
    rewrite (@validate_mapping_set_sync O R2), Hgood. done.
Qed.

(** ** Witnesses on the demo services *)

Section Witnesses.
#[local] Instance demo_orthanc : OrthancAPI := archive_of demo_archive.
#[local] Instance demo_openmrs : OpenMRSAPI := directory_of demo_registry.

(** The table after mapping archive patient orth-1 to registry patient A. *)
Definition demo_s1 : Store :=
  snd (create_patient_mapping (Some "orth-1") (Some "uuid-a") (empty_store 0)).

Lemma demo_s1_wf : store_wf demo_s1.
Proof. apply create_patient_mapping_wf, empty_store_wf. Qed.

Lemma create_patient_mapping_fresh_witness :
  exists m errs,
    fst (create_patient_mapping (Some "orth-1") (Some "uuid-a") (empty_store 0))
      = Ok (CM_created m errs) /\
    rows (snd (create_patient_mapping (Some "orth-1") (Some "uuid-a") (empty_store 0)))
      = rows (empty_store 0) ++ [m] /\
    mapping_pair m = ("orth-1", "uuid-a") /\ mapping_id m = next_id (empty_store 0) /\
    is_active m = true /\
    (validate_mapping m = [] -> sync_status m = Some SYNCED /\ error_message m = None /\ errs = None) /\
    (validate_mapping m <> [] -> sync_status m = Some ERROR /\ errs = Some (validate_mapping m) /\
       exists e, error_message m = Some e /\ e <> "").
Proof.
  apply create_patient_mapping_fresh; [apply empty_store_wf | vm_compute; reflexivity | vm_compute; reflexivity].
Defined.

Lemma create_patient_mapping_twice_witness :
  exists i, create_patient_mapping (Some "orth-1") (Some "uuid-a") demo_s1
            = (Ok (CM_duplicate i), demo_s1).
Proof.
  apply (create_patient_mapping_twice (Some "orth-1") (Some "uuid-a") "orth-1" "uuid-a" (empty_store 0));
    [apply empty_store_wf | vm_compute; reflexivity].
Defined.

Lemma delete_patient_mapping_soft_witness :
  exists m, objects_get_active 1 demo_s1 = Some m /\
  fst (delete_patient_mapping 1 demo_s1) = Ok DM_deleted /\
  In (deactivate m) (rows (snd (delete_patient_mapping 1 demo_s1))) /\
  length (rows (snd (delete_patient_mapping 1 demo_s1))) = length (rows demo_s1) /\
  Forall (fun r => mapping_id r <> 1) (get_active_mappings (snd (delete_patient_mapping 1 demo_s1))).
Proof.
  eexists. split; [vm_compute; reflexivity|].
  apply delete_patient_mapping_soft. vm_compute. reflexivity.
Defined.

Lemma create_after_delete_duplicate_witness :
  exists j, create_patient_mapping (Some "orth-1") (Some "uuid-a")
              (snd (delete_patient_mapping 1 demo_s1))
            = (Ok (CM_duplicate j), snd (delete_patient_mapping 1 demo_s1)).
Proof.
  refine (create_after_delete_duplicate 1 demo_s1
            (synced_row (new_row "orth-1" "uuid-a" None (empty_store 0)) 0) _ _ _);
    [vm_compute; reflexivity | vm_compute; congruence | vm_compute; congruence].
Defined.

Lemma create_second_active_mapping_witness :
  2 <= length (List.filter (fun r => is_active r && String.eqb (orthanc_patient_id r) "orth-1")
                 (rows (snd (create_patient_mapping (Some "orth-1") (Some "uuid-b") demo_s1)))).
Proof.
  eapply create_second_active_mapping;
    [apply demo_s1_wf | vm_compute; reflexivity | vm_compute; reflexivity | done | done].
Defined.
(** While registry patient A is missing, then after it is restored. *)
Lemma sync_error_then_synced_witness :
  let R1 := directory_of (tl demo_registry) in
  let R2 := directory_of demo_registry in
  let m := synced_row (new_row "orth-1" "uuid-a" None (empty_store 0)) 0 in
  let s1 := snd (@sync_patient_mapping demo_orthanc R1 1 demo_s1) in
  let s2 := snd (@sync_patient_mapping demo_orthanc R2 1 s1) in
  (exists m1, objects_get_active 1 s1 = Some m1 /\ sync_status m1 = Some ERROR /\
              exists e, error_message m1 = Some e /\ e <> "") /\
  (exists m2, objects_get_active 1 s2 = Some m2 /\ sync_status m2 = Some SYNCED /\
              error_message m2 = None).
Proof.
  apply (sync_error_then_synced demo_orthanc (directory_of (tl demo_registry))
           (directory_of demo_registry) 1 demo_s1
           (synced_row (new_row "orth-1" "uuid-a" None (empty_store 0)) 0));
    [apply demo_s1_wf | vm_compute; reflexivity | vm_compute; discriminate
    | vm_compute; reflexivity].
Defined.
End Witnesses.
