(* ===== verification/MappingSpec.v ===== *)
(** * What the mapping table promises, and the refinement of the views

    The abstract state of the mapping component is the relation of active
    pairs (archive patient id, registry uuid), a [gset].  [spec_step] says
    what one request may do to it: reads and re-validation leave it alone,
    a creation either adds a pair that was absent or is refused, a deletion
    either removes a pair that was present or finds nothing.  [abs_active]
    maps a concrete table to its abstract state, and every view of
    [MappingViews] refines [spec_step] (a forward simulation, one abstract
    step per request). *)

From stdpp Require Import base list strings gmap.
From S2P Require Import Prelude Services MappingModel MappingViews.

Definition abs_active (s : Store) : gset (string * string) :=
  list_to_set (map mapping_pair (get_active_mappings s)).

Inductive spec_step : gset (string * string) -> MappingRequest -> gset (string * string) -> Prop :=
| spec_list A : spec_step A ReqList A
| spec_get A i : spec_step A (ReqGet i) A
| spec_sync A i : spec_step A (ReqSync i) A
| spec_create_add A o u o' u' :
    request_ids o u = Some (o', u') -> (o', u') ∉ A ->
    spec_step A (ReqCreate o u) ({[(o', u')]} ∪ A)
| spec_create_refused A o u : spec_step A (ReqCreate o u) A
| spec_delete_remove A i p : p ∈ A -> spec_step A (ReqDelete i) (A ∖ {[p]})
| spec_delete_missing A i : spec_step A (ReqDelete i) A.

Lemma elem_of_abs_active x s :
  x ∈ abs_active s <-> exists r, In r (rows s) /\ is_active r = true /\ mapping_pair r = x.
Proof.
  unfold abs_active, get_active_mappings.
  rewrite elem_of_list_to_set, list_elem_of_In, in_map_iff. split.
  - intros (r & <- & Hr). apply filter_In in Hr as [Hr Ha]. eauto.
  - intros (r & Hr & Ha & <-). exists r. split; [done|]. by apply filter_In.
Qed.

Section Refinement.
Context `{OrthancAPI} `{OpenMRSAPI}.

Lemma abs_active_create o u o' u' s :
  store_wf s -> request_ids o u = Some (o', u') -> find_pair_first o' u' s = None ->
  abs_active (snd (create_patient_mapping o u s)) = {[(o', u')]} ∪ abs_active s
  /\ (o', u') ∉ abs_active s.
Proof.
  intros Hwf Hreq Hf. rewrite (create_patient_mapping_eq o u o' u' s Hwf Hreq Hf). cbn [snd].
  split.
  - apply set_eq. intros x. rewrite elem_of_union, elem_of_singleton, !elem_of_abs_active.
    split.
    + intros (r & Hr & Ha & Hp). apply in_app_iff in Hr as [Hr|[<-|[]]];
        [right; eauto|left; by rewrite <- Hp].
    + intros [->|(r & Hr & Ha & Hp)].
      * eexists. split; [apply in_or_app; right; by left|]. done.
      * exists r. split; [apply in_or_app; by left|done].
  - rewrite elem_of_abs_active. intros (r & Hr & Ha & Hp).
    pose proof (find_pair_first_none o' u' s Hf) as Hn.
    eapply List.Forall_forall in Hn; [exact (Hn Hp)|]. by apply filter_In.
Qed.

Lemma abs_active_delete i s m :
  store_wf s -> objects_get_active i s = Some m ->
  abs_active (snd (delete_patient_mapping i s)) = abs_active s ∖ {[mapping_pair m]}
  /\ mapping_pair m ∈ abs_active s.
Proof.
  intros [Hnd _ _ Hp] Hg. rewrite (delete_patient_mapping_eq i s m Hg). cbn [snd].
  apply objects_get_active_in in Hg as (Hin & _ & Ha).
  assert (Hinj : forall r, In r (rows s) -> is_active r = true ->
                 mapping_pair r = mapping_pair m -> r = m).
  { intros r Hr Hra Hrp. unfold get_active_mappings in Hp.
    apply (NoDup_map_in_inj mapping_pair _ r m Hp); [by apply filter_In..|done]. }
  split; [|apply elem_of_abs_active; eauto].
  apply set_eq. intros x. rewrite elem_of_difference, elem_of_singleton, !elem_of_abs_active.
  split.
  - intros (r' & Hr' & Ha' & Hp'). apply in_map_iff in Hr' as (r & <- & Hr).
    unfold replace_row in Ha', Hp'. cbn [mapping_id deactivate] in Ha', Hp'. destruct (Nat.eqb_spec (mapping_id r) (mapping_id m)).
    + by cbn in Ha'.
    + split; [eauto|]. intros Heq. subst x. apply n. f_equal. by apply Hinj.
  - intros [(r & Hr & Hra & <-) Hne]. exists r. split; [|split].
    + apply in_map_iff. exists r. split; [|done]. unfold replace_row. cbn [mapping_id deactivate].
      destruct (Nat.eqb_spec (mapping_id r) (mapping_id m)) as [E|]; [|done].
      by rewrite (NoDup_map_in_inj mapping_id _ r m Hnd Hr Hin E) in Hne.
    + unfold replace_row. cbn [mapping_id deactivate]. destruct (Nat.eqb_spec (mapping_id r) (mapping_id m)) as [E|]; [|done].
      by rewrite (NoDup_map_in_inj mapping_id _ r m Hnd Hr Hin E) in Hne.
    + unfold replace_row. cbn [mapping_id deactivate]. destruct (Nat.eqb_spec (mapping_id r) (mapping_id m)) as [E|]; [|done].
      by rewrite (NoDup_map_in_inj mapping_id _ r m Hnd Hr Hin E) in Hne.
Qed.

Lemma abs_active_sync i s : store_wf s -> abs_active (snd (sync_patient_mapping i s)) = abs_active s.
Proof.
  intros Hwf. destruct (objects_get_active i s) as [m|] eqn:Hg.
  - rewrite (sync_patient_mapping_eq i s m Hg). unfold abs_active, get_active_mappings. cbn.
    apply objects_get_active_in in Hg as (Hin & _ & _). f_equal.
    apply active_pairs_replace. intros r Hr Hid.
    rewrite (NoDup_map_in_inj mapping_id _ r m (wf_ids_nodup _ Hwf) Hr Hin Hid).
    unfold synced_row. by destruct (sync_outcome _).
  - unfold sync_patient_mapping. st_unfold. by rewrite Hg.
Qed.
End Refinement.


