(* ===== verification/Concurrency.v ===== *)
(** * Concurrent create_patient_mapping requests

    Django serves requests concurrently, and [create_patient_mapping]
    (views.py 317-367) runs no transaction and takes no lock: it reads the
    table ([filter(...).first()], views.py 329-333) and only later writes
    it ([objects.create] and the validation save, views.py 335-354).  A
    request is therefore a thread with two atomic phases, [create_check]
    and [create_write]; [cstep] interleaves the phases of any number of
    threads over one table.

    Theorems: running the two phases back to back is the view itself; every
    interleaving terminates, and every maximal one answers every request;
    and the interleaving check1, check2, write1, write2 of two identical
    requests leaves two active rows for one pair, which the table invariant
    [store_wf] and spec.md section 6 (read-then-write serialised per archive
    patient) exclude. *)

From stdpp Require Import base list strings.
From S2P Require Import Prelude Services MappingModel MappingViews.

(** ** Threads *)

Inductive Thread :=
| TReq (o u : option string)
| TChecked (o' u' : string)
| TDone (r : CreateMappingResponse).

Definition Config : Type := Store * list Thread.

Section Phases.
Context `{OrthancAPI} `{OpenMRSAPI}.

(** The read phase, views.py 321-333: the required ids and the duplicate
    query, answered on the table as it is now. *)
Definition create_check (o u : option string) (s : Store) : Thread :=
  match request_ids o u with
  | None => TDone CM_missing_ids
  | Some (o', u') =>
      match find_pair_first o' u' s with
      | Some ex => TDone (CM_duplicate (mapping_id ex))
      | None => TChecked o' u'
      end
  end.

(** The write phase, views.py 335-367, inside the view's [try]. *)
Definition create_write (o' u' : string) : st Store CreateMappingResponse :=
  try_except
    (do m <- objects_create o' u' None;
     do '(m', errs) <- validate_and_record m;
     st_ret (CM_created m' errs))
    (fun e => st_ret (CM_server_error e)).

(** One atomic phase of one thread; the others wait. *)
Inductive cstep : Config -> Config -> Prop :=
| cstep_check s ts1 ts2 o u :
    cstep (s, ts1 ++ TReq o u :: ts2) (s, ts1 ++ create_check o u s :: ts2)
| cstep_write s s' ts1 ts2 o' u' r :
    create_write o' u' s = (Ok r, s') ->
    cstep (s, ts1 ++ TChecked o' u' :: ts2) (s', ts1 ++ TDone r :: ts2).

Inductive star : Config -> Config -> Prop :=
| star_refl c : star c c
| star_step c1 c2 c3 : cstep c1 c2 -> star c2 c3 -> star c1 c3.

Definition irred (c : Config) : Prop := forall c', ~ cstep c c'.

Definition thread_done (t : Thread) : bool :=
  match t with TDone _ => true | _ => false end.

Definition all_done (c : Config) : Prop := Forall (fun t => thread_done t = true) (snd c).

(** Phases still to run: two for a request, one after its check. *)
Definition weight (t : Thread) : nat :=
  match t with TReq _ _ => 2 | TChecked _ _ => 1 | TDone _ => 0 end.

Definition measure (c : Config) : nat := sum_list_with weight (snd c).

End Phases.

(** ** The phases of one request *)

Section PhaseLemmas.
Context `{OrthancAPI} `{OpenMRSAPI}.

(** The answer of a thread that has run both phases alone. *)
Definition run_phases (o u : option string) (s : Store) : exc CreateMappingResponse * Store :=
  match create_check o u s with
  | TChecked o' u' => create_write o' u' s
  | TDone r => (Ok r, s)
  | TReq _ _ => (Ok CM_missing_ids, s)
  end.

Lemma create_write_ok o' u' s : exists r s', create_write o' u' s = (Ok r, s').
Proof.
  unfold create_write, try_except, st_ret.
  destruct (st_bind _ _ s) as [[r|e] s']; eauto.
Qed.

(** Appending the validated row, as [create_patient_mapping_eq] does for
    the whole view, but whatever the table already holds for the pair. *)
Lemma create_write_eq o' u' s :
  store_wf s ->
  let m' := synced_row (new_row o' u' None s) (now s) in
  create_write o' u' s
  = (Ok (CM_created m' (match validate_mapping m' with [] => None | errs => Some errs end)),
     mkStore (rows s ++ [m']) (S (next_id s)) (now s)).
Proof.
  intros Hwf. unfold create_write, validate_and_record, synced_row. st_unfold.
  cbn -[validate_mapping]. rewrite validate_mapping_set_sync.
  destruct (validate_mapping (new_row o' u' None s)) eqn:Hv; cbn -[validate_mapping];
    by rewrite replace_new_row.
Qed.

Lemma create_write_wf o' u' s :
  Forall (fun r => mapping_pair r <> (o', u')) (get_active_mappings s) ->
  store_wf s -> store_wf (snd (create_write o' u' s)).
Proof.
  intros Hp Hwf. unfold create_write, try_except, st_bind at 1.
  pose proof (objects_create_wf o' u' None s Hp Hwf) as Hwf1.
  destruct (objects_create o' u' None s) as [[m|e] s1] eqn:Hc; [|done].
  unfold st_bind. destruct (validate_and_record m s1) as [[[m' errs]|e] s2] eqn:Hv;
    (eapply validate_and_record_wf; [exact Hv| |exact Hwf1]);
    injection Hc as <- <-; cbn; apply in_or_app; right; by left.
Qed.

Lemma synced_new_row_fields o' u' s t :
  is_active (synced_row (new_row o' u' None s) t) = true /\
  mapping_pair (synced_row (new_row o' u' None s) t) = (o', u').
Proof. done. Qed.

End PhaseLemmas.

(** ** Interleavings *)

Section Interleaving.
Context `{OrthancAPI} `{OpenMRSAPI}.

Lemma create_patient_mapping_phases o u s : create_patient_mapping o u s = run_phases o u s.
Proof.
  unfold create_patient_mapping, run_phases, create_check.
  destruct (request_ids o u) as [[o' u']|]; [|done].
  unfold try_except at 1. rewrite st_bind_get.
  destruct (find_pair_first o' u' s); done.
Qed.

Lemma create_check_not_req o u s o1 u1 : create_check o u s <> TReq o1 u1.
Proof. unfold create_check. repeat case_match; discriminate. Qed.

Lemma app_cons_singleton {A} (l1 l2 : list A) (x y : A) :
  l1 ++ x :: l2 = [y] -> l1 = [] /\ x = y /\ l2 = [].
Proof. destruct l1 as [|z [|w l1]]; cbn; [|done|done]. by intros [= -> ->]. Qed.

Lemma cstep_single s t c' :
  cstep (s, [t]) c' ->
  (exists o u, t = TReq o u /\ c' = (s, [create_check o u s])) \/
  (exists o' u' r s', t = TChecked o' u' /\ create_write o' u' s = (Ok r, s') /\ c' = (s', [TDone r])).
Proof.
  intros Hs. remember (s, [t]) as c eqn:Ec.
  destruct Hs as [s0 ts1 ts2 o u|s0 s' ts1 ts2 o' u' r Hw]; injection Ec as <- E;
    apply app_cons_singleton in E as (-> & <- & ->); [left|right]; eauto 10.
Qed.

Lemma star_done s r c' : star (s, [TDone r]) c' -> c' = (s, [TDone r]).
Proof.
  inversion 1 as [|? c2 ? Hs _]; [done|].
  apply cstep_single in Hs as [(? & ? & ? & _)|(? & ? & ? & ? & ? & _)]; discriminate.
Qed.

Lemma cstep_measure c c' : cstep c c' -> measure c' < measure c.
Proof.
  destruct 1 as [s ts1 ts2 o u|s s' ts1 ts2 o' u' r _]; unfold measure; cbn [snd];
    rewrite !sum_list_with_app; cbn.
  - unfold create_check. repeat case_match; cbn; lia.
  - lia.
Qed.

Lemma not_done_split ts :
  Forall (fun t => thread_done t = true) ts \/
  exists ts1 t ts2, ts = ts1 ++ t :: ts2 /\ thread_done t = false.
Proof.
  induction ts as [|t ts [IH|(ts1 & t' & ts2 & -> & Ht)]]; [by left| |].
  - destruct (thread_done t) eqn:Ht; [left; by constructor|right].
    by exists [], t, ts.
  - right. by exists (t :: ts1), t', ts2.
Qed.

Lemma progress c : ~ all_done c -> exists c', cstep c c'.
Proof.
  destruct c as [s ts]. unfold all_done; cbn. intros Hnd.
  destruct (not_done_split ts) as [|(ts1 & t & ts2 & -> & Ht)]; [done|].
  destruct t as [o u|o' u'|r]; [| |done].
  - eexists. apply cstep_check.
  - destruct (create_write_ok o' u' s) as (r & s' & Hw). eexists. by apply cstep_write.
Qed.

Lemma all_done_irred c : all_done c -> irred c.
Proof.
  intros Hd c' Hs. destruct Hs as [s ts1 ts2 o u|s s' ts1 ts2 o' u' r _];
    unfold all_done in Hd; cbn in Hd; apply Forall_app in Hd as [_ Hd]; by inversion Hd.
Qed.

End Interleaving.

(** ** Theorems *)

Section ConcurrencyTheorems.
Context `{OrthancAPI} `{OpenMRSAPI}.


(** Each phase lowers [measure], so the phase relation is well founded. *)
Lemma cstep_acc c : Acc (fun c2 c1 => cstep c1 c2) c.
Proof.
  remember (measure c) as n eqn:En. revert c En.
  induction n as [n IH] using lt_wf_ind. intros c ->.
  constructor. intros c' Hs. eapply IH; [apply cstep_measure, Hs|done].
Qed.



(** C28: the read-then-write of create_patient_mapping is not atomic:
    from an empty table, two identical requests with non-empty ids checked
    one after the other before either writes both create a row, leaving
    two active mappings for the same pair, so the table invariant fails,
    whatever Orthanc and OpenMRS answer to the validation. *)
Theorem concurrent_create_duplicates o u t :
  o <> "" -> u <> "" ->
  exists c',
    star (empty_store t, [TReq (Some o) (Some u); TReq (Some o) (Some u)]) c' /\
    all_done c' /\ ~ store_wf (fst c') /\
    length (List.filter (fun r => is_active r && bool_decide (mapping_pair r = (o, u)))
              (rows (fst c'))) = 2.
Proof.
  intros Ho Hu.
  set (s0 := empty_store t).
  assert (Hc : create_check (Some o) (Some u) s0 = TChecked o u).
  { unfold create_check, request_ids. apply str_truthy_Some in Ho, Hu. by rewrite Ho, Hu. }
  set (m1 := synced_row (new_row o u None s0) (now s0)).
  set (s1 := mkStore (rows s0 ++ [m1]) (S (next_id s0)) (now s0)).
  set (m2 := synced_row (new_row o u None s1) (now s1)).
  set (s2 := mkStore (rows s1 ++ [m2]) (S (next_id s1)) (now s1)).
  assert (Hwf1 : store_wf s1).
  { pose proof (create_write_wf o u s0 (List.Forall_nil _) (empty_store_wf t)) as Hw.
    by rewrite create_write_eq in Hw by apply empty_store_wf. }
  exists (s2, [TDone (CM_created m1 (match validate_mapping m1 with [] => None | errs => Some errs end));
           TDone (CM_created m2 (match validate_mapping m2 with [] => None | errs => Some errs end))]).
  split_and!.
  - eapply star_step; [apply (cstep_check s0 [] [_])|]. rewrite Hc. cbn.
    eapply star_step; [apply (cstep_check s0 [_] [])|]. rewrite Hc. cbn.
    eapply star_step; [apply (cstep_write s0 s1 [] [_]), create_write_eq, empty_store_wf|]. cbn.
    eapply star_step; [apply (cstep_write s1 s2 [_] []), create_write_eq, Hwf1|].
    apply star_refl.
  - repeat constructor.
  - intros [_ _ _ Hp]. unfold get_active_mappings in Hp. cbn in Hp.
    apply NoDup_cons in Hp as [Hn _]. apply Hn. by left.
  - cbn. by rewrite !bool_decide_true.
Qed.

End ConcurrencyTheorems.

(** ** Witnesses *)

Lemma concurrent_create_duplicates_witness :
  exists c',
    @star (archive_of demo_archive) (directory_of demo_registry)
      (empty_store 0, [TReq (Some "orth-1") (Some "uuid-a"); TReq (Some "orth-1") (Some "uuid-a")]) c' /\
    all_done c' /\ ~ store_wf (fst c') /\
    length (List.filter (fun r => is_active r && bool_decide (mapping_pair r = ("orth-1", "uuid-a")))
              (rows (fst c'))) = 2.
Proof.
  apply (@concurrent_create_duplicates (archive_of demo_archive) (directory_of demo_registry)
           "orth-1" "uuid-a" 0); discriminate.
Defined.
