(* ===== verification/Matcher.v ===== *)
(** * The DicomPatientMapper: tag extraction, matching, mapping creation

    dicom_patient_mapper.py is not under src/; the views call its
    [process_dicom_upload] and [create_manual_mapping].  This file models
    them from spec.md sections 4.1 to 4.4: [extract_key] (TagExtractor),
    [resolve] (IdentityMatcher, identifier first, then demographics, with
    one/many/none classification), [process_dicom_upload]
    (reconcileUpload: the archive's patient id comes from the upload
    result, an active mapping for it is an idempotent success, a unique
    match creates an AUTO mapping validated once) and
    [create_manual_mapping].  A registry call that raises is surfaced as a
    failed outcome (spec.md section 7), never as an exception. *)

From Stdlib Require Import Ascii.
From stdpp Require Import base list strings.
From S2P Require Import Prelude Services MappingModel.

(** ** TagExtractor *)

Inductive Sex := SexM | SexF | SexO | SexUnknown.

Record MatchKey := mkMatchKey {
  key_identifier : option string;
  key_family : option string;
  key_given : option string;
  key_birth_date : option string;
  key_sex : Sex
}.

Definition nonempty (s : string) : option string :=
  if String.eqb s "" then None else Some s.

(** The first caret-separated component of a DICOM person name and the
    rest after the caret, if any. *)
Fixpoint split_at_caret (s : string) : string * option string :=
  match s with
  | EmptyString => (EmptyString, None)
  | String c s' =>
      if Ascii.eqb c "^"%char then (EmptyString, Some s')
      else let '(a, b) := split_at_caret s' in (String c a, b)
  end.

(** [Family^Given^...] *)
Definition person_name (pn : string) : option string * option string :=
  let '(fam, rest) := split_at_caret pn in
  (nonempty fam, match rest with Some r => nonempty (fst (split_at_caret r)) | None => None end).

(** DICOM dates are [YYYYMMDD]; the key carries ISO [YYYY-MM-DD]. *)
Definition dicom_date_to_iso (d : string) : option string :=
  match d with
  | String y1 (String y2 (String y3 (String y4 (String m1 (String m2
      (String d1 (String d2 EmptyString))))))) =>
      if forallb is_digit [y1; y2; y3; y4; m1; m2; d1; d2]
      then Some (String y1 (String y2 (String y3 (String y4 (String "-"%char
             (String m1 (String m2 (String "-"%char (String d1 (String d2 EmptyString))))))))))
      else None
  | _ => None
  end.

Definition sex_of (o : option string) : Sex :=
  match o with
  | Some "M" => SexM
  | Some "F" => SexF
  | Some "O" => SexO
  | _ => SexUnknown
  end.

Definition extract_key (t : tagmap) : MatchKey :=
  let '(fam, giv) := match tag_get t "PatientName" with
                     | Some pn => person_name pn
                     | None => (None, None)
                     end in
  {| key_identifier := tag_get t "PatientID";
     key_family := fam; key_given := giv;
     key_birth_date := match tag_get t "PatientBirthDate" with
                       | Some d => dicom_date_to_iso d
                       | None => None
                       end;
     key_sex := sex_of (tag_get t "PatientSex") |}.

(** ** IdentityMatcher *)

Inductive MatchResult :=
| Unique (uuid : string)
| Ambiguous (candidates : list RegistryPatient)
| NoMatch.

(** One candidate, several, or none (then the next channel is tried). *)
Definition classify (l : list RegistryPatient) : option MatchResult :=
  match l with
  | [] => None
  | [p] => Some (Unique (rp_uuid p))
  | _ :: _ :: _ => Some (Ambiguous l)
  end.

Section Resolve.
Context `{OpenMRSAPI}.

(** The demographic channel: family name, given name and birth date all
    known, compared by the registry. *)
Definition resolve_demographic (k : MatchKey) : exc MatchResult :=
  match key_family k, key_given k, key_birth_date k with
  | Some f, Some g, Some b =>
      exc_bind (openmrs_find_by_demographics f g b)
        (fun l => Ok (default NoMatch (classify l)))
  | _, _, _ => Ok NoMatch
  end.

(** [resolve(key)]: the identifier channel first when the key has a
    non-empty identifier; it decides whenever it finds a candidate. *)
Definition resolve (k : MatchKey) : exc MatchResult :=
  match key_identifier k with
  | Some i =>
      if String.eqb i "" then resolve_demographic k
      else exc_bind (openmrs_find_by_identifier i)
             (fun l => match classify l with
                       | Some r => Ok r
                       | None => resolve_demographic k
                       end)
  | None => resolve_demographic k
  end.
End Resolve.

(** ** Mapping creation *)

Inductive MappingOutcome :=
| MO_already_mapped (m : PatientMapping)
| MO_created (m : PatientMapping)
| MO_ambiguous (candidates : list RegistryPatient)
| MO_no_match
| MO_duplicate
| MO_invalid_ids
| MO_failed (reason : string).

(** [mapping_result.get('success')] *)
Definition outcome_success (o : MappingOutcome) : bool :=
  match o with
  | MO_already_mapped _ | MO_created _ => true
  | _ => false
  end.

(** The status of a mapping's first validation (spec.md section 4.4). *)
Definition first_status (mt : option MappingType) : SyncStatus :=
  match mt with
  | Some MANUAL => MANUAL_MAPPED
  | _ => AUTO_MAPPED
  end.

Section Mapper.
Context `{OrthancAPI} `{OpenMRSAPI} `{DicomCodec}.

Definition record_first_validation (m : PatientMapping) : st Store PatientMapping :=
  match validate_mapping m with
  | [] => update_sync_time m (first_status (mapping_type m)) None
  | errs => update_sync_time m ERROR (Some (py_join "; " errs))
  end.

(** [process_dicom_upload(dicom_data, upload_result)] *)
Definition process_dicom_upload (data : Bytes) (up : UploadResult)
    : st Store MappingOutcome :=
  match dicom_decode data with
  | None => st_ret (MO_failed "undecodable DICOM data")
  | Some tags =>
      match up_ParentPatient up with
      | None => st_ret (MO_failed "no archive patient id")
      | Some o =>
          do s <- st_get;
          match active_for_archive o s with
          | Some m => st_ret (MO_already_mapped m)
          | None =>
              match resolve (extract_key tags) with
              | Raise e => st_ret (MO_failed e)
              | Ok (Unique u) =>
                  do m <- objects_create o u (Some AUTO);
                  do m' <- record_first_validation m;
                  st_ret (MO_created m')
              | Ok (Ambiguous l) => st_ret (MO_ambiguous l)
              | Ok NoMatch => st_ret MO_no_match
              end
          end
      end
  end.

Definition is_active_pair (o u : string) (r : PatientMapping) : bool :=
  is_active r && String.eqb (orthanc_patient_id r) o && String.eqb (openmrs_patient_uuid r) u.

(** [create_manual_mapping(orthanc_patient_id, openmrs_patient_uuid)] *)
Definition create_manual_mapping (o u : string) : st Store MappingOutcome :=
  if String.eqb o "" || String.eqb u "" then st_ret MO_invalid_ids
  else
    do s <- st_get;
    match List.find (is_active_pair o u) (rows s) with
    | Some _ => st_ret MO_duplicate
    | None =>
        do m <- objects_create o u (Some MANUAL);
        do m' <- record_first_validation m;
        st_ret (MO_created m')
    end.
End Mapper.

(** ** The mapper's effect on the table *)

Section MapperLemmas.
Context `{OrthancAPI} `{OpenMRSAPI} `{DicomCodec}.

Definition first_outcome (m : PatientMapping) : SyncStatus * option string :=
  match validate_mapping m with
  | [] => (first_status (mapping_type m), None)
  | errs => (ERROR, Some (py_join "; " errs))
  end.

Definition first_validated_row (m : PatientMapping) (t : nat) : PatientMapping :=
  set_sync m (fst (first_outcome m)) (snd (first_outcome m)) t.

Lemma record_first_validation_eq m s :
  record_first_validation m s
  = (Ok (first_validated_row m (now s)),
     mkStore (map (replace_row (first_validated_row m (now s))) (rows s)) (next_id s) (now s)).
Proof.
  unfold record_first_validation, first_validated_row, first_outcome.
  by destruct (validate_mapping m).
Qed.

Lemma first_outcome_ok m : sync_args_ok (fst (first_outcome m)) (snd (first_outcome m)) = true.
Proof.
  unfold first_outcome. destruct (validate_mapping m) as [|x l] eqn:Hv.
  - by destruct (mapping_type m) as [[]|].
  - exact (sync_args_ok_errors m x l Hv).
Qed.

(** Creating a row for a pair no active row maps, then validating it:
    exactly that row is appended. *)
Lemma create_and_validate_eq o u mt s :
  store_wf s ->
  st_bind (objects_create o u mt) (fun m => st_bind (record_first_validation m)
                                     (fun m' => st_ret (MO_created m'))) s
  = (Ok (MO_created (first_validated_row (new_row o u mt s) (now s))),
     mkStore (rows s ++ [first_validated_row (new_row o u mt s) (now s)]) (S (next_id s)) (now s)).
Proof.
  intros Hwf. unfold st_bind. cbn [objects_create]. rewrite record_first_validation_eq. cbn.
  by rewrite replace_new_row.
Qed.

Lemma create_and_validate_wf o u mt s :
  store_wf s -> Forall (fun r => mapping_pair r <> (o, u)) (get_active_mappings s) ->
  store_wf (mkStore (rows s ++ [first_validated_row (new_row o u mt s) (now s)])
              (S (next_id s)) (now s)).
Proof.
  intros Hwf Hnew. pose proof (objects_create_wf o u mt s Hnew Hwf) as Hwf1.
  cbn in Hwf1.
  assert (Hin : In (new_row o u mt s) (rows s ++ [new_row o u mt s]))
    by (apply in_or_app; right; by left).
  pose proof (update_sync_time_wf (new_row o u mt s) _ _
                (mkStore (rows s ++ [new_row o u mt s]) (S (next_id s)) (now s))
                (first_outcome_ok (new_row o u mt s)) Hin Hwf1) as Hwf2.
  rewrite update_sync_time_result in Hwf2. cbn in Hwf2.
  rewrite replace_new_row in Hwf2; [exact Hwf2|exact Hwf|reflexivity].
Qed.

Lemma active_for_archive_none o u s :
  active_for_archive o s = None ->
  Forall (fun r => mapping_pair r <> (o, u)) (get_active_mappings s).
Proof.
  unfold active_for_archive, get_active_mappings. intros Hn.
  apply List.Forall_forall. intros r Hr Hp. apply filter_In in Hr as [Hr Ha].
  pose proof (find_none _ _ Hn r Hr) as Hf. unfold mapping_pair in Hp.
  injection Hp as Ho _. cbn in Hf. rewrite Ha, Ho, String.eqb_refl in Hf. done.
Qed.

(** Every call of [process_dicom_upload] either leaves the table alone
    and reports something other than a creation, or appends exactly one
    AUTO row for the uploaded archive patient and a uniquely matched
    registry patient. *)
Lemma process_dicom_upload_shape d up s :
  store_wf s ->
  (exists r, process_dicom_upload d up s = (Ok r, s) /\ forall m, r <> MO_created m) \/
  (exists tags o u, dicom_decode d = Some tags /\ up_ParentPatient up = Some o /\
     active_for_archive o s = None /\ resolve (extract_key tags) = Ok (Unique u) /\
     process_dicom_upload d up s
     = (Ok (MO_created (first_validated_row (new_row o u (Some AUTO) s) (now s))),
        mkStore (rows s ++ [first_validated_row (new_row o u (Some AUTO) s) (now s)])
          (S (next_id s)) (now s))).
Proof.
  intros Hwf. unfold process_dicom_upload.
  destruct (dicom_decode d) as [tags|] eqn:Hd; [|left; eexists; split; [reflexivity|done]].
  destruct (up_ParentPatient up) as [o|] eqn:Ho; [|left; eexists; split; [reflexivity|done]].
  rewrite st_bind_get.
  destruct (active_for_archive o s) as [m|] eqn:Ha; [left; eexists; split; [reflexivity|done]|].
  destruct (resolve (extract_key tags)) as [[u|l|]|e] eqn:Hr;
    try (left; eexists; split; [reflexivity|done]).
  right. exists tags, o, u. split_and!; try done. by apply create_and_validate_eq.
Qed.
End MapperLemmas.

Lemma process_dicom_upload_wf `{OrthancAPI} `{OpenMRSAPI} `{DicomCodec} d up s :
  store_wf s -> store_wf (snd (process_dicom_upload d up s)).
Proof.
  intros Hwf. destruct (process_dicom_upload_shape d up s Hwf)
    as [(r & -> & _)|(tags & o & u & _ & _ & Ha & _ & ->)]; [done|].
  apply create_and_validate_wf; [done|]. by apply active_for_archive_none.
Qed.

Lemma create_manual_mapping_wf `{OrthancAPI} `{OpenMRSAPI} o u s :
  store_wf s -> store_wf (snd (create_manual_mapping o u s)).
Proof.
  intros Hwf. unfold create_manual_mapping.
  destruct (String.eqb o "" || String.eqb u ""); [done|]. rewrite st_bind_get.
  destruct (List.find (is_active_pair o u) (rows s)) eqn:Hf; [done|].
  rewrite create_and_validate_eq by done. apply create_and_validate_wf; [done|].
  apply List.Forall_forall. intros r Hr Hp. apply filter_In in Hr as [Hr Ha].
  pose proof (find_none _ _ Hf r Hr) as Hx. unfold mapping_pair in Hp. injection Hp as Ho Hu.
  cbn in Hx. unfold is_active_pair in Hx. by rewrite Ha, Ho, Hu, !String.eqb_refl in Hx.
Qed.

(** ** Matching and mapping lemmas *)

(** When the identifier channel finds exactly one registry patient,
    [resolve] returns that patient, whatever the demographic channel
    would have found (spec.md section 4.2). *)
Theorem resolve_identifier_wins `{OpenMRSAPI} k i p :
  key_identifier k = Some i -> i <> "" -> openmrs_find_by_identifier i = Ok [p] ->
  resolve k = Ok (Unique (rp_uuid p)).
Proof.
  intros Hk Hi Hf. unfold resolve. rewrite Hk.
  destruct (String.eqb_spec i ""); [done|]. by rewrite Hf.
Qed.

Section MapperTheorems.
Context `{OrthancAPI} `{OpenMRSAPI} `{DicomCodec}.

(** process_dicom_upload is idempotent: a second call with the same
    data and upload result leaves the table as the first call left it,
    and answers "already mapped" whenever the first call succeeded. *)
Theorem process_dicom_upload_idempotent d up s r s1 :
  store_wf s -> process_dicom_upload d up s = (Ok r, s1) ->
  snd (process_dicom_upload d up s1) = s1 /\
  (outcome_success r = true ->
   exists m, fst (process_dicom_upload d up s1) = Ok (MO_already_mapped m)).
Proof.
  intros Hwf Hp.
  destruct (process_dicom_upload_shape d up s Hwf)
    as [(r' & He & Hnc)|(tags & o & u & Hd & Ho & Ha & Hr & He)];
    rewrite He in Hp; injection Hp as <- <-.
  - rewrite He. split; [done|]. intros Hs. destruct r'; try done.
    + by eexists.
    + by destruct (Hnc m).
  - set (m' := first_validated_row (new_row o u (Some AUTO) s) (now s)).
    set (s1 := mkStore (rows s ++ [m']) (S (next_id s)) (now s)).
    destruct (find_in_some (fun r => is_active r && String.eqb (orthanc_patient_id r) o)
                (rows s1) m') as [m Hm].
    + apply in_or_app. right. by left.
    + cbn. by rewrite String.eqb_refl.
    + assert (He1 : process_dicom_upload d up s1 = (Ok (MO_already_mapped m), s1)).
      { unfold process_dicom_upload. rewrite Hd, Ho, st_bind_get.
        unfold active_for_archive. by rewrite Hm. }
      rewrite He1. split; [done|]. by eexists.
Qed.

(** When the upload's archive patient has no active mapping and the
    matcher returns a unique registry patient, process_dicom_upload
    appends exactly one row: active, of type AUTO, mapping that archive
    patient to that registry patient, with status AUTO_MAPPED when both
    endpoints validate and ERROR otherwise. *)
Theorem process_dicom_upload_unique d up s tags o u :
  store_wf s -> dicom_decode d = Some tags -> up_ParentPatient up = Some o ->
  active_for_archive o s = None -> resolve (extract_key tags) = Ok (Unique u) ->
  exists m, fst (process_dicom_upload d up s) = Ok (MO_created m) /\
    rows (snd (process_dicom_upload d up s)) = rows s ++ [m] /\
    mapping_pair m = (o, u) /\ mapping_type m = Some AUTO /\ is_active m = true /\
    sync_status m = Some (match validate_mapping m with [] => AUTO_MAPPED | _ => ERROR end).
Proof.
  intros Hwf Hd Ho Ha Hr.
  assert (He : process_dicom_upload d up s
               = (Ok (MO_created (first_validated_row (new_row o u (Some AUTO) s) (now s))),
                  mkStore (rows s ++ [first_validated_row (new_row o u (Some AUTO) s) (now s)])
                    (S (next_id s)) (now s))).
  { unfold process_dicom_upload. rewrite Hd, Ho, st_bind_get, Ha, Hr.
    by apply create_and_validate_eq. }
  rewrite He. eexists. split_and!; try reflexivity.
  unfold first_validated_row, first_outcome. cbn -[validate_mapping].
  rewrite validate_mapping_set_sync. by destruct (validate_mapping _).
Qed.
End MapperTheorems.

Section MapperTheorems2.
Context `{OrthancAPI} `{OpenMRSAPI} `{DicomCodec}.

(** A call of process_dicom_upload creates zero or one mapping:
    either the table is unchanged and the outcome is not a creation, or
    exactly one AUTO row is appended and the outcome reports it. *)
Theorem process_dicom_upload_at_most_one d up s :
  store_wf s ->
  let s' := snd (process_dicom_upload d up s) in
  (rows s' = rows s /\ forall m, fst (process_dicom_upload d up s) <> Ok (MO_created m)) \/
  (exists m, rows s' = rows s ++ [m] /\ fst (process_dicom_upload d up s) = Ok (MO_created m) /\
             mapping_type m = Some AUTO).
Proof.
  intros Hwf s'. unfold s'.
  destruct (process_dicom_upload_shape d up s Hwf)
    as [(r & -> & Hnc)|(tags & o & u & _ & _ & _ & _ & ->)].
  - left. split; [done|]. intros m Hm. injection Hm as ->. by apply (Hnc m).
  - right. eexists. split_and!; reflexivity.
Qed.

(** create_manual_mapping called twice with the same non-empty ids
    answers the second call with the duplicate outcome and leaves the
    table as the first call left it (spec.md section 8). *)
Theorem create_manual_mapping_twice o u s :
  store_wf s -> o <> "" -> u <> "" ->
  let s1 := snd (create_manual_mapping o u s) in
  create_manual_mapping o u s1 = (Ok MO_duplicate, s1).
Proof.
  intros Hwf Ho Hu s1.
  assert (Hg : (String.eqb o "" || String.eqb u "") = false).
  { by destruct (String.eqb_spec o ""), (String.eqb_spec u ""). }
  assert (Hcall : forall s0, create_manual_mapping o u s0
          = st_bind st_get (fun s0 => match List.find (is_active_pair o u) (rows s0) with
                                      | Some _ => st_ret MO_duplicate
                                      | None => do m <- objects_create o u (Some MANUAL);
                                                do m' <- record_first_validation m;
                                                st_ret (MO_created m')
                                      end) s0).
  { intros s0. unfold create_manual_mapping. by rewrite Hg. }
  unfold s1. rewrite (Hcall s), st_bind_get.
  destruct (List.find (is_active_pair o u) (rows s)) as [ex|] eqn:Hf.
  - cbn [st_ret snd]. by rewrite Hcall, st_bind_get, Hf.
  - rewrite create_and_validate_eq by done. cbn [snd]. rewrite Hcall, st_bind_get.
    destruct (find_in_some (is_active_pair o u)
                (rows s ++ [first_validated_row (new_row o u (Some MANUAL) s) (now s)])
                (first_validated_row (new_row o u (Some MANUAL) s) (now s))) as [ex Hex].
    + apply in_or_app. right. by left.
    + unfold is_active_pair. cbn. by rewrite !String.eqb_refl.
    + cbn [rows]. by rewrite Hex.
Qed.
Lemma create_manual_mapping_raises_never o u s e s' :
  create_manual_mapping o u s <> (Raise e, s').
Proof.
  unfold create_manual_mapping. destruct (String.eqb o "" || String.eqb u ""); [done|].
  rewrite st_bind_get. destruct (List.find (is_active_pair o u) (rows s)); [done|].
  unfold st_bind. cbn [objects_create]. rewrite record_first_validation_eq. done.
Qed.
End MapperTheorems2.

(** ** Witnesses on the demo services *)

Section MatcherWitnesses.
#[local] Instance demo_orthanc_m : OrthancAPI := archive_of demo_archive.
#[local] Instance demo_openmrs_m : OpenMRSAPI := directory_of demo_registry.
#[local] Instance demo_codec_m : DicomCodec := demo_codec.

Definition demo_upload : UploadResult := mkUploadResult None (Some "orth-1") None None None.

(** Spec.md section 8: P100 selects A although the names also match B. *)
Lemma resolve_identifier_wins_witness :
  resolve (extract_key demo_tags_1) = Ok (Unique "uuid-a") /\
  exists l, resolve_demographic (extract_key demo_tags_1) = Ok (Ambiguous l).
Proof.
  split.
  - apply (resolve_identifier_wins (extract_key demo_tags_1) "P100"
             (mkRegistryPatient "uuid-a" ["P100"] "Kim" "Min" "1985-03-15"));
      [reflexivity | discriminate | vm_compute; reflexivity].
  - eexists. vm_compute. reflexivity.
Defined.

Lemma process_dicom_upload_idempotent_witness :
  snd (process_dicom_upload [Byte.x01] demo_upload
         (snd (process_dicom_upload [Byte.x01] demo_upload (empty_store 0))))
  = snd (process_dicom_upload [Byte.x01] demo_upload (empty_store 0)) /\
  (outcome_success (MO_created (first_validated_row (new_row "orth-1" "uuid-a" (Some AUTO) (empty_store 0)) 0)) = true ->
   exists m, fst (process_dicom_upload [Byte.x01] demo_upload
                    (snd (process_dicom_upload [Byte.x01] demo_upload (empty_store 0))))
             = Ok (MO_already_mapped m)).
Proof.
  apply (process_dicom_upload_idempotent [Byte.x01] demo_upload (empty_store 0));
    [apply empty_store_wf | vm_compute; reflexivity].
Defined.

Lemma process_dicom_upload_unique_witness :
  exists m, fst (process_dicom_upload [Byte.x01] demo_upload (empty_store 0)) = Ok (MO_created m) /\
    rows (snd (process_dicom_upload [Byte.x01] demo_upload (empty_store 0))) = [] ++ [m] /\
    mapping_pair m = ("orth-1", "uuid-a") /\ mapping_type m = Some AUTO /\ is_active m = true /\
    sync_status m = Some (match validate_mapping m with [] => AUTO_MAPPED | _ => ERROR end).
Proof.
  apply (process_dicom_upload_unique [Byte.x01] demo_upload (empty_store 0) demo_tags_1);
    [apply empty_store_wf | reflexivity | reflexivity | reflexivity | vm_compute; reflexivity].
Defined.

Lemma process_dicom_upload_at_most_one_witness :
  let s' := snd (process_dicom_upload [Byte.x02] demo_upload (empty_store 0)) in
  (rows s' = rows (empty_store 0) /\
   forall m, fst (process_dicom_upload [Byte.x02] demo_upload (empty_store 0)) <> Ok (MO_created m)) \/
  (exists m, rows s' = rows (empty_store 0) ++ [m] /\
     fst (process_dicom_upload [Byte.x02] demo_upload (empty_store 0)) = Ok (MO_created m) /\
     mapping_type m = Some AUTO).
Proof. apply process_dicom_upload_at_most_one. apply empty_store_wf. Defined.

Lemma create_manual_mapping_twice_witness :
  create_manual_mapping "orth-2" "uuid-b" (snd (create_manual_mapping "orth-2" "uuid-b" (empty_store 0)))
  = (Ok MO_duplicate, snd (create_manual_mapping "orth-2" "uuid-b" (empty_store 0))).
Proof.
  apply (create_manual_mapping_twice "orth-2" "uuid-b" (empty_store 0));
    [apply empty_store_wf | discriminate | discriminate].
Defined.
End MatcherWitnesses.
