(* ===== verification/BatchSweep.v ===== *)
(** * The views that drive the mapper

    From views.py: [upload_dicom_with_auto_mapping] (store the file in
    Orthanc, then map it), [create_manual_patient_mapping],
    [get_unmapped_orthanc_patients] and [batch_auto_mapping], the sweep
    that feeds the first instance of the first series of the first study
    of every unmapped archive patient to the mapper, with a synthetic
    upload result naming that patient.  Each patient of the sweep runs in
    its own [try_except], so a failure is recorded against that patient
    and the loop goes on.

    Theorems: the upload view creates zero or one mapping and a repeated
    upload changes nothing; the manual view refuses a repeated pair; the
    sweep answers for every unmapped patient exactly once, in order, with
    counters that add up, keeps the table invariant, and only appends AUTO
    mappings for distinct, previously unmapped patients; the listing of
    unmapped patients is exactly the archive patients with no active
    mapping. *)

From stdpp Require Import base list strings.
From S2P Require Import Prelude Services MappingModel MappingViews Matcher.

(** ** upload_dicom_with_auto_mapping *)

Inductive UploadResponse :=
| UR_no_file
| UR_upload_failed
| UR_mapped (up : UploadResult) (mapping_result : MappingOutcome)
| UR_partial (up : UploadResult) (mapping_result : MappingOutcome)
| UR_server_error (e : string).

Definition upload_status (r : UploadResponse) : nat :=
  match r with
  | UR_no_file => 400
  | UR_upload_failed | UR_server_error _ => 500
  | UR_mapped _ _ => 201
  | UR_partial _ _ => 206
  end.

(** ** create_manual_patient_mapping *)

Inductive ManualResponse :=
| MR_missing_ids
| MR_result (r : MappingOutcome)
| MR_server_error (e : string).

Definition manual_status (r : ManualResponse) : nat :=
  match r with
  | MR_missing_ids => 400
  | MR_result o => if outcome_success o then 201 else 400
  | MR_server_error _ => 500
  end.

(** ** get_unmapped_orthanc_patients *)

Record UnmappedPatient := mkUnmapped {
  un_orthanc_patient_id : string;
  un_patient_name : string;
  un_patient_id_dicom : string;
  un_patient_birth_date : string;
  un_patient_sex : string;
  un_studies_count : nat;
  un_last_update : string
}.

Inductive UnmappedResponse :=
| UM_ok (unmapped_patients : list UnmappedPatient) (total : nat)
| UM_server_error (e : string).

(** [main_tags.get(tag, '')] *)
Definition tag_or_empty (t : tagmap) (k : string) : string := default "" (tag_get t k).

Definition unmapped_entry (pid : string) (info : PatientInfo) : UnmappedPatient := {|
  un_orthanc_patient_id := pid;
  un_patient_name := tag_or_empty (pi_MainDicomTags info) "PatientName";
  un_patient_id_dicom := tag_or_empty (pi_MainDicomTags info) "PatientID";
  un_patient_birth_date := tag_or_empty (pi_MainDicomTags info) "PatientBirthDate";
  un_patient_sex := tag_or_empty (pi_MainDicomTags info) "PatientSex";
  un_studies_count := length (pi_Studies info);
  un_last_update := pi_LastUpdate info
|}.

(** ** batch_auto_mapping *)

(** The per-patient failures the sweep records (the Korean messages of
    views.py 811, 819, 827, 835 and 844). *)
Inductive BatchFailure :=
| NoDicomData
| NoInstance
| NoSeries
| NoStudy
| ProcessingError (e : string).

Inductive PatientResult :=
| PR_mapped (r : MappingOutcome)
| PR_failed (f : BatchFailure).

(** [r['mapping_result'].get('success')] *)
Definition result_success (r : string * PatientResult) : bool :=
  match snd r with
  | PR_mapped o => outcome_success o
  | PR_failed _ => false
  end.

Inductive BatchResponse :=
| BR_no_patients
| BR_all_mapped
| BR_done (results : list (string * PatientResult))
          (total_processed successful_count failed_count : nat)
| BR_server_error (e : string).

(** [fake_upload_result = {'ParentPatient': patient_id}] *)
Definition fake_upload_result (pid : string) : UploadResult :=
  mkUploadResult None (Some pid) None None None.

Section Views.
Context `{OrthancAPI} `{OpenMRSAPI} `{DicomCodec}.

Definition upload_dicom_with_auto_mapping (dicom_file : option Bytes)
    : st Store UploadResponse :=
  try_except
    (match dicom_file with
     | None => st_ret UR_no_file
     | Some data =>
         do up <- st_lift (orthanc_upload_dicom data);
         match up with
         | None => st_ret UR_upload_failed
         | Some up =>
             do r <- process_dicom_upload data up;
             st_ret (if outcome_success r then UR_mapped up r else UR_partial up r)
         end
     end)
    (fun e => st_ret (UR_server_error e)).

Definition create_manual_patient_mapping (o u : option string) : st Store ManualResponse :=
  try_except
    (match request_ids o u with
     | None => st_ret MR_missing_ids
     | Some (o', u') => do r <- create_manual_mapping o' u'; st_ret (MR_result r)
     end)
    (fun e => st_ret (MR_server_error e)).

(** The loop of views.py 670-683: no per-patient [try], a raise ends the
    view. *)
Fixpoint collect_unmapped (mapped : list string) (pids : list string)
    : st Store (list UnmappedPatient) :=
  match pids with
  | [] => st_ret []
  | pid :: rest =>
      if mem_str pid mapped then collect_unmapped mapped rest
      else
        do info <- st_lift (orthanc_get_patient pid);
        do tl <- collect_unmapped mapped rest;
        st_ret (match info with Some i => unmapped_entry pid i :: tl | None => tl end)
  end.

Definition get_unmapped_orthanc_patients : st Store UnmappedResponse :=
  try_except
    (do all <- st_lift orthanc_get_patients;
     match all with
     | [] => st_ret (UM_ok [] 0)
     | _ :: _ =>
         do s <- st_get;
         do l <- collect_unmapped (mapped_patient_ids s) all;
         st_ret (UM_ok l (length l))
     end)
    (fun e => st_ret (UM_server_error e)).

(** The body of the per-patient [try] (views.py 787-837). *)
Definition batch_one (pid : string) : st Store PatientResult :=
  do studies <- st_lift (orthanc_get_patient_studies pid);
  match studies with
  | [] => st_ret (PR_failed NoStudy)
  | study_id :: _ =>
      do series_list <- st_lift (orthanc_get_study_series study_id);
      match series_list with
      | [] => st_ret (PR_failed NoSeries)
      | series_id :: _ =>
          do instances <- st_lift (orthanc_get_series_instances series_id);
          match instances with
          | [] => st_ret (PR_failed NoInstance)
          | inst :: _ =>
              do dicom_data <- st_lift (orthanc_get_instance_file inst);
              match dicom_data with
              | Some (b :: bs) =>
                  do r <- process_dicom_upload (b :: bs) (fake_upload_result pid);
                  st_ret (PR_mapped r)
              | _ => st_ret (PR_failed NoDicomData)
              end
          end
      end
  end.

(** One iteration of the loop, with its [except Exception as e]. *)
Definition batch_patient (pid : string) : st Store (string * PatientResult) :=
  do r <- try_except (batch_one pid) (fun e => st_ret (PR_failed (ProcessingError e)));
  st_ret (pid, r).

Definition unmapped_of (mapped : list string) (all : list string) : list string :=
  List.filter (fun pid => negb (mem_str pid mapped)) all.

Definition batch_auto_mapping : st Store BatchResponse :=
  try_except
    (do all <- st_lift orthanc_get_patients;
     match all with
     | [] => st_ret BR_no_patients
     | _ :: _ =>
         do s <- st_get;
         match unmapped_of (mapped_patient_ids s) all with
         | [] => st_ret BR_all_mapped
         | unmapped =>
             do results <- st_map batch_patient unmapped;
             let ok := List.filter result_success results in
             let ko := List.filter (fun r => negb (result_success r)) results in
             st_ret (BR_done results (length results) (length ok) (length ko))
         end
     end)
    (fun e => st_ret (BR_server_error e)).
End Views.

(** ** Lemmas on one iteration of the sweep *)

Section SweepLemmas.
Context `{OrthancAPI} `{OpenMRSAPI} `{DicomCodec}.

Lemma batch_patient_ok pid s : exists r s', batch_patient pid s = (Ok (pid, r), s').
Proof.
  unfold batch_patient, try_except, st_bind.
  destruct (batch_one pid s) as [[r|e] s']; cbn; eauto.
Qed.

(** An iteration changes the table only through the mapper. *)
Lemma batch_patient_state pid s :
  snd (batch_patient pid s) = s \/
  exists d, snd (batch_patient pid s) = snd (process_dicom_upload d (fake_upload_result pid) s).
Proof.
  unfold batch_patient, batch_one. st_unfold.
  destruct (orthanc_get_patient_studies pid) as [[|st0 ?]|e]; cbn; auto.
  destruct (orthanc_get_study_series st0) as [[|se ?]|e]; cbn; auto.
  destruct (orthanc_get_series_instances se) as [[|i ?]|e]; cbn; auto.
  destruct (orthanc_get_instance_file i) as [[[|b bs]|]|e]; cbn; auto.
  right. exists (b :: bs).
  destruct (process_dicom_upload (b :: bs) (fake_upload_result pid) s) as [[r|e] s']; done.
Qed.

(** What the sweep may have added to a table [s0] after processing some of
    the patients of [L]: AUTO rows, active, for distinct patients of [L]
    that had no active mapping in [s0]. *)
Definition sweep_inv (s0 : Store) (L : list string) (s : Store) : Prop :=
  store_wf s /\
  exists added, rows s = rows s0 ++ added /\ NoDup (map orthanc_patient_id added) /\
    Forall (fun m => mapping_type m = Some AUTO /\ is_active m = true /\
                     In (orthanc_patient_id m) L /\
                     active_for_archive (orthanc_patient_id m) s0 = None) added.

Lemma active_for_archive_app_none o s l1 l2 :
  rows s = l1 ++ l2 -> active_for_archive o s = None ->
  (forall s0, rows s0 = l1 -> active_for_archive o s0 = None) /\
  Forall (fun r => is_active r = false \/ orthanc_patient_id r <> o) l2.
Proof.
  unfold active_for_archive. intros ->. rewrite find_app.
  destruct (List.find _ l1) eqn:Hl1; [done|]. intros Hl2. split.
  - intros s0 ->. done.
  - apply List.Forall_forall. intros r Hr. pose proof (find_none _ _ Hl2 r Hr) as Hf.
    cbn in Hf. destruct (is_active r); [right|by left]. cbn in Hf.
    by destruct (String.eqb_spec (orthanc_patient_id r) o).
Qed.

Lemma batch_patient_sweep_inv s0 L pid s :
  In pid L -> sweep_inv s0 L s -> sweep_inv s0 L (snd (batch_patient pid s)).
Proof.
  intros HL [Hwf (added & Hrows & Hnd & Hall)].
  destruct (batch_patient_state pid s) as [->|[d ->]]; [split; eauto|].
  destruct (process_dicom_upload_shape d (fake_upload_result pid) s Hwf)
    as [(r & -> & _)|(tags & o & u & _ & Ho & Ha & _ & ->)]; [split; eauto|].
  injection Ho as <-.
  split; [apply create_and_validate_wf; [done|by apply active_for_archive_none]|].
  destruct (active_for_archive_app_none pid s (rows s0) added Hrows Ha) as [Hs0 Hadd].
  rewrite Hrows.
  exists (added ++ [first_validated_row (new_row pid u (Some AUTO) s) (now s)]).
  split; [cbn; by rewrite app_assoc|]. split.
  - rewrite map_app. apply NoDup_app. split; [done|]. split; [|apply NoDup_singleton].
    intros x Hx Hin. apply list_elem_of_singleton in Hin. cbn in Hin. subst x.
    apply list_elem_of_In, in_map_iff in Hx as (m & Hmo & Hm).
    eapply List.Forall_forall in Hall; [|exact Hm].
    eapply List.Forall_forall in Hadd; [|exact Hm]. destruct Hall as (_ & Hact & _).
    rewrite Hact in Hadd. by destruct Hadd.
  - apply Forall_app. split; [done|]. constructor; [|done]. cbn. split_and!; [done|done|done|by apply Hs0].
Qed.
End SweepLemmas.

Section SweepTheorems.
Context `{OrthancAPI} `{OpenMRSAPI} `{DicomCodec}.

Lemma batch_auto_mapping_state s all :
  orthanc_get_patients = Ok all ->
  snd (batch_auto_mapping s) = s \/
  snd (batch_auto_mapping s) = snd (st_map batch_patient (unmapped_of (mapped_patient_ids s) all) s).
Proof.
  intros Hall. unfold batch_auto_mapping. rewrite try_except_ret_snd.
  rewrite (st_bind_lift_ok _ all _ s Hall). destruct all as [|p ps]; [by left|].
  rewrite st_bind_get. destruct (unmapped_of _ _) as [|q qs]; [by left|].
  right. unfold st_bind. destruct (st_map batch_patient (q :: qs) s) as [[rs|e] s']; done.
Qed.

Lemma batch_patient_wf pid s : store_wf s -> store_wf (snd (batch_patient pid s)).
Proof.
  intros Hwf. destruct (batch_patient_state pid s) as [->|[d ->]]; [done|].
  by apply process_dicom_upload_wf.
Qed.

Lemma batch_auto_mapping_wf s : store_wf s -> store_wf (snd (batch_auto_mapping s)).
Proof.
  intros Hwf. destruct orthanc_get_patients as [all|e] eqn:Hall.
  - destruct (batch_auto_mapping_state s all Hall) as [-> | ->]; [done|].
    apply st_map_preserves; [|done]. intros x s0 _. apply batch_patient_wf.
  - unfold batch_auto_mapping. rewrite try_except_ret_snd. unfold st_bind, st_lift.
    by rewrite Hall.
Qed.

(** C10: When Orthanc lists its patients and some have no active mapping,
    batch_auto_mapping answers with one result per unmapped patient, in
    the order Orthanc listed them, whatever failed for any of them; the
    total is the number of unmapped patients and the success and failure
    counts add up to it (spec.md section 8). *)
Theorem batch_auto_mapping_processes_all s all :
  orthanc_get_patients = Ok all -> unmapped_of (mapped_patient_ids s) all <> [] ->
  exists results sc fc s',
    batch_auto_mapping s
    = (Ok (BR_done results (length (unmapped_of (mapped_patient_ids s) all)) sc fc), s') /\
    map fst results = unmapped_of (mapped_patient_ids s) all /\
    sc + fc = length (unmapped_of (mapped_patient_ids s) all).
Proof.
  intros Hall Hne.
  destruct (st_map_keys batch_patient (unmapped_of (mapped_patient_ids s) all) s)
    as (rs & s' & Hmap & Hkeys).
  { intros x s0. destruct (batch_patient_ok x s0) as (r & s1 & Hb). eauto. }
  assert (Hlen : length rs = length (unmapped_of (mapped_patient_ids s) all))
    by (rewrite <- Hkeys; symmetry; apply length_map).
  exists rs, (length (List.filter result_success rs)),
    (length (List.filter (fun r => negb (result_success r)) rs)), s'.
  split_and!; [|done|by rewrite length_filter_split].
  unfold batch_auto_mapping. apply try_except_ok.
  rewrite (st_bind_lift_ok _ all _ s Hall).
  destruct all as [|p ps]; [done|]. rewrite st_bind_get.
  destruct (unmapped_of (mapped_patient_ids s) (p :: ps)) as [|q qs] eqn:Hu; [done|].
  unfold st_bind. rewrite Hmap. cbn. by rewrite Hlen.
Qed.

(** C11: batch_auto_mapping keeps the table invariant and never touches
    an existing row: the table it leaves is the old table followed by new
    rows, each an active AUTO mapping for a distinct archive patient that
    the sweep listed as unmapped and that had no active mapping before. *)
Theorem batch_auto_mapping_safe s all :
  store_wf s -> orthanc_get_patients = Ok all ->
  sweep_inv s (unmapped_of (mapped_patient_ids s) all) (snd (batch_auto_mapping s)).
Proof.
  intros Hwf Hall.
  assert (H0inv : sweep_inv s (unmapped_of (mapped_patient_ids s) all) s).
  { split; [done|]. exists []. split_and!; [by rewrite app_nil_r|constructor|constructor]. }
  destruct (batch_auto_mapping_state s all Hall) as [Hs|Hs]; rewrite Hs; [done|].
  apply st_map_preserves; [|done]. intros x s0 Hx Hs0. by apply batch_patient_sweep_inv.
Qed.
End SweepTheorems.

(** ** The upload, manual and listing views *)

Section ViewTheorems.
Context `{OrthancAPI} `{OpenMRSAPI} `{DicomCodec}.

(** The upload view changes the table only through the mapper, on the
    upload result Orthanc returned. *)
Lemma upload_state f s :
  (exists data up, f = Some data /\ orthanc_upload_dicom data = Ok (Some up) /\
     snd (upload_dicom_with_auto_mapping f s) = snd (process_dicom_upload data up s))
  \/ snd (upload_dicom_with_auto_mapping f s) = s.
Proof.
  unfold upload_dicom_with_auto_mapping. rewrite try_except_ret_snd.
  destruct f as [data|]; [|by right]. cbv beta iota.
  destruct (orthanc_upload_dicom data) as [[up|]|e] eqn:Hu; [left|right|right].
  - exists data, up. split_and!; [done|done|].
    rewrite (st_bind_lift_ok _ (Some up) _ s eq_refl). apply st_bind_ret_snd.
  - by rewrite (st_bind_lift_ok _ None _ s eq_refl).
  - done.
Qed.

(** C12: Uploading the same DICOM file twice leaves the mapping table as
    the first upload left it: the second upload of an archive patient
    already mapped is a no-op (spec.md section 8). *)
Theorem upload_dicom_idempotent f s :
  store_wf s ->
  let s1 := snd (upload_dicom_with_auto_mapping f s) in
  snd (upload_dicom_with_auto_mapping f s1) = s1.
Proof.
  intros Hwf s1. unfold s1.
  destruct (upload_state f s) as [(data & up & -> & Hu & Hs)|Hs].
  - rewrite Hs. destruct (upload_state (Some data) (snd (process_dicom_upload data up s)))
      as [(data' & up' & Hd & Hu' & Hs')|Hs']; [|done].
    injection Hd as <-. rewrite Hu in Hu'. injection Hu' as <-. rewrite Hs'.
    destruct (process_dicom_upload data up s) as [r1 s2] eqn:Hp.
    destruct (process_dicom_upload_shape data up s Hwf)
      as [(r & He & _)|(tags & o & u & _ & _ & _ & _ & He)];
      rewrite He in Hp; injection Hp as <- <-;
      exact (proj1 (process_dicom_upload_idempotent data up s _ _ Hwf He)).
  - rewrite Hs. rewrite Hs. done.
Qed.

(** C13: One upload request creates zero or one mapping: either the
    table is unchanged, or exactly one active AUTO row is appended and
    the response is 201 with that row as the mapping result. *)
Theorem upload_dicom_at_most_one f s :
  store_wf s ->
  let s' := snd (upload_dicom_with_auto_mapping f s) in
  rows s' = rows s \/
  exists m up, rows s' = rows s ++ [m] /\ mapping_type m = Some AUTO /\ is_active m = true /\
    fst (upload_dicom_with_auto_mapping f s) = Ok (UR_mapped up (MO_created m)).
Proof.
  intros Hwf s'. unfold s'.
  destruct (upload_state f s) as [(data & up & -> & Hu & Hs)|Hs]; [|rewrite Hs; by left].
  rewrite Hs.
  destruct (process_dicom_upload_shape data up s Hwf)
    as [(r & He & _)|(tags & o & u & _ & _ & _ & _ & He)]; rewrite He; [by left|right].
  eexists _, up. split_and!; [reflexivity|reflexivity|reflexivity|].
  unfold upload_dicom_with_auto_mapping. unfold try_except, st_bind.
  cbn [st_lift]. rewrite Hu. unfold st_bind. rewrite He. reflexivity.
Qed.

(** C14: create_manual_patient_mapping called twice with the same ids
    answers the second call with the duplicate outcome, HTTP 400, and
    leaves the table as the first call left it. *)
Theorem manual_mapping_view_twice o u o' u' s :
  store_wf s -> request_ids o u = Some (o', u') ->
  let s1 := snd (create_manual_patient_mapping o u s) in
  create_manual_patient_mapping o u s1 = (Ok (MR_result MO_duplicate), s1) /\
  manual_status (MR_result MO_duplicate) = 400.
Proof.
  intros Hwf Hr s1. split; [|done].
  assert (Hne : o' <> "" /\ u' <> "").
  { unfold request_ids in Hr. destruct o as [a|], u as [b|]; try done.
    destruct (str_truthy (Some a)) eqn:Ha, (str_truthy (Some b)) eqn:Hb; try done.
    injection Hr as <- <-. by rewrite !str_truthy_Some in Ha, Hb. }
  assert (Hview : forall s0, create_manual_patient_mapping o u s0
                  = st_bind (create_manual_mapping o' u') (fun r => st_ret (MR_result r)) s0).
  { intros s0. unfold create_manual_patient_mapping. rewrite Hr.
    unfold try_except, st_bind. destruct (create_manual_mapping o' u' s0) as [[r|e] s2] eqn:Hc.
    - done.
    - exfalso. exact (create_manual_mapping_raises_never o' u' s0 e s2 Hc). }
  unfold s1. rewrite !Hview, st_bind_ret_snd.
  pose proof (create_manual_mapping_twice o' u' s Hwf (proj1 Hne) (proj2 Hne)) as Ht.
  cbv zeta in Ht. unfold st_bind. by rewrite Ht.
Qed.
Lemma upload_dicom_wf f s : store_wf s -> store_wf (snd (upload_dicom_with_auto_mapping f s)).
Proof.
  intros Hwf. destruct (upload_state f s) as [(d & up & _ & _ & ->) | ->]; [|done].
  by apply process_dicom_upload_wf.
Qed.

Lemma create_manual_patient_mapping_wf o u s :
  store_wf s -> store_wf (snd (create_manual_patient_mapping o u s)).
Proof.
  intros Hwf. unfold create_manual_patient_mapping. rewrite try_except_ret_snd.
  destruct (request_ids o u) as [[o' u']|]; [|done].
  rewrite st_bind_ret_snd. by apply create_manual_mapping_wf.
Qed.

End ViewTheorems.

Section ListingTheorems.
Context `{OrthancAPI}.

(** [if patient_info:] for the patient Orthanc describes. *)
Definition has_info (pid : string) : bool :=
  match orthanc_get_patient pid with Ok (Some _) => true | _ => false end.

Lemma collect_unmapped_eq mapped pids s :
  (forall pid, In pid pids -> exists i, orthanc_get_patient pid = Ok i) ->
  exists l, collect_unmapped mapped pids s = (Ok l, s) /\
    map un_orthanc_patient_id l
    = List.filter (fun pid => negb (mem_str pid mapped) && has_info pid) pids.
Proof.
  induction pids as [|p ps IH]; intros Hok; [by exists []|].
  destruct IH as (l & Hl & Hm); [intros q Hq; apply Hok; by right|].
  cbn [collect_unmapped List.filter]. destruct (mem_str p mapped); cbn [negb andb]; [by exists l|].
  destruct (Hok p (or_introl eq_refl)) as [i Hi].
  rewrite (st_bind_lift_ok _ i _ s Hi). unfold st_bind. rewrite Hl.
  unfold has_info. rewrite Hi.
  destruct i as [i|]; [exists (unmapped_entry p i :: l)|exists l]; cbn; by rewrite ?Hm.
Qed.

(** C15: When every Orthanc call answers, get_unmapped_orthanc_patients
    lists exactly the archive patients that have no active mapping and
    that Orthanc describes, in Orthanc's order, and reads the table
    without changing it. *)
Theorem get_unmapped_exact s all :
  orthanc_get_patients = Ok all ->
  (forall pid, In pid all -> exists i, orthanc_get_patient pid = Ok i) ->
  exists l, get_unmapped_orthanc_patients s = (Ok (UM_ok l (length l)), s) /\
    map un_orthanc_patient_id l
    = List.filter (fun pid => negb (mem_str pid (mapped_patient_ids s)) && has_info pid) all.
Proof.
  intros Hall Hok. unfold get_unmapped_orthanc_patients. 
  destruct all as [|p ps] eqn:Ha.
  - exists []. split; [|done]. apply try_except_ok. by rewrite (st_bind_lift_ok _ [] _ s Hall).
  - destruct (collect_unmapped_eq (mapped_patient_ids s) (p :: ps) s Hok) as (l & Hl & Hm).
    exists l. split; [|done]. apply try_except_ok.
    rewrite (st_bind_lift_ok _ (p :: ps) _ s Hall), st_bind_get. unfold st_bind. by rewrite Hl.
Qed.

Lemma collect_unmapped_state mapped pids s : snd (collect_unmapped mapped pids s) = s.
Proof.
  induction pids as [|p ps IH]; [done|]. cbn [collect_unmapped].
  destruct (mem_str p mapped); [done|]. unfold st_bind at 1, st_lift at 1.
  destruct (orthanc_get_patient p); [|done]. cbn.
  unfold st_bind. destruct (collect_unmapped mapped ps s) as [[l|e] s'] eqn:E;
    cbn in IH |- *; by subst.
Qed.

(** The listing only reads the table. *)
Lemma get_unmapped_state s : snd (get_unmapped_orthanc_patients s) = s.
Proof.
  unfold get_unmapped_orthanc_patients. rewrite try_except_ret_snd.
  unfold st_bind at 1, st_lift at 1. destruct orthanc_get_patients as [[|p ps]|e]; [done| |done].
  cbn -[collect_unmapped]. rewrite st_bind_ret_snd. apply collect_unmapped_state.
Qed.
End ListingTheorems.

(** ** Witnesses on the demo services *)

Section SweepWitnesses.
#[local] Instance demo_orthanc_b : OrthancAPI := archive_of demo_archive.
#[local] Instance demo_openmrs_b : OpenMRSAPI := directory_of demo_registry.
#[local] Instance demo_codec_b : DicomCodec := demo_codec.

Definition demo_patients : list string := ["orth-1"; "orth-2"; "orth-3"].

(** orth-1 is mapped, orth-2 is ambiguous, orth-3 has no study. *)
Lemma batch_auto_mapping_processes_all_witness :
  exists results sc fc s',
    batch_auto_mapping (empty_store 0)
    = (Ok (BR_done results (length (unmapped_of (mapped_patient_ids (empty_store 0)) demo_patients))
             sc fc), s') /\
    map fst results = unmapped_of (mapped_patient_ids (empty_store 0)) demo_patients /\
    sc + fc = length (unmapped_of (mapped_patient_ids (empty_store 0)) demo_patients).
Proof.
  apply batch_auto_mapping_processes_all; [reflexivity | vm_compute; discriminate].
Defined.

Lemma batch_auto_mapping_safe_witness :
  sweep_inv (empty_store 0) (unmapped_of (mapped_patient_ids (empty_store 0)) demo_patients)
    (snd (batch_auto_mapping (empty_store 0))).
Proof. apply batch_auto_mapping_safe; [apply empty_store_wf | reflexivity]. Defined.

Lemma upload_dicom_idempotent_witness :
  snd (upload_dicom_with_auto_mapping (Some [Byte.x01])
         (snd (upload_dicom_with_auto_mapping (Some [Byte.x01]) (empty_store 0))))
  = snd (upload_dicom_with_auto_mapping (Some [Byte.x01]) (empty_store 0)).
Proof. apply upload_dicom_idempotent. apply empty_store_wf. Defined.

Lemma upload_dicom_at_most_one_witness :
  let s' := snd (upload_dicom_with_auto_mapping (Some [Byte.x01]) (empty_store 0)) in
  rows s' = rows (empty_store 0) \/
  exists m up, rows s' = rows (empty_store 0) ++ [m] /\ mapping_type m = Some AUTO /\
    is_active m = true /\
    fst (upload_dicom_with_auto_mapping (Some [Byte.x01]) (empty_store 0))
    = Ok (UR_mapped up (MO_created m)).
Proof. apply upload_dicom_at_most_one. apply empty_store_wf. Defined.

Lemma manual_mapping_view_twice_witness :
  let s1 := snd (create_manual_patient_mapping (Some "orth-2") (Some "uuid-b") (empty_store 0)) in
  create_manual_patient_mapping (Some "orth-2") (Some "uuid-b") s1 = (Ok (MR_result MO_duplicate), s1) /\
  manual_status (MR_result MO_duplicate) = 400.
Proof.
  apply (manual_mapping_view_twice _ _ "orth-2" "uuid-b");
    [apply empty_store_wf | vm_compute; reflexivity].
Defined.

Lemma get_unmapped_exact_witness :
  exists l, get_unmapped_orthanc_patients (empty_store 0) = (Ok (UM_ok l (length l)), empty_store 0) /\
    map un_orthanc_patient_id l
    = List.filter (fun pid => negb (mem_str pid (mapped_patient_ids (empty_store 0))) && has_info pid)
        demo_patients.
Proof.
  apply get_unmapped_exact; [reflexivity|].
  intros pid Hin. cbn in Hin. destruct Hin as [<-|[<-|[<-|[]]]]; eexists; reflexivity.
Defined.
End SweepWitnesses.
