(* ===== verification/PyFloat.v ===== *)
(** * Python floats and [round(x, 2)]

    A Python [float] is an IEEE 754 binary64 number, modelled by the
    Standard Library's [SpecFloat] (precision 53, maximal exponent 1024),
    whose operations round to nearest, ties to even, as the hardware
    does.  The definitions are axiom-free and compute: [vm_compute]
    evaluates them.

    - [int / int] (true division) is correctly rounded in CPython; for
      the operands below 2^53 that the views divide, it is the division of
      the two exactly converted floats ([py_truediv]).
    - [round(x, 2)] is CPython's [double_round]: [_Py_dg_dtoa] in mode 3
      gives the decimal with two digits after the point nearest to the
      exact binary value of [x], ties to even, and [_Py_dg_strtod] reads
      it back as the nearest double.  For the digit string [n] that is
      the correctly rounded quotient [n / 100], which is [py_round2].

    The reference [round2_ref] rounds the exact rational instead; the
    lemmas compare the two. *)

From Stdlib Require Import ZArith QArith Qabs List Floats.SpecFloat.
Import ListNotations.
Local Open Scope Z_scope.

(** ** binary64 *)

Definition prec : Z := 53.
Definition emax : Z := 1024.

Abbreviation float := spec_float.

(** [float(z)], rounded to nearest. *)
Definition float_of_Z (z : Z) : float := binary_normalize prec emax z 0 false.

Definition fdiv : float -> float -> float := SFdiv prec emax.
Definition fmul : float -> float -> float := SFmul prec emax.

(** The exact value of a finite float; [None] for infinities and NaN. *)
Definition float_value (x : float) : option Q :=
  match x with
  | S754_zero _ => Some 0%Q
  | S754_finite s m e =>
      let v := match e with
               | Zneg p => Qmake (Zpos m) (Pos.pow 2 p)
               | _ => inject_Z (Zpos m * 2 ^ e)
               end in
      Some (if s then Qopp v else v)
  | _ => None
  end.

Definition float_eqb (x y : float) : bool :=
  match x, y with
  | S754_zero s, S754_zero s' => Bool.eqb s s'
  | S754_infinity s, S754_infinity s' => Bool.eqb s s'
  | S754_nan, S754_nan => true
  | S754_finite s m e, S754_finite s' m' e' => Bool.eqb s s' && Pos.eqb m m' && Z.eqb e e'
  | _, _ => false
  end.

(** ** Python operations *)

(** [a / b] on two ints. *)
Definition py_truediv (a b : Z) : float := fdiv (float_of_Z a) (float_of_Z b).

(** The integer nearest to [num / den], ties to even. *)
Definition round_half_even_div (num : Z) (den : positive) : Z :=
  let '(q, r) := Z.div_eucl num (Zpos den) in
  match Z.compare (2 * r) (Zpos den) with
  | Lt => q
  | Gt => q + 1
  | Eq => if Z.even q then q else q + 1
  end.

(** [round(x, 2)]: zeros, infinities and NaN are returned as they are. *)
Definition py_round2 (x : float) : float :=
  match x with
  | S754_finite s m e =>
      let n := match e with
               | Zneg p => round_half_even_div (Zpos m * 100) (Pos.pow 2 p)
               | _ => Zpos m * 100 * 2 ^ e
               end in
      let r := fdiv (float_of_Z n) (float_of_Z 100) in
      if s then SFopp r else r
  | _ => x
  end.

(** A number of a JSON answer: a Python [int] or [float]. *)
Inductive PyNumber :=
| PInt (z : Z)
| PFloat (f : float).

(** ** The reference: rounding the exact percentage *)

(** The exact percentage rounded to two decimals, ties to even, as the
    nearest double. *)
Definition round2_ref (ok total : nat) : float :=
  fdiv (float_of_Z (round_half_even_div (Z.of_nat ok * 10000) (Pos.of_nat total))) (float_of_Z 100).

(** ** Lemmas *)

Lemma float_eqb_eq x y : float_eqb x y = true -> x = y.
Proof.
  destruct x as [s|s| |s m e], y as [s'|s'| |s' m' e']; cbn; try discriminate; auto;
    intros H.
  - apply Bool.eqb_prop in H. now subst.
  - apply Bool.eqb_prop in H. now subst.
  - apply andb_prop in H as [H He]. apply andb_prop in H as [Hs Hm].
    apply Bool.eqb_prop in Hs. apply Pos.eqb_eq in Hm. apply Z.eqb_eq in He. now subst.
Qed.

(** A check of a property of [(ok, total)] for every [ok <= total] and
    [0 < total <= n]. *)
Definition forall_rates (p : nat -> nat -> bool) (n : nat) : bool :=
  forallb (fun t => forallb (fun ok => p ok t) (seq 0 (S t))) (seq 1 n).

Lemma forall_rates_spec p n ok total :
  forall_rates p n = true -> (0 < total <= n)%nat -> (ok <= total)%nat -> p ok total = true.
Proof.
  unfold forall_rates. intros H Ht Hok.
  rewrite forallb_forall in H. specialize (H total).
  rewrite forallb_forall in H. apply H.
  - apply in_seq. Lia.lia.
  - apply in_seq. Lia.lia.
Qed.
