(* ===== verification/DummyData.v ===== *)
(** * The dummy-data views of views.py

    [create_simple_dummy_dicom] writes a DICOM header for each of the
    three dummy patients of [create_dummy_data]; [dummy_dicom_tags] models
    the patient tags it writes (views.py 981-985), and the roundtrip
    theorem shows that the mapper's tag extraction reads back exactly the
    patient data they came from.  [clear_dummy_data] deactivates every
    active mapping whose archive id contains "DUMMY" (case-insensitive),
    and [get_mapping_test_status] reports statistics on those mappings.
    Its success rate is the binary64 value CPython computes for
    [round(successful / total * 100, 2)] ([PyFloat]).  The lemmas check it
    exhaustively for every table of up to 100 dummy mappings against the
    exact percentage rounded to two decimals ([success_rate_table],
    evaluated with [vm_compute]).  The per-mapping
    [get_dicom_studies_count()] (a model method outside src/) is a
    parameter that may raise. *)

From Stdlib Require Import Ascii QArith Qabs.
From stdpp Require Import base list strings.
From S2P Require Import Prelude Services MappingModel Matcher PyFloat.

(** ** The dummy patients and their DICOM header *)

Record DummyPatient := mkDummy {
  dp_family_name : string;
  dp_given_name : string;
  dp_gender : string;
  dp_birth_date : string;
  dp_patient_id : string
}.

Definition dummy_patients : list DummyPatient :=
  [mkDummy "김" "철수" "M" "1985-03-15" "DUMMY001";
   mkDummy "이" "영희" "F" "1990-07-22" "DUMMY002";
   mkDummy "박" "민수" "M" "1978-11-08" "DUMMY003"].

(** [s.replace('-', '')] *)
Fixpoint py_replace_dash (s : string) : string :=
  match s with
  | EmptyString => EmptyString
  | String c s' => if Ascii.eqb c "-"%char then py_replace_dash s' else String c (py_replace_dash s')
  end.

Definition dummy_dicom_tags (pd : DummyPatient) : tagmap :=
  [("PatientName", String.append (dp_family_name pd) (String "^"%char (dp_given_name pd)));
   ("PatientID", dp_patient_id pd);
   ("PatientBirthDate", py_replace_dash (dp_birth_date pd));
   ("PatientSex", dp_gender pd)].

(** ** clear_dummy_data *)

Fixpoint str_contains (hay needle : string) : bool :=
  String.prefix needle hay ||
  match hay with
  | EmptyString => false
  | String _ hay' => str_contains hay' needle
  end.

(** Django's [__icontains] lookup. *)
Definition icontains (hay needle : string) : bool :=
  str_contains (str_lower hay) (str_lower needle).

(** [filter(orthanc_patient_id__icontains='DUMMY', is_active=True)] *)
Definition is_dummy_mapping (r : PatientMapping) : bool :=
  icontains (orthanc_patient_id r) "DUMMY" && is_active r.

Inductive ClearResponse :=
| CD_ok (deleted_mappings : nat)
| CD_server_error (e : string).

(** The loop of views.py 1045-1053, each save in its own [try]. *)
Fixpoint deactivate_each (ms : list PatientMapping) : st Store nat :=
  match ms with
  | [] => st_ret 0
  | m :: ms' =>
      do ok <- try_except (do _ <- mapping_save (deactivate m); st_ret true)
                 (fun _ => st_ret false);
      do n <- deactivate_each ms';
      st_ret (if ok then S n else n)
  end.

Definition clear_dummy_data : st Store ClearResponse :=
  try_except
    (do s <- st_get;
     do n <- deactivate_each (List.filter is_dummy_mapping (rows s));
     st_ret (CD_ok n))
    (fun e => st_ret (CD_server_error e)).

(** ** get_mapping_test_status *)

Record TestStatistics := mkTestStatistics {
  total_dummy_mappings : nat;
  auto_mappings : nat;
  manual_mappings : nat;
  successful_mappings : nat;
  success_rate : PyNumber
}.

(** One entry of [mapping_details]; [created_date] is always set, so its
    [isoformat()] is always given. *)
Record TestEntry := mkTestEntry {
  te_mapping_id : nat;
  te_orthanc_patient_id : string;
  te_openmrs_patient_uuid : string;
  te_mapping_type : option MappingType;
  te_sync_status : option SyncStatus;
  te_created_date : nat;
  te_dicom_studies_count : nat
}.

Inductive TestStatusResponse :=
| TS_ok (statistics : TestStatistics) (mappings : list TestEntry)
| TS_server_error (e : string).

Definition is_successful_status (o : option SyncStatus) : bool :=
  match o with
  | Some SYNCED | Some AUTO_MAPPED | Some MANUAL_MAPPED => true
  | _ => false
  end.

Definition has_type (t : MappingType) (r : PatientMapping) : bool :=
  match mapping_type r with
  | Some t' => bool_decide (t' = t)
  | None => false
  end.

(** [successful / total * 100], exactly: the reference of the lemmas. *)
Definition rate (successful total : nat) : Q :=
  match total with
  | O => 0
  | S _ => Qmake (Z.of_nat (successful * 100)) (Pos.of_nat total)
  end.

(** [round(successful / total * 100, 2) if total > 0 else 0]: a float,
    or the int 0. *)
Definition success_rate_of (successful total : nat) : PyNumber :=
  if Nat.ltb 0 total
  then PFloat (py_round2 (fmul (py_truediv (Z.of_nat successful) (Z.of_nat total)) (float_of_Z 100)))
  else PInt 0.

Definition mapping_statistics (dummies : list PatientMapping) : TestStatistics :=
  let total := length dummies in
  let ok := length (List.filter (fun r => is_successful_status (sync_status r)) dummies) in
  {| total_dummy_mappings := total;
     auto_mappings := length (List.filter (has_type AUTO) dummies);
     manual_mappings := length (List.filter (has_type MANUAL) dummies);
     successful_mappings := ok;
     success_rate := success_rate_of ok total |}.

Section TestStatus.
(** [mapping.get_dicom_studies_count()], a method of the model
    (models.py, outside src/ and the spec) that may raise. *)
Variable studies_count_of : PatientMapping -> exc nat.

Definition test_entry (m : PatientMapping) : exc TestEntry :=
  exc_bind (studies_count_of m) (fun n =>
    Ok (mkTestEntry (mapping_id m) (orthanc_patient_id m) (openmrs_patient_uuid m)
          (mapping_type m) (sync_status m) (created_date m) n)).

(** The counts, then one entry per dummy mapping. *)
Definition get_mapping_test_status : st Store TestStatusResponse :=
  try_except
    (do s <- st_get;
     let dummies := List.filter is_dummy_mapping (rows s) in
     let stats := mapping_statistics dummies in
     do entries <- st_map (fun m => st_lift (test_entry m)) dummies;
     st_ret (TS_ok stats entries))
    (fun e => st_ret (TS_server_error e)).
End TestStatus.

(** ** create_dummy_data *)

(** The JSON body posted to OpenMRS for a dummy patient. *)
Record OpenMRSCreate := mkOpenMRSCreate {
  givenName : string;
  familyName : string;
  gender : string;
  birthdate : string
}.

Definition openmrs_data_of (pd : DummyPatient) : OpenMRSCreate :=
  mkOpenMRSCreate (dp_given_name pd) (dp_family_name pd) (dp_gender pd) (dp_birth_date pd).

Record CreatedPatient := mkCreatedPatient {
  cp_uuid : option string;
  cp_display : option string;
  cp_patient_id : string
}.

Record CreatedDicom := mkCreatedDicom {
  cd_orthanc_patient_id : option string;
  cd_patient_data : DummyPatient;
  cd_upload_result : UploadResult
}.

Record DummySummary := mkDummySummary {
  openmrs_patients_created : nat;
  orthanc_dicoms_created : nat;
  auto_mappings_attempted : nat;
  successful_mappings_made : nat
}.

Inductive CreateDummyResponse :=
| CDD_created (summary : DummySummary) (created_patients : list CreatedPatient)
    (created_dicoms : list CreatedDicom) (mapping_results : list MappingOutcome)
| CDD_server_error (e : string).

Section CreateDummy.
Context `{OrthancAPI} `{OpenMRSAPI} `{DicomCodec}.

(** [OpenMRSAPI.create_patient]: the [uuid] and [display] of the created
    patient, [None] for a falsy answer. *)
Variable openmrs_create_patient : OpenMRSCreate -> exc (option (option string * option string)).

(** pydicom's [Dataset.save_as] on a dataset with these patient tags and
    the fixed study, series and image attributes of
    [create_simple_dummy_dicom]; [None] when it raises. *)
Variable dicom_write : tagmap -> option Bytes.

Definition create_simple_dummy_dicom (pd : DummyPatient) : option Bytes :=
  dicom_write (dummy_dicom_tags pd).

(** Step 1, each creation in its own [try]. *)
Fixpoint create_openmrs_patients (ps : list DummyPatient) : list CreatedPatient :=
  match ps with
  | [] => []
  | pd :: ps' =>
      match openmrs_create_patient (openmrs_data_of pd) with
      | Ok (Some (u, d)) => mkCreatedPatient u d (dp_patient_id pd) :: create_openmrs_patients ps'
      | _ => create_openmrs_patients ps'
      end
  end.

(** The body of the [try] of step 2 for patient number [i]: the DICOMs
    and mapping results it appends. *)
Definition upload_one (ncreated i : nat) (pd : DummyPatient)
    : st Store (list CreatedDicom * list MappingOutcome) :=
  match create_simple_dummy_dicom pd with
  | Some data =>
      if bool_decide (data = []) then st_ret ([], []) else
      do up <- st_lift (orthanc_upload_dicom data);
      match up with
      | None => st_ret ([], [])
      | Some u =>
          let d := mkCreatedDicom (up_ParentPatient u) pd u in
          if (0 <? ncreated) && (i <? ncreated) then
            do r <- process_dicom_upload data u;
            st_ret ([d], [r])
          else st_ret ([d], [])
      end
  | None => st_ret ([], [])
  end.

Fixpoint upload_dummies (ncreated i : nat) (ps : list DummyPatient)
    : st Store (list CreatedDicom * list MappingOutcome) :=
  match ps with
  | [] => st_ret ([], [])
  | pd :: ps' =>
      do '(d, r) <- try_except (upload_one ncreated i pd) (fun _ => st_ret ([], []));
      do '(ds, rs) <- upload_dummies ncreated (S i) ps';
      st_ret (d ++ ds, r ++ rs)
  end.

Definition create_dummy_data : st Store CreateDummyResponse :=
  try_except
    (let cps := create_openmrs_patients dummy_patients in
     do '(ds, rs) <- upload_dummies (length cps) 0 dummy_patients;
     st_ret (CDD_created
               (mkDummySummary (length cps) (length ds) (length rs)
                  (length (List.filter outcome_success rs)))
               cps ds rs))
    (fun e => st_ret (CDD_server_error e)).

End CreateDummy.

(** ** Lemmas *)

Fixpoint no_caret (s : string) : bool :=
  match s with
  | EmptyString => true
  | String c s' => negb (Ascii.eqb c "^"%char) && no_caret s'
  end.

(** [YYYY-MM-DD] with digits, the form of [birth_date] in [dummy_patients]. *)
Definition iso_date (s : string) : bool :=
  match s with
  | String y1 (String y2 (String y3 (String y4 (String h1 (String m1 (String m2
      (String h2 (String d1 (String d2 EmptyString))))))))) =>
      forallb is_digit [y1; y2; y3; y4; m1; m2; d1; d2]
      && Ascii.eqb h1 "-"%char && Ascii.eqb h2 "-"%char
  | _ => false
  end.

Lemma split_at_caret_plain s : no_caret s = true -> split_at_caret s = (s, None).
Proof.
  induction s as [|c s IH]; [done|]. cbn. intros [Hc Hs]%andb_true_iff.
  destruct (Ascii.eqb c "^"%char); [done|]. by rewrite IH.
Qed.

Lemma split_at_caret_app a b :
  no_caret a = true -> split_at_caret (String.append a (String "^"%char b)) = (a, Some b).
Proof.
  induction a as [|c a IH]; [done|]. intros [Hc Ha]%andb_true_iff.
  simpl split_at_caret at 1.
  destruct (Ascii.eqb c "^"%char); [done|]. by rewrite IH.
Qed.

Lemma nonempty_ne s : s <> "" -> nonempty s = Some s.
Proof. unfold nonempty. by destruct (String.eqb_spec s ""). Qed.

Lemma digit_not_dash c : is_digit c = true -> Ascii.eqb c "-"%char = false.
Proof. destruct (Ascii.eqb_spec c "-"%char) as [->|]; done. Qed.

Lemma iso_date_replace_dash s :
  iso_date s = true -> dicom_date_to_iso (py_replace_dash s) = Some s.
Proof.
  unfold iso_date. repeat case_match; try done; subst.
  intros [[Hd Hh1]%andb_true_iff Hh2]%andb_true_iff.
  apply Ascii.eqb_eq in Hh1, Hh2. subst.
  pose proof Hd as Hd'. cbn in Hd'. rewrite !andb_true_iff in Hd'.
  destruct Hd' as (D1 & D2 & D3 & D4 & D5 & D6 & D7 & D8 & _).
  cbn [py_replace_dash]. rewrite (digit_not_dash _ D1), (digit_not_dash _ D2), (digit_not_dash _ D3),
    (digit_not_dash _ D4), (digit_not_dash _ D5), (digit_not_dash _ D6),
    (digit_not_dash _ D7), (digit_not_dash _ D8), !Ascii.eqb_refl.
  unfold dicom_date_to_iso. cbv beta iota. by rewrite Hd.
Qed.

Definition deactivate_where (p : PatientMapping -> bool) (r : PatientMapping) : PatientMapping :=
  if p r then deactivate r else r.

Definition deact_ids (I : list nat) : PatientMapping -> PatientMapping :=
  deactivate_where (fun r => existsb (Nat.eqb (mapping_id r)) I).

Lemma deactivate_where_id p r : mapping_id (deactivate_where p r) = mapping_id r.
Proof. unfold deactivate_where. by destruct (p r). Qed.

Lemma filter_active_deactivate_where p l :
  List.filter is_active (map (deactivate_where p) l)
  = List.filter (fun r => negb (p r)) (List.filter is_active l).
Proof.
  induction l as [|r l IH]; [done|]. unfold deactivate_where in *. cbn.
  destruct (p r) eqn:Hp, (is_active r); cbn; rewrite ?Hp, ?IH; done.
Qed.

(** Deactivating any set of rows keeps the table invariant. *)
Lemma deactivate_where_wf p s :
  store_wf s -> store_wf (mkStore (map (deactivate_where p) (rows s)) (next_id s) (now s)).
Proof.
  intros [Hnd Hfr Hc Hp]. split; cbn.
  - rewrite map_map. erewrite map_ext; [done|]. apply deactivate_where_id.
  - apply List.Forall_map. eapply List.Forall_impl; [|exact Hfr].
    intros r. by rewrite deactivate_where_id.
  - apply List.Forall_map. eapply List.Forall_impl; [|exact Hc].
    intros r. unfold deactivate_where. by destruct (p r).
  - unfold get_active_mappings in *. cbn. rewrite filter_active_deactivate_where.
    by apply NoDup_map_filter.
Qed.

(** Saving one more deactivated row of the original table. *)
Lemma save_deact_ids I m R :
  NoDup (map mapping_id R) -> In m R ->
  map (replace_row (deactivate m)) (map (deact_ids I) R)
  = map (deact_ids (I ++ [mapping_id m])) R.
Proof.
  intros Hnd Hin. rewrite map_map. apply map_ext_in. intros r Hr.
  unfold deact_ids, deactivate_where, replace_row.
  rewrite existsb_app. cbn [existsb]. rewrite orb_false_r.
  destruct (Nat.eqb_spec (mapping_id r) (mapping_id m)) as [E|E].
  - assert (r = m) as -> by (eapply NoDup_map_in_inj; eauto).
    destruct (existsb _ I); cbn; by rewrite Nat.eqb_refl.
  - rewrite orb_false_r. destruct (existsb _ I); cbn;
      by destruct (Nat.eqb_spec (mapping_id r) (mapping_id m)).
Qed.

Lemma deactivate_each_eq ms I R n t :
  NoDup (map mapping_id R) -> (forall m, In m ms -> In m R) ->
  deactivate_each ms (mkStore (map (deact_ids I) R) n t)
  = (Ok (length ms), mkStore (map (deact_ids (I ++ map mapping_id ms)) R) n t).
Proof.
  revert I. induction ms as [|m ms IH]; intros I Hnd Hms; cbn [deactivate_each].
  - by rewrite app_nil_r.
  - st_unfold. cbn [mapping_save rows next_id now]. rewrite save_deact_ids by auto with datatypes.
    rewrite IH by auto with datatypes. by rewrite <-app_assoc.
Qed.

Lemma deact_ids_filter p R :
  NoDup (map mapping_id R) ->
  map (deact_ids (map mapping_id (List.filter p R))) R = map (deactivate_where p) R.
Proof.
  intros Hnd. apply map_ext_in. intros r Hr. unfold deact_ids, deactivate_where.
  enough (existsb (Nat.eqb (mapping_id r)) (map mapping_id (List.filter p R)) = p r)
    as -> by done.
  destruct (p r) eqn:Hp.
  - apply existsb_exists. exists (mapping_id r).
    split; [apply in_map, filter_In; auto|apply Nat.eqb_refl].
  - apply not_true_is_false. intros (i & Hi & Heq%Nat.eqb_eq)%existsb_exists.
    apply in_map_iff in Hi as (m & <- & Hm%filter_In). destruct Hm as [Hm Hpm].
    assert (r = m) as -> by (eapply NoDup_map_in_inj; eauto). congruence.
Qed.

Lemma deact_ids_nil R : map (deact_ids []) R = R.
Proof. induction R as [|r R IH]; [done|]. cbn. by rewrite IH. Qed.

Lemma is_dummy_deactivate_where r :
  is_dummy_mapping (deactivate_where is_dummy_mapping r) = false.
Proof.
  unfold deactivate_where. destruct (is_dummy_mapping r) eqn:E; [|done].
  unfold is_dummy_mapping. cbn. apply andb_false_r.
Qed.

Lemma filter_dummy_cleared R :
  List.filter is_dummy_mapping (map (deactivate_where is_dummy_mapping) R) = [].
Proof. induction R as [|r R IH]; [done|]. cbn. by rewrite is_dummy_deactivate_where. Qed.

(** The check of the reported rate for [ok] successes out of [total]:
    it is the reference rounding of the exact percentage, lies in
    [[0, 100]] within half a hundredth of the exact rate, and is 100
    (0) exactly when every (no) mapping succeeded. *)
Definition rate_ok (ok total : nat) : bool :=
  match success_rate_of ok total with
  | PFloat r =>
      float_eqb r (round2_ref ok total) &&
      match float_value r with
      | Some v =>
          Qle_bool 0 v && Qle_bool v 100
          && Qle_bool (Qabs (v - rate ok total)) ((1#200) + (1#(2^40)))
          && Bool.eqb (Qeq_bool v 100) (Nat.eqb ok total) && Bool.eqb (Qeq_bool v 0) (Nat.eqb ok 0)
      | None => false
      end
  | PInt _ => false
  end.

(** Every table of at most 100 dummy mappings, checked by evaluation. *)
Lemma success_rate_table : forall_rates rate_ok 100 = true.
Proof. vm_compute. reflexivity. Qed.

Lemma rate_ok_spec ok total :
  rate_ok ok total = true ->
  success_rate_of ok total = PFloat (round2_ref ok total) /\
  exists v, float_value (round2_ref ok total) = Some v /\ (0 <= v <= 100)%Q /\
    (Qabs (v - rate ok total) <= (1#200) + (1#(2^40)))%Q /\
    ((v == 100)%Q <-> ok = total) /\ ((v == 0)%Q <-> ok = 0).
Proof.
  unfold rate_ok. destruct (success_rate_of ok total) as [|r]; [done|].
  intros [Heq H]%andb_prop. apply float_eqb_eq in Heq as ->. split; [done|].
  destruct (float_value (round2_ref ok total)) as [v|]; [|done]. exists v.
  apply andb_prop in H as [H HZ]. apply andb_prop in H as [H HH].
  apply andb_prop in H as [H Herr]. apply andb_prop in H as [H0 H100].
  apply Qle_bool_iff in H0, H100, Herr. apply Bool.eqb_prop in HH, HZ.
  split; [done|]. split; [done|]. split; [done|]. split.
  - by rewrite <-Qeq_bool_iff, HH, Nat.eqb_eq.
  - by rewrite <-Qeq_bool_iff, HZ, Nat.eqb_eq.
Qed.

Lemma rate_table_spec ok total :
  0 < total <= 100 -> ok <= total -> rate_ok ok total = true.
Proof. intros Ht Hok. exact (forall_rates_spec _ _ _ _ success_rate_table Ht Hok). Qed.

Lemma test_entries_ok studies_count_of l (s : Store) :
  (forall m, exists n, studies_count_of m = Ok n) ->
  exists es, st_map (fun m => st_lift (test_entry studies_count_of m)) l s = (Ok es, s) /\
             map te_mapping_id es = map mapping_id l.
Proof.
  intros Hn. apply st_map_lift_keys.
  - intros m _. destruct (Hn m) as [n Hm]. unfold test_entry. rewrite Hm. by eexists.
  - intros m e. unfold test_entry. destruct (studies_count_of m); cbn; [by intros [= <-]|done].
Qed.

Lemma length_filter_le {A} (f : A -> bool) l : length (List.filter f l) <= length l.
Proof. induction l as [|x l IH]; cbn; [done|]. destruct (f x); cbn; lia. Qed.

Lemma length_filter_disjoint {A} (f g : A -> bool) l :
  (forall x, f x = true -> g x = false) ->
  length (List.filter f l) + length (List.filter g l) <= length l.
Proof.
  intros Hfg. induction l as [|x l IH]; cbn; [done|].
  destruct (f x) eqn:Ef; [rewrite (Hfg x Ef)|destruct (g x)]; cbn; lia.
Qed.

Lemma process_dicom_upload_ok `{OrthancAPI} `{OpenMRSAPI} `{DicomCodec} d up s :
  store_wf s -> exists r, process_dicom_upload d up s = (Ok r, snd (process_dicom_upload d up s)).
Proof.
  intros Hwf. destruct (process_dicom_upload_shape d up s Hwf)
    as [(r & -> & _)|(tags & o & u & _ & _ & _ & _ & ->)]; eauto.
Qed.

Section CreateDummyLemmas.
Context `{OrthancAPI} `{OpenMRSAPI} `{DicomCodec}.
Variable openmrs_create_patient : OpenMRSCreate -> exc (option (option string * option string)).
Variable dicom_write : tagmap -> option Bytes.

(** The dummy patient's DICOM was written and Orthanc accepted it. *)
Definition dicom_uploaded (pd : DummyPatient) : bool :=
  match create_simple_dummy_dicom dicom_write pd with
  | Some data =>
      negb (bool_decide (data = [])) &&
      match orthanc_upload_dicom data with Ok (Some _) => true | _ => false end
  | None => false
  end.

Lemma upload_one_try n i pd s :
  store_wf s ->
  exists d r s',
    try_except (upload_one dicom_write n i pd) (fun _ => st_ret ([], [])) s = (Ok (d, r), s') /\
    store_wf s' /\
    length d = (if dicom_uploaded pd then 1 else 0) /\
    length r = (if dicom_uploaded pd && (i <? n) then 1 else 0).
Proof.
  intros Hwf. unfold upload_one, dicom_uploaded.
  destruct (create_simple_dummy_dicom dicom_write pd) as [data|]; [|by eexists _, _, _].
  destruct (bool_decide (data = [])); [by eexists _, _, _|]. cbn [negb andb].
  destruct (orthanc_upload_dicom data) as [[u|]|e] eqn:Hup; cbn [andb]; st_unfold;
    [|by eexists _, _, _|by eexists _, _, _].
  destruct (Nat.ltb_spec i n); cbn [andb].
  - replace (0 <? n) with true by (symmetry; apply Nat.ltb_lt; lia). cbn [andb].
    destruct (process_dicom_upload_ok data u s Hwf) as [r Hr]. rewrite Hr.
    eexists _, _, _. split_and!; [reflexivity|by apply process_dicom_upload_wf|done|done].
  - rewrite andb_false_r. by eexists _, _, _.
Qed.

Lemma upload_dummies_spec n ps i s :
  store_wf s ->
  exists ds rs s',
    upload_dummies dicom_write n i ps s = (Ok (ds, rs), s') /\ store_wf s' /\
    length ds = length (List.filter dicom_uploaded ps) /\
    length rs = length (List.filter dicom_uploaded (firstn (n - i) ps)).
Proof.
  revert i s. induction ps as [|pd ps IH]; intros i s Hwf.
  - exists [], [], s. by rewrite firstn_nil.
  - cbn [upload_dummies].
    destruct (upload_one_try n i pd s Hwf) as (d & r & s1 & E1 & Hwf1 & Hd & Hr).
    unfold st_bind at 1. rewrite E1.
    destruct (IH (S i) s1 Hwf1) as (ds & rs & s2 & E2 & Hwf2 & Hds & Hrs).
    unfold st_bind. rewrite E2. exists (d ++ ds), (r ++ rs), s2.
    split_and!; [done|done| |]; rewrite length_app.
    + cbn. destruct (dicom_uploaded pd); cbn; lia.
    + destruct (i <? n) eqn:Hi; [apply Nat.ltb_lt in Hi|apply Nat.ltb_ge in Hi].
      * replace (n - i) with (S (n - S i)) by lia. cbn.
        rewrite andb_true_r in Hr. destruct (dicom_uploaded pd); cbn; lia.
      * replace (n - i) with 0 by lia. replace (n - S i) with 0 in Hrs by lia.
        rewrite andb_false_r in Hr. by rewrite Hr, Hrs.
Qed.

Lemma create_dummy_data_wf s :
  store_wf s -> store_wf (snd (create_dummy_data openmrs_create_patient dicom_write s)).
Proof.
  intros Hwf. unfold create_dummy_data. cbn zeta. rewrite try_except_ret_snd.
  destruct (upload_dummies_spec (length (create_openmrs_patients openmrs_create_patient dummy_patients))
              dummy_patients 0 s Hwf) as (ds & rs & s' & E & Hwf' & _).
  unfold st_bind. by rewrite E.
Qed.

End CreateDummyLemmas.

(** ** The dummy DICOM header *)

(** C16: the patient tags that [create_simple_dummy_dicom] writes for a
    dummy patient whose names have no caret and whose birth date is an ISO
    date are read back by the mapper's tag extraction as exactly that
    patient: its identifier, family and given name, ISO birth date and
    sex. *)
Theorem dummy_dicom_tags_roundtrip pd :
  no_caret (dp_family_name pd) = true -> no_caret (dp_given_name pd) = true ->
  dp_family_name pd <> "" -> dp_given_name pd <> "" ->
  iso_date (dp_birth_date pd) = true ->
  extract_key (dummy_dicom_tags pd)
  = mkMatchKey (Some (dp_patient_id pd)) (Some (dp_family_name pd))
      (Some (dp_given_name pd)) (Some (dp_birth_date pd)) (sex_of (Some (dp_gender pd))).
Proof.
  intros Hf Hg Hf' Hg' Hd. unfold extract_key, dummy_dicom_tags, tag_get. cbn -[split_at_caret].
  unfold person_name. rewrite split_at_caret_app, split_at_caret_plain by done.
  cbn [fst]. by rewrite !nonempty_ne, iso_date_replace_dash.
Qed.

(** ** clear_dummy_data *)

Lemma clear_dummy_data_eq s :
  store_wf s ->
  clear_dummy_data s
  = (Ok (CD_ok (length (List.filter is_dummy_mapping (rows s)))),
     mkStore (map (deactivate_where is_dummy_mapping) (rows s)) (next_id s) (now s)).
Proof.
  intros [Hnd _ _ _]. destruct s as [R n t]; cbn in *. unfold clear_dummy_data.
  apply try_except_ok. rewrite st_bind_get. cbn [rows].
  pose proof (deactivate_each_eq (List.filter is_dummy_mapping R) [] R n t Hnd) as E.
  rewrite deact_ids_nil, app_nil_l, deact_ids_filter in E by done.
  unfold st_bind. rewrite E; [done|]. intros m Hm%filter_In; tauto.
Qed.

(** C17: on a well-formed table, [clear_dummy_data] answers with the
    number of active mappings whose archive id contains "DUMMY" in any
    case, and its only effect is to deactivate exactly those rows, each in
    place. *)
Lemma clear_dummy_data_wf s : store_wf s -> store_wf (snd (clear_dummy_data s)).
Proof. intros Hwf. rewrite clear_dummy_data_eq by done. by apply deactivate_where_wf. Qed.

(** The statistics view only reads the table. *)
Lemma get_mapping_test_status_state studies_count_of s :
  snd (get_mapping_test_status studies_count_of s) = s.
Proof.
  unfold get_mapping_test_status. rewrite try_except_ret_snd, st_bind_get. cbv zeta.
  rewrite st_bind_ret_snd. apply st_map_lift_state.
Qed.

Theorem clear_dummy_data_exact s :
  store_wf s ->
  clear_dummy_data s
  = (Ok (CD_ok (length (List.filter is_dummy_mapping (rows s)))),
     mkStore (map (deactivate_where is_dummy_mapping) (rows s)) (next_id s) (now s)).
Proof. apply clear_dummy_data_eq. Qed.

(** C18: after [clear_dummy_data] the table is still well formed, and
    [get_mapping_test_status] then reports no dummy mapping at all, with a
    success rate of 0. *)
Theorem clear_then_test_status_empty studies_count_of s :
  store_wf s ->
  let s' := snd (clear_dummy_data s) in
  store_wf s' /\
  get_mapping_test_status studies_count_of s'
  = (Ok (TS_ok (mkTestStatistics 0 0 0 0 (PInt 0)) []), s').
Proof.
  intros Hwf. cbn zeta. rewrite clear_dummy_data_eq by done. cbn [snd].
  split; [by apply deactivate_where_wf|].
  unfold get_mapping_test_status. apply try_except_ok. rewrite st_bind_get.
  cbn [rows]. by rewrite filter_dummy_cleared.
Qed.

(** ** get_mapping_test_status *)

(** C19: when every [get_dicom_studies_count()] answers,
    [get_mapping_test_status] never fails and leaves the table as it is;
    it lists the active dummy mappings in table order, and its statistics
    are consistent: the AUTO and MANUAL counts together and the
    successful count are at most the total; the success rate is the int
    0 for no dummy mapping, and for up to 100 dummy mappings a float
    between 0 and 100. *)
Theorem mapping_test_status_bounds studies_count_of s :
  (forall m, exists n, studies_count_of m = Ok n) ->
  exists st es,
    get_mapping_test_status studies_count_of s = (Ok (TS_ok st es), s) /\
    map te_mapping_id es = map mapping_id (List.filter is_dummy_mapping (rows s)) /\
    total_dummy_mappings st = length es /\
    auto_mappings st + manual_mappings st <= total_dummy_mappings st /\
    successful_mappings st <= total_dummy_mappings st /\
    (total_dummy_mappings st = 0 -> success_rate st = PInt 0) /\
    (0 < total_dummy_mappings st <= 100 ->
     exists f v, success_rate st = PFloat f /\ float_value f = Some v /\ (0 <= v <= 100)%Q).
Proof.
  intros Hn. set (ms := List.filter is_dummy_mapping (rows s)).
  destruct (test_entries_ok studies_count_of ms s Hn) as (es & Hes & Hids).
  exists (mapping_statistics ms), es.
  assert (Hlen : length es = length ms) by (rewrite <-(length_map te_mapping_id), Hids; apply length_map).
  pose proof (length_filter_le (fun r => is_successful_status (sync_status r)) ms) as Hok.
  split; [unfold get_mapping_test_status; apply try_except_ok;
         rewrite st_bind_get; cbv zeta; by rewrite (st_bind_ok _ _ _ _ _ Hes)|].
  cbn [total_dummy_mappings auto_mappings manual_mappings successful_mappings success_rate mapping_statistics].
  split_and!; [done|done| |done| |].
  - apply length_filter_disjoint. intros r. unfold has_type. by destruct (mapping_type r) as [[]|].
  - intros ->. reflexivity.
  - intros Ht. destruct (rate_ok_spec _ _ (rate_table_spec _ _ Ht Hok)) as [-> (v & Hv & Hb & _)].
    by exists (round2_ref (length (List.filter (fun r => is_successful_status (sync_status r)) ms)) (length ms)), v.
Qed.

(** C39: for every table of up to 100 dummy mappings, the success rate
    [round(successful / total * 100, 2)] that Python computes in binary64
    is the exact percentage rounded to two decimals, ties to even, read
    as the nearest float: the two roundings of the float computation never
    move it off the correct decimal.  That value lies between 0 and 100,
    within half a hundredth of the exact rate, and is 100 (0) exactly when
    every (no) dummy mapping succeeded. *)
Theorem success_rate_rounding ok total :
  0 < total <= 100 -> ok <= total ->
  success_rate_of ok total = PFloat (round2_ref ok total) /\
  exists v, float_value (round2_ref ok total) = Some v /\ (0 <= v <= 100)%Q /\
    (Qabs (v - rate ok total) <= (1#200) + (1#(2^40)))%Q /\
    ((v == 100)%Q <-> ok = total) /\ ((v == 0)%Q <-> ok = 0).
Proof. intros Ht Hok. exact (rate_ok_spec _ _ (rate_table_spec _ _ Ht Hok)). Qed.

(** ** create_dummy_data *)

Section CreateDummyTheorems.
Context `{OrthancAPI} `{OpenMRSAPI} `{DicomCodec}.
Variable openmrs_create_patient : OpenMRSCreate -> exc (option (option string * option string)).
Variable dicom_write : tagmap -> option Bytes.

(** C20: on a well-formed table, [create_dummy_data] always answers 201
    and keeps the table well formed; it reports one OpenMRS patient per
    successful creation and one DICOM per accepted upload, and it attempts
    auto-mapping for the uploaded DICOMs among the first [k] dummy
    patients, where [k] is the number of OpenMRS creations that succeeded,
    whichever patients those were; at most the attempted mappings
    succeed. *)
Theorem create_dummy_data_counts s :
  store_wf s ->
  exists sm cps ds rs s',
    create_dummy_data openmrs_create_patient dicom_write s
      = (Ok (CDD_created sm cps ds rs), s') /\
    store_wf s' /\
    cps = create_openmrs_patients openmrs_create_patient dummy_patients /\
    openmrs_patients_created sm = length cps /\
    orthanc_dicoms_created sm = length (List.filter (dicom_uploaded dicom_write) dummy_patients) /\
    auto_mappings_attempted sm
      = length (List.filter (dicom_uploaded dicom_write) (firstn (length cps) dummy_patients)) /\
    successful_mappings_made sm <= auto_mappings_attempted sm.
Proof.
  intros Hwf. unfold create_dummy_data. cbn zeta.
  set (cps := create_openmrs_patients openmrs_create_patient dummy_patients).
  destruct (upload_dummies_spec dicom_write (length cps) dummy_patients 0 s Hwf)
    as (ds & rs & s' & E & Hwf' & Hds & Hrs).
  rewrite Nat.sub_0_r in Hrs.
  exists (mkDummySummary (length cps) (length ds) (length rs)
            (length (List.filter outcome_success rs))), cps, ds, rs, s'.
  split_and!; cbn [openmrs_patients_created orthanc_dicoms_created
                   auto_mappings_attempted successful_mappings_made]; try done.
  - apply try_except_ok. unfold st_bind. by rewrite E.
  - apply length_filter_le.
Qed.

End CreateDummyTheorems.

(** ** Witnesses *)

Section DummyWitnesses.

Definition demo_dummy_store : Store :=
  mkStore [mkMapping 1 "DUMMY001-orth" "uuid-a" (Some AUTO) (Some AUTO_MAPPED) None 0 None true;
           mkMapping 2 "orth-1" "uuid-b" (Some MANUAL) (Some MANUAL_MAPPED) None 1 None true;
           mkMapping 3 "dummy002-orth" "uuid-c" (Some AUTO) (Some ERROR) (Some "registry patient not found") 2 None true]
    4 5.

Lemma demo_dummy_store_wf : store_wf demo_dummy_store.
Proof. split; apply (bool_decide_unpack _); vm_compute; reflexivity. Qed.

Lemma dummy_dicom_tags_roundtrip_witness :
  extract_key (dummy_dicom_tags (mkDummy "김" "철수" "M" "1985-03-15" "DUMMY001"))
  = mkMatchKey (Some "DUMMY001") (Some "김") (Some "철수") (Some "1985-03-15") SexM.
Proof.
  apply (dummy_dicom_tags_roundtrip (mkDummy "김" "철수" "M" "1985-03-15" "DUMMY001"));
    cbn; (reflexivity || discriminate).
Defined.

Lemma clear_dummy_data_exact_witness :
  fst (clear_dummy_data demo_dummy_store) = Ok (CD_ok 2).
Proof.
  rewrite (clear_dummy_data_exact demo_dummy_store demo_dummy_store_wf).
  vm_compute. reflexivity.
Defined.

Lemma clear_then_test_status_empty_witness :
  store_wf (snd (clear_dummy_data demo_dummy_store)).
Proof. apply (clear_then_test_status_empty (fun _ => Ok 0) demo_dummy_store demo_dummy_store_wf). Defined.

(** A run of [create_dummy_data] in which the OpenMRS creation of the
    first dummy patient fails: Orthanc names the uploaded patients by its
    own hashed ids, and the registry holds the two created patients, with
    no identifier (the OpenMRS body carries none). *)
Definition dummy_archive : ArchiveDb := {|
  adb_patients := []; adb_studies := []; adb_series := []; adb_instances := []; adb_files := [];
  adb_uploads :=
    [([Byte.x11], mkUploadResult (Some "i-1") (Some "8a8cf898-ca27c490-d0c7058c-929d0581-2bbf104d")
                   (Some "s-1") (Some "se-1") (Some "Success"));
     ([Byte.x12], mkUploadResult (Some "i-2") (Some "6816cb19-844d5aee-85245eba-3aef4e29-b1d0b8bd")
                   (Some "s-2") (Some "se-2") (Some "Success"));
     ([Byte.x13], mkUploadResult (Some "i-3") (Some "d3e4f5a6-0b1c2d3e-4f5a6b7c-8d9e0f1a-2b3c4d5e")
                   (Some "s-3") (Some "se-3") (Some "Success"))]
|}.

Definition dummy_registry : list RegistryPatient :=
  [mkRegistryPatient "uuid-영희" [] "이" "영희" "1990-07-22";
   mkRegistryPatient "uuid-민수" [] "박" "민수" "1978-11-08"].

Definition dummy_bytes (pid : string) : option Bytes :=
  if String.eqb pid "DUMMY001" then Some [Byte.x11]
  else if String.eqb pid "DUMMY002" then Some [Byte.x12]
  else if String.eqb pid "DUMMY003" then Some [Byte.x13] else None.

Definition dummy_write (t : tagmap) : option Bytes := tag_get t "PatientID" ≫= dummy_bytes.

Definition dummy_codec : DicomCodec := {|
  dicom_decode b :=
    dummy_dicom_tags <$> List.find (fun pd => default false (bytes_eqb b <$> dummy_bytes (dp_patient_id pd)))
                           dummy_patients
|}.

Definition create_first_fails (d : OpenMRSCreate) : exc (option (option string * option string)) :=
  if String.eqb (familyName d) "김" then Ok None
  else Ok (Some (Some (String.append "uuid-" (givenName d)), Some (givenName d))).

Definition dummy_run : exc CreateDummyResponse * Store :=
  @create_dummy_data (archive_of dummy_archive) (directory_of dummy_registry) dummy_codec
    create_first_fails dummy_write (empty_store 0).

Lemma create_dummy_data_counts_witness :
  exists sm cps ds rs s',
    dummy_run = (Ok (CDD_created sm cps ds rs), s') /\ store_wf s' /\
    cps = create_openmrs_patients create_first_fails dummy_patients /\
    openmrs_patients_created sm = length cps /\
    orthanc_dicoms_created sm
      = length (List.filter (@dicom_uploaded (archive_of dummy_archive) dummy_write) dummy_patients) /\
    auto_mappings_attempted sm
      = length (List.filter (@dicom_uploaded (archive_of dummy_archive) dummy_write)
                  (firstn (length cps) dummy_patients)) /\
    successful_mappings_made sm <= auto_mappings_attempted sm.
Proof.
  exact (create_dummy_data_counts create_first_fails dummy_write (empty_store 0) (empty_store_wf 0)).
Defined.

(** The run attempts auto-mapping for the first two DICOMs: the first,
    whose OpenMRS patient was never created, finds no match, and the third,
    whose OpenMRS patient exists, is never tried; the one mapping created
    names Orthanc's hashed id, so [clear_dummy_data] afterwards finds no
    mapping to deactivate and the mapping stays active. *)
Lemma dummy_run_gated_by_index :
  (exists sm cps ds rs s',
     dummy_run = (Ok (CDD_created sm cps ds rs), s') /\
     map cp_patient_id cps = ["DUMMY002"; "DUMMY003"] /\
     length ds = 3 /\
     rs = MO_no_match :: map MO_created (rows s') /\
     map openmrs_patient_uuid (rows s') = ["uuid-영희"] /\
     map orthanc_patient_id (get_active_mappings s')
       = ["6816cb19-844d5aee-85245eba-3aef4e29-b1d0b8bd"] /\
     clear_dummy_data s' = (Ok (CD_ok 0), s')).
Proof. vm_compute. do 5 eexists. split; [reflexivity|]. split_and!; reflexivity. Qed.

Lemma mapping_test_status_bounds_witness :
  (forall m, exists n, (fun _ : PatientMapping => Ok 1) m = Ok n) /\
  exists st es,
    get_mapping_test_status (fun _ => Ok 1) demo_dummy_store = (Ok (TS_ok st es), demo_dummy_store) /\
    map te_mapping_id es = map mapping_id (List.filter is_dummy_mapping (rows demo_dummy_store)) /\
    total_dummy_mappings st = length es /\
    auto_mappings st + manual_mappings st <= total_dummy_mappings st /\
    successful_mappings st <= total_dummy_mappings st /\
    (total_dummy_mappings st = 0 -> success_rate st = PInt 0) /\
    (0 < total_dummy_mappings st <= 100 ->
     exists f v, success_rate st = PFloat f /\ float_value f = Some v /\ (0 <= v <= 100)%Q).
Proof.
  assert (Hn : forall m, exists n, (fun _ : PatientMapping => Ok 1) m = Ok n) by (intros; by eexists).
  split; [exact Hn|]. exact (mapping_test_status_bounds (fun _ => Ok 1) demo_dummy_store Hn).
Defined.

Lemma success_rate_rounding_witness :
  (0 < 3 <= 100 /\ 1 <= 3) /\
  success_rate_of 1 3 = PFloat (round2_ref 1 3) /\
  exists v, float_value (round2_ref 1 3) = Some v /\ (0 <= v <= 100)%Q /\
    (Qabs (v - rate 1 3) <= (1#200) + (1#(2^40)))%Q /\
    ((v == 100)%Q <-> 1 = 3) /\ ((v == 0)%Q <-> 1 = 0).
Proof. split; [lia|]. apply (success_rate_rounding 1 3); lia. Defined.

(** Beyond 100 mappings the float computation can leave the correct
    decimal: 23 successes out of 160 are exactly 14.375 percent, which
    rounds to 14.38 (half up and half to even alike), but [23 / 160] in
    binary64 times 100 falls just below 14.375 and Python reports 14.37. *)
Lemma success_rate_23_of_160 :
  (rate 23 160 == 14375 # 1000)%Q /\
  exists f v, success_rate_of 23 160 = PFloat f /\ f <> round2_ref 23 160 /\
    float_value f = Some v /\ (v < 14375 # 1000)%Q /\
    exists w, float_value (round2_ref 23 160) = Some w /\ (14375 # 1000 < w)%Q.
Proof.
  split; [reflexivity|]. vm_compute. do 2 eexists. split; [reflexivity|]. split; [discriminate|].
  split; [reflexivity|]. split; [reflexivity|]. eexists. split; reflexivity.
Qed.

End DummyWitnesses.
