(* ===== verification/PatientViews.v ===== *)
(** * The OpenMRS patient views of views.py

    [search_patients] asks the registry for a free-text query and, for
    each hit, picks the identifier the DICOM mapping relies on: the first
    preferred non-empty identifier, else the first non-empty one
    (views.py 81-113).  [create_patient] validates the required fields,
    takes the identifier from the request (refusing one that already
    exists) or has the registry generate one, and creates the patient
    (views.py 208-286).  The registry of openmrs_api.py is not under src/:
    it is the interface [PatientDirectory], a state-passing class whose
    laws ([PatientDirectoryLaws]) say what the view relies on; the
    theorems about [create_patient] are proved against the laws, and the
    list-backed instance [list_directory] discharges them. *)

From Stdlib Require Import Ascii.
From stdpp Require Import base list strings.
From S2P Require Import Prelude Services MappingModel Json.

(** ** search_patients *)

(** One entry of [result['identifiers']]: [.get('identifier')] and the
    truthiness of [.get('preferred')]. *)
Record IdentifierInfo := mkIdentifierInfo {
  ii_identifier : option string;
  ii_preferred : bool
}.

(** One hit of [api.search_patients(query)['results']]. *)
Record SearchResult := mkSearchResult {
  sr_uuid : option string;
  sr_display : string;
  sr_gender : option string;
  sr_birthdate : option string;
  sr_age : option string;
  sr_identifiers : list IdentifierInfo
}.

Record SearchedPatient := mkSearchedPatient {
  sp_uuid : option string;
  sp_patient_identifier : option string;
  sp_all_identifiers : list string;
  sp_name : string;
  sp_display : string;
  sp_gender : option string;
  sp_birthdate : option string;
  sp_age : option string;
  sp_identifiers : list IdentifierInfo
}.

Inductive SearchResponse :=
| SR_missing_query
| SR_search_failed
| SR_ok (results : list SearchedPatient) (total : nat) (search_query : string).

Definition search_status (r : SearchResponse) : nat :=
  match r with
  | SR_missing_query => 400
  | SR_search_failed => 500
  | SR_ok _ _ _ => 200
  end.

(** One iteration of [for identifier_info in identifiers] (views.py 90-95). *)
Definition identifier_step (acc : option string * list string) (ii : IdentifierInfo)
    : option string * list string :=
  let '(primary, all) := acc in
  match ii_identifier ii with
  | Some v =>
      if str_truthy (Some v) then
        (if ii_preferred ii && negb (str_truthy primary) then Some v else primary,
         all ++ [v])
      else acc
  | None => acc
  end.

(** views.py 88-101: the primary identifier and all identifiers. *)
Definition primary_identifier (ids : list IdentifierInfo) : option string * list string :=
  let '(primary, all) := fold_left identifier_step ids (None, []) in
  match all with
  | v :: _ => if str_truthy primary then (primary, all) else (Some v, all)
  | [] => (primary, all)
  end.

Definition searched_patient (r : SearchResult) : SearchedPatient :=
  let '(primary, all) := primary_identifier (sr_identifiers r) in
  mkSearchedPatient (sr_uuid r) primary all (sr_display r) (sr_display r)
    (sr_gender r) (sr_birthdate r) (sr_age r) (sr_identifiers r).

Section Search.
(** [OpenMRSAPI.search_patients(query)]: [None] when it answers [None];
    a missing [results] key is the empty list.  The view has no [try], so
    a raise is Django's own 500. *)
Variable openmrs_search_patients : string -> exc (option (list SearchResult)).

Definition search_patients (q : option string) : exc SearchResponse :=
  let query := default "" q in
  if negb (str_truthy (Some query)) then Ok SR_missing_query else
  exc_bind (openmrs_search_patients query) (fun results =>
  match results with
  | None => Ok SR_search_failed
  | Some rs =>
      let patients := map searched_patient rs in
      Ok (SR_ok patients (length patients) query)
  end).
End Search.

(** ** create_patient *)

(** [request.data] as a dict. *)
Definition RequestData := list (string * json).

(** What the registry answers for a created patient. *)
Record CreatedRecord := mkCreatedRecord {
  cr_uuid : option string;
  cr_display : option string;
  cr_identifiers : list string
}.

(** The registry of openmrs_api.py, with its state [D]. *)
Class PatientDirectory (D : Type) := {
  dir_identifiers : D -> list string;
  check_identifier_exists : string -> st D bool;
  generate_unique_identifier : st D string;
  create_patient_with_identifier : RequestData -> string -> st D (option CreatedRecord)
}.

Inductive CreatePatientResponse :=
| CP_options
| CP_missing_fields (error : string)
| CP_identifier_exists (error : string)
| CP_create_failed
| CP_created (uuid display : option string) (identifiers : list string)
    (patient_identifier : string)
| CP_server_error (e : string).

Definition create_patient_status (r : CreatePatientResponse) : nat :=
  match r with
  | CP_options => 200
  | CP_missing_fields _ | CP_identifier_exists _ => 400
  | CP_create_failed | CP_server_error _ => 500
  | CP_created _ _ _ _ => 201
  end.

Definition required_fields : list string := ["givenName"; "familyName"; "gender"; "birthdate"].

(** [[field for field in required_fields if field not in data or not data[field]]] *)
Definition missing_fields (data : RequestData) : list string :=
  List.filter (fun f => match assoc data f with
                        | None => true
                        | Some v => negb (py_truthy v)
                        end) required_fields.

(** [data.get('patient_identifier', '').strip()]: [None] and other
    non-strings have no [strip] and raise. *)
Definition requested_identifier (data : RequestData) : exc string :=
  match assoc data "patient_identifier" with
  | None => Ok ""
  | Some (JStr s) => Ok (py_strip s)
  | Some _ => Raise "object has no attribute 'strip'"
  end.

Inductive Method := POST | OPTIONS.

(** A double quote, which the messages put around the identifier. *)
Definition dquote : string := String "034"%char EmptyString.

Definition identifier_exists_message (pid : string) : string :=
  String.append "Patient Identifier "
    (String.append dquote (String.append pid
      (String.append dquote "가 이미 존재합니다. 다른 식별자를 사용해주세요."))).

Section CreatePatient.
Context {D : Type} `{PatientDirectory D}.

(** views.py 252-275: create with the chosen identifier and answer. *)
Definition create_with_identifier (data : RequestData) (pid : string)
    : st D CreatePatientResponse :=
  do result <- create_patient_with_identifier data pid;
  match result with
  | None => st_ret CP_create_failed
  | Some r => st_ret (CP_created (cr_uuid r) (cr_display r) (cr_identifiers r) pid)
  end.

Definition create_patient (m : Method) (data : RequestData) : st D CreatePatientResponse :=
  match m with
  | OPTIONS => st_ret CP_options
  | POST =>
      try_except
        (match missing_fields data with
         | (_ :: _) as missing =>
             st_ret (CP_missing_fields (String.append "필수 필드가 누락되었습니다: "
                                          (py_join ", " missing)))
         | [] =>
             do given <- st_lift (requested_identifier data);
             if str_truthy (Some given) then
               do exists_ <- check_identifier_exists given;
               if exists_ then st_ret (CP_identifier_exists (identifier_exists_message given))
               else create_with_identifier data given
             else
               do pid <- generate_unique_identifier;
               create_with_identifier data pid
         end)
        (fun e => st_ret (CP_server_error e))
  end.
End CreatePatient.

(** What the view relies on: the existence check reads the registry
    without changing it and is exact; a generated identifier is new and
    non-empty, and generating adds no identifier; a creation that answers
    a record adds exactly the identifier it was given, one that fails or
    raises adds none. *)
Class PatientDirectoryLaws (D : Type) `{PatientDirectory D} := {
  check_identifier_exists_spec i d :
    snd (check_identifier_exists i d) = d /\
    (forall b, fst (check_identifier_exists i d) = Ok b -> (b = true <-> In i (dir_identifiers d)));
  generate_unique_identifier_spec d :
    dir_identifiers (snd (generate_unique_identifier d)) = dir_identifiers d /\
    (forall i, fst (generate_unique_identifier d) = Ok i -> ~ In i (dir_identifiers d) /\ i <> "");
  create_patient_with_identifier_spec data i d :
    dir_identifiers (snd (create_patient_with_identifier data i d))
    = match fst (create_patient_with_identifier data i d) with
      | Ok (Some _) => dir_identifiers d ++ [i]
      | _ => dir_identifiers d
      end
}.

Section CreatePatientLemmas.
Context {D : Type} `{PatientDirectoryLaws D}.

Definition created_pid (r : exc CreatePatientResponse) : option string :=
  match r with
  | Ok (CP_created _ _ _ pid) => Some pid
  | _ => None
  end.

(** The registry after creating with [pid]: [pid] is added exactly when
    the view answers 201 with it. *)
Lemma create_with_identifier_ids data pid d :
  let '(r, d') := create_with_identifier data pid d in
  dir_identifiers d' = match created_pid r with
                       | Some _ => dir_identifiers d ++ [pid]
                       | None => dir_identifiers d
                       end /\
  (forall q, created_pid r = Some q -> q = pid).
Proof.
  pose proof (create_patient_with_identifier_spec data pid d) as Hc.
  unfold create_with_identifier, st_bind.
  destruct (create_patient_with_identifier data pid d) as [[[c|]|e] d']; cbn in *; split;
    by try intros ? [= <-].
Qed.

Lemma create_with_identifier_nodup data pid d :
  NoDup (dir_identifiers d) -> ~ In pid (dir_identifiers d) ->
  let '(r, d') := create_with_identifier data pid d in
  NoDup (dir_identifiers d') /\
  (forall q, created_pid r = Some q -> ~ In q (dir_identifiers d) /\
                                       dir_identifiers d' = dir_identifiers d ++ [q]).
Proof.
  intros Hnd Hnin. pose proof (create_with_identifier_ids data pid d) as Hc.
  destruct (create_with_identifier data pid d) as [r d']. destruct Hc as [Hids Hq].
  split.
  - rewrite Hids. destruct (created_pid r); [|done].
    apply NoDup_app. split_and!; [done| |apply NoDup_singleton].
    intros x Hx [<-|[]]%list_elem_of_In. by apply Hnin, list_elem_of_In.
  - intros q Hr. rewrite (Hq q Hr) in *. rewrite Hr in Hids. done.
Qed.

(** The registry after a request, seen from the registry [d] before it:
    identifiers stay unique, and a 201 answer names an identifier that was
    new and is now the only one added. *)
Definition grows_by (d : D) (res : exc CreatePatientResponse * D) : Prop :=
  NoDup (dir_identifiers (snd res)) /\
  (forall q, created_pid (fst res) = Some q ->
     ~ In q (dir_identifiers d) /\ dir_identifiers (snd res) = dir_identifiers d ++ [q]).

Lemma grows_by_same d r d' :
  NoDup (dir_identifiers d) -> dir_identifiers d' = dir_identifiers d ->
  created_pid r = None -> grows_by d (r, d').
Proof. intros Hnd Hids Hr. split; cbn; [by rewrite Hids|]. by rewrite Hr. Qed.

Lemma grows_by_try d body :
  grows_by d (body d) -> grows_by d (try_except body (fun e => st_ret (CP_server_error e)) d).
Proof.
  unfold try_except, st_ret. destruct (body d) as [[r|e] d']; [done|].
  intros [Hnd _]. by split.
Qed.

Lemma create_with_grows_by data pid d0 d :
  NoDup (dir_identifiers d0) -> dir_identifiers d = dir_identifiers d0 ->
  ~ In pid (dir_identifiers d0) ->
  grows_by d0 (create_with_identifier data pid d).
Proof.
  intros Hnd Hids Hnin. rewrite <-Hids in Hnd, Hnin.
  pose proof (create_with_identifier_nodup data pid d Hnd Hnin) as Hc.
  destruct (create_with_identifier data pid d) as [r d']. destruct Hc as [Hnd' Hq].
  split; [done|]. intros q Hr. rewrite <-Hids. by apply Hq.
Qed.

(** C22: whatever the request, a registry whose identifiers are unique
    keeps them unique through create_patient; when the view answers 201,
    the patient identifier it reports was not in the registry before and
    is the one identifier the creation added. *)
Theorem create_patient_unique_identifier m data d :
  NoDup (dir_identifiers d) -> grows_by d (create_patient m data d).
Proof.
  intros Hnd. destruct m; cbn [create_patient]; [|by apply grows_by_same].
  apply grows_by_try. destruct (missing_fields data) as [|f fs]; [|by apply grows_by_same].
  unfold st_bind at 1, st_lift. destruct (requested_identifier data) as [given|e];
    [|by apply grows_by_same].
  destruct (str_truthy (Some given)).
  - destruct (check_identifier_exists_spec given d) as [Hs Hb].
    unfold st_bind. destruct (check_identifier_exists given d) as [[b|e] d1]; cbn in Hs, Hb;
      subst d1; [|by apply grows_by_same].
    destruct b; [by apply grows_by_same|].
    apply create_with_grows_by; [done|done|]. intros Hin. by apply (Hb false eq_refl) in Hin.
  - destruct (generate_unique_identifier_spec d) as [Hids Hfresh].
    unfold st_bind. destruct (generate_unique_identifier d) as [[pid|e] d1]; cbn in Hids, Hfresh;
      [|by apply grows_by_same].
    apply create_with_grows_by; [done|done|]. by apply Hfresh.
Qed.

(** C23: a request whose stripped [patient_identifier] is non-empty and
    already in the registry never creates a patient: the view answers 400
    with the message naming the identifier (or 500 if the existence check
    itself raises), and the registry is left as it was. *)
Theorem create_patient_duplicate_identifier data s d :
  missing_fields data = [] -> assoc data "patient_identifier" = Some (JStr s) ->
  py_strip s <> "" -> In (py_strip s) (dir_identifiers d) ->
  create_patient POST data d
    = (Ok (CP_identifier_exists (identifier_exists_message (py_strip s))), d) \/
  exists e, create_patient POST data d = (Ok (CP_server_error e), d).
Proof.
  intros Hm Ha Hne Hin. cbn [create_patient]. rewrite Hm.
  unfold requested_identifier. rewrite Ha. apply str_truthy_Some in Hne.
  st_unfold. rewrite Hne.
  destruct (check_identifier_exists_spec (py_strip s) d) as [Hs Hb].
  destruct (check_identifier_exists (py_strip s) d) as [[b|e] d1];
    cbn in Hs, Hb; subst d1.
  - left. by rewrite (proj2 (Hb b eq_refl) Hin).
  - right. by exists e.
Qed.

End CreatePatientLemmas.

(** ** The reference choice of the primary identifier *)

(** The value of an entry when it is truthy. *)
Definition truthy_value (ii : IdentifierInfo) : option string :=
  match ii_identifier ii with
  | Some v => if str_truthy (Some v) then Some v else None
  | None => None
  end.

Definition truthy_identifiers (ids : list IdentifierInfo) : list string :=
  omap truthy_value ids.

Definition preferred_identifiers (ids : list IdentifierInfo) : list string :=
  omap (fun ii => if ii_preferred ii then truthy_value ii else None) ids.

(** The first preferred identifier, else the first identifier. *)
Definition primary_spec (ids : list IdentifierInfo) : option string :=
  head (preferred_identifiers ids ++ truthy_identifiers ids).

Definition keep_or_head (p : option string) (l : list string) : option string :=
  if str_truthy p then p else match l with v :: _ => Some v | [] => p end.

Lemma identifier_step_value p all ii :
  identifier_step (p, all) ii
  = match truthy_value ii with
    | Some v => (if ii_preferred ii && negb (str_truthy p) then Some v else p, all ++ [v])
    | None => (p, all)
    end.
Proof.
  unfold identifier_step, truthy_value. destruct (ii_identifier ii) as [v|]; [|done].
  by destruct (str_truthy (Some v)).
Qed.

Lemma truthy_value_truthy ii v : truthy_value ii = Some v -> str_truthy (Some v) = true.
Proof.
  unfold truthy_value. destruct (ii_identifier ii) as [w|]; [|done].
  destruct (str_truthy (Some w)) eqn:E; congruence.
Qed.

Lemma identifier_fold ids p all :
  fold_left identifier_step ids (p, all)
  = (keep_or_head p (preferred_identifiers ids), all ++ truthy_identifiers ids).
Proof.
  revert p all. induction ids as [|ii ids IH]; intros p all; cbn [fold_left].
  - rewrite app_nil_r. unfold keep_or_head. by destruct (str_truthy p).
  - rewrite identifier_step_value. unfold preferred_identifiers, truthy_identifiers in *. cbn.
    destruct (truthy_value ii) as [v|] eqn:Ht;
      [|by destruct (ii_preferred ii); rewrite IH].
    rewrite IH, <-app_assoc. cbn. f_equal. unfold keep_or_head.
    pose proof (truthy_value_truthy ii v Ht) as Hv. cbn in Hv.
    destruct (ii_preferred ii), (str_truthy p) eqn:Hp; cbn; rewrite ?Hv, ?Hp; done.
Qed.

Lemma preferred_truthy ids v : In v (preferred_identifiers ids) -> In v (truthy_identifiers ids).
Proof.
  unfold preferred_identifiers, truthy_identifiers. rewrite <-!list_elem_of_In.
  rewrite !list_elem_of_omap. intros (ii & Hin & Hv). exists ii. split; [done|].
  by destruct (ii_preferred ii).
Qed.

Lemma truthy_identifiers_truthy ids v : In v (truthy_identifiers ids) -> str_truthy (Some v) = true.
Proof.
  unfold truthy_identifiers. rewrite <-list_elem_of_In, list_elem_of_omap.
  intros (ii & _ & Hv). unfold truthy_value in Hv.
  destruct (ii_identifier ii) as [w|]; [|done]. by destruct (str_truthy (Some w)) eqn:E; simplify_eq.
Qed.

Lemma preferred_nil_of_truthy_nil ids :
  truthy_identifiers ids = [] -> preferred_identifiers ids = [].
Proof.
  intros Ht. destruct (preferred_identifiers ids) as [|w l] eqn:Hp; [done|].
  pose proof (preferred_truthy ids w) as Hw. rewrite Hp, Ht in Hw. exfalso. apply Hw. by left.
Qed.

(** The loop of views.py 88-101 computes the reference choice. *)
Lemma primary_identifier_ref ids :
  primary_identifier ids = (primary_spec ids, truthy_identifiers ids).
Proof.
  unfold primary_identifier. rewrite identifier_fold. cbn [app].
  unfold primary_spec, keep_or_head. cbn [str_truthy].
  destruct (truthy_identifiers ids) as [|v vs] eqn:Ht.
  - by rewrite preferred_nil_of_truthy_nil.
  - destruct (preferred_identifiers ids) as [|w ws] eqn:Hp; [done|]. cbn.
    assert (Hw : In w (truthy_identifiers ids)) by (apply preferred_truthy; rewrite Hp; by left).
    apply truthy_identifiers_truthy in Hw. cbn in Hw. by rewrite Hw.
Qed.

Lemma primary_spec_in ids p :
  primary_spec ids = Some p -> In p (truthy_identifiers ids) /\ p <> "".
Proof.
  unfold primary_spec.
  destruct (preferred_identifiers ids) as [|w ws] eqn:Hp; cbn.
  - destruct (truthy_identifiers ids) as [|v vs] eqn:Ht; [done|]. intros [= <-].
    split; [by left|]. apply str_truthy_Some, (truthy_identifiers_truthy ids).
    rewrite Ht. by left.
  - intros [= <-]. assert (Hw : In w (truthy_identifiers ids))
      by (apply preferred_truthy; rewrite Hp; by left).
    split; [done|]. by apply str_truthy_Some, (truthy_identifiers_truthy ids).
Qed.

Lemma searched_patient_fields r :
  sp_patient_identifier (searched_patient r) = primary_spec (sr_identifiers r) /\
  sp_all_identifiers (searched_patient r) = truthy_identifiers (sr_identifiers r) /\
  sp_uuid (searched_patient r) = sr_uuid r.
Proof.
  unfold searched_patient.
  destruct (primary_identifier (sr_identifiers r)) as [p all] eqn:E. cbn.
  rewrite primary_identifier_ref in E. by injection E as <- <-.
Qed.

(** ** search_patients *)

(** C21: for a non-empty query that the registry answers, search_patients
    returns one entry per hit, in the registry's order, with the hit's
    uuid; each entry's [patient_identifier] is the first preferred
    non-empty identifier of the hit, else its first non-empty identifier,
    and when present it is non-empty and listed in [all_identifiers]. *)
Theorem search_patients_results f query rs :
  query <> "" -> f query = Ok (Some rs) ->
  exists ps,
    search_patients f (Some query) = Ok (SR_ok ps (length rs) query) /\
    map sp_uuid ps = map sr_uuid rs /\
    map sp_patient_identifier ps = map (fun r => primary_spec (sr_identifiers r)) rs /\
    Forall (fun p => forall v, sp_patient_identifier p = Some v ->
                               In v (sp_all_identifiers p) /\ v <> "") ps.
Proof.
  intros Hq Hf. exists (map searched_patient rs).
  unfold search_patients. change (default "" (Some query)) with query.
  apply str_truthy_Some in Hq. rewrite Hq, Hf. cbn.
  rewrite length_map, !map_map. split_and!; [done| | |].
  - apply map_ext. intros r. apply searched_patient_fields.
  - apply map_ext. intros r. apply searched_patient_fields.
  - apply List.Forall_map, List.Forall_forall. intros r _ v.
    destruct (searched_patient_fields r) as (-> & -> & _). apply primary_spec_in.
Qed.

Section CreatePatientValidation.
Context {D : Type} `{PatientDirectory D}.

(** C24: a POST lacking a required field, or carrying it empty, null or
    otherwise falsy, is answered 400 with the missing fields listed in the
    order of [required_fields], without consulting or changing the
    registry. *)
Theorem create_patient_missing_fields data d :
  missing_fields data <> [] ->
  create_patient POST data d
  = (Ok (CP_missing_fields (String.append "필수 필드가 누락되었습니다: "
                              (py_join ", " (missing_fields data)))), d) /\
  (forall f, In f (missing_fields data) <->
     In f required_fields /\ (assoc data f = None \/ exists v, assoc data f = Some v /\ py_truthy v = false)).
Proof.
  intros Hm. split.
  - cbn [create_patient]. destruct (missing_fields data) as [|f fs]; [done|]. reflexivity.
  - intros f. unfold missing_fields. rewrite filter_In.
    destruct (assoc data f) as [v|]; [|split; intros [Hin _]; split; auto].
    split; intros [Hin Hv]; split; try done.
    + right. exists v. split; [done|]. by destruct (py_truthy v).
    + destruct Hv as [|(w & [= <-] & ->)]; done.
Qed.

End CreatePatientValidation.

(** ** A list-backed registry *)

Definition list_ids (d : list RegistryPatient) : list string := flat_map rp_identifiers d.

(** An identifier longer than every identifier of [ids]. *)
Definition fresh_identifier (ids : list string) : string :=
  String.append "P" (foldr String.append "" ids).

Definition json_str (data : RequestData) (k : string) : string :=
  match assoc data k with Some (JStr s) => s | _ => "" end.

Definition list_create (data : RequestData) (i : string) (d : list RegistryPatient)
    : exc (option CreatedRecord) * list RegistryPatient :=
  let p := mkRegistryPatient (String.append "uuid-" i) [i] (json_str data "familyName")
             (json_str data "givenName") (json_str data "birthdate") in
  (Ok (Some (mkCreatedRecord (Some (rp_uuid p)) (Some i) [i])), d ++ [p]).

#[local] Instance list_directory : PatientDirectory (list RegistryPatient) := {|
  dir_identifiers := list_ids;
  check_identifier_exists i d := (Ok (existsb (String.eqb i) (list_ids d)), d);
  generate_unique_identifier d := (Ok (fresh_identifier (list_ids d)), d);
  create_patient_with_identifier := list_create
|}.

Lemma string_length_append a b :
  String.length (String.append a b) = String.length a + String.length b.
Proof. induction a as [|c a IH]; simpl; [done|]. by rewrite IH. Qed.

Lemma foldr_append_length ids x :
  In x ids -> String.length x <= String.length (foldr String.append "" ids).
Proof.
  induction ids as [|y ids IH]; [done|]. cbn [foldr]. rewrite string_length_append.
  intros [->|Hin]; [lia|]. specialize (IH Hin). lia.
Qed.

Lemma fresh_identifier_fresh ids : ~ In (fresh_identifier ids) ids /\ fresh_identifier ids <> "".
Proof.
  split; [|done]. intros Hin. pose proof (foldr_append_length ids _ Hin) as Hl.
  unfold fresh_identifier in Hl. rewrite string_length_append in Hl. cbn in Hl. lia.
Qed.

#[local] Instance list_directory_laws : PatientDirectoryLaws (list RegistryPatient).
Proof.
  split.
  - intros i d. split; [done|]. intros b [= <-]. cbn.
    rewrite existsb_exists. split.
    + intros (x & Hx & ->%String.eqb_eq). done.
    + intros Hin. exists i. by rewrite String.eqb_refl.
  - intros d. split; [done|]. intros i [= <-]. apply fresh_identifier_fresh.
  - intros data i d. cbn. unfold list_ids. rewrite flat_map_app. done.
Qed.

(** ** Witnesses *)

Section PatientWitnesses.

Definition demo_hit : SearchResult :=
  mkSearchResult (Some "uuid-a") "P100 - Kim Min" (Some "M") (Some "1985-03-15") (Some "40")
    [mkIdentifierInfo (Some "") true; mkIdentifierInfo (Some "OLD-1") false;
     mkIdentifierInfo (Some "P100") true; mkIdentifierInfo None true].

Definition demo_search (q : string) : exc (option (list SearchResult)) := Ok (Some [demo_hit]).

Definition demo_form (pid : json) : RequestData :=
  [("givenName", JStr "Min"); ("familyName", JStr "Kim"); ("gender", JStr "M");
   ("birthdate", JStr "1985-03-15"); ("patient_identifier", pid)].

Lemma search_patients_results_witness :
  exists ps,
    search_patients demo_search (Some "Kim") = Ok (SR_ok ps 1 "Kim") /\
    map sp_uuid ps = [Some "uuid-a"] /\
    map sp_patient_identifier ps = [Some "P100"] /\
    Forall (fun p => forall v, sp_patient_identifier p = Some v ->
                               In v (sp_all_identifiers p) /\ v <> "") ps.
Proof.
  apply (search_patients_results demo_search "Kim" [demo_hit]); [discriminate|reflexivity].
Defined.

Lemma create_patient_unique_identifier_witness :
  grows_by demo_registry (create_patient POST (demo_form (JStr " P200 ")) demo_registry).
Proof.
  apply (create_patient_unique_identifier POST (demo_form (JStr " P200 ")) demo_registry).
  apply (bool_decide_unpack _). vm_compute. reflexivity.
Defined.

Lemma create_patient_duplicate_identifier_witness :
  create_patient POST (demo_form (JStr " P100 ")) demo_registry
    = (Ok (CP_identifier_exists (identifier_exists_message "P100")), demo_registry) \/
  exists e, create_patient POST (demo_form (JStr " P100 ")) demo_registry
              = (Ok (CP_server_error e), demo_registry).
Proof.
  apply (create_patient_duplicate_identifier (demo_form (JStr " P100 ")) " P100 " demo_registry);
    vm_compute; (reflexivity || discriminate || tauto).
Defined.

Lemma create_patient_missing_fields_witness :
  create_patient POST [("givenName", JStr "Min"); ("familyName", JNull)] demo_registry
  = (Ok (CP_missing_fields (String.append "필수 필드가 누락되었습니다: "
                              (py_join ", " ["familyName"; "gender"; "birthdate"]))),
     demo_registry) /\
  (forall f, In f ["familyName"; "gender"; "birthdate"] <->
     In f required_fields /\
     (assoc [("givenName", JStr "Min"); ("familyName", JNull)] f = None \/
      exists v, assoc [("givenName", JStr "Min"); ("familyName", JNull)] f = Some v /\
                py_truthy v = false)).
Proof.
  apply (create_patient_missing_fields [("givenName", JStr "Min"); ("familyName", JNull)]
           demo_registry).
  vm_compute. discriminate.
Defined.

(** A form whose [patient_identifier] is JSON [null] is not given a
    generated identifier: [None.strip()] raises and the view answers 500. *)
Lemma create_patient_null_identifier :
  exists e, create_patient POST (demo_form JNull) demo_registry
            = (Ok (CP_server_error e), demo_registry).
Proof. eexists. vm_compute. reflexivity. Qed.

End PatientWitnesses.
