(* ===== verification/PyDateTime.v ===== *)
(** * Python's [datetime] values, their formatting and parsing

    The [datetime] fields the views use, Python's comparison of them
    (lexicographic on the fields), the zero-padded directives of
    [strftime] ([%Y] for four-digit years, [%m], [%d], ...), and
    [datetime.strptime(s, '%Y-%m-%d')] as CPython's [_strptime] runs it:
    the regular expression the format compiles to, matched with
    backtracking over its alternatives, the check that no text remains,
    and the range checks of the [date] constructor. *)

From Stdlib Require Import Ascii.
From stdpp Require Import base list strings.
From S2P Require Import Prelude.

(** ** Date-times *)

Record DateTime := mkDateTime {
  dt_year : nat; dt_month : nat; dt_day : nat;
  dt_hour : nat; dt_minute : nat; dt_second : nat
}.

Definition dt_fields (d : DateTime) : list nat :=
  [dt_year d; dt_month d; dt_day d; dt_hour d; dt_minute d; dt_second d].

Fixpoint lex_compare (l1 l2 : list nat) : comparison :=
  match l1, l2 with
  | [], [] => Eq
  | [], _ :: _ => Lt
  | _ :: _, [] => Gt
  | x :: l1', y :: l2' => match Nat.compare x y with Eq => lex_compare l1' l2' | c => c end
  end.

(** Python's comparison of [datetime]s. *)
Definition dt_compare (a b : DateTime) : comparison := lex_compare (dt_fields a) (dt_fields b).

Definition dt_le (a b : DateTime) : bool :=
  match dt_compare a b with Gt => false | _ => true end.

Definition digit (n : nat) : ascii := ascii_of_nat (48 + n).

(** [%m], [%d], [%H], [%M], [%S]: two digits. *)
Definition pad2 (n : nat) : string :=
  String (digit (n / 10 mod 10)) (String (digit (n mod 10)) EmptyString).

(** [%Y] for a four-digit year. *)
Definition pad4 (n : nat) : string := String.append (pad2 (n / 100)) (pad2 (n mod 100)).

Definition cat (ss : list string) : string := foldr String.append EmptyString ss.


(** ** Formatted numbers compare as the numbers *)

Lemma compare_app_eqlen p1 p2 s1 s2 :
  String.length p1 = String.length p2 ->
  String.compare (String.append p1 s1) (String.append p2 s2)
  = match String.compare p1 p2 with Eq => String.compare s1 s2 | c => c end.
Proof.
  revert p2. induction p1 as [|c1 p1 IH]; intros [|c2 p2]; simpl; try done.
  intros [= Hl]. destruct (Ascii.compare c1 c2); [by apply IH|done|done].
Qed.

Lemma lex_divmod b a a' :
  0 < b ->
  Nat.compare a a' = match Nat.compare (a / b) (a' / b) with
                     | Eq => Nat.compare (a mod b) (a' mod b) | c => c end.
Proof.
  intros Hb.
  pose proof (Nat.div_mod a b ltac:(lia)). pose proof (Nat.div_mod a' b ltac:(lia)).
  pose proof (Nat.mod_upper_bound a b ltac:(lia)). pose proof (Nat.mod_upper_bound a' b ltac:(lia)).
  destruct (Nat.compare_spec (a / b) (a' / b)) as [E|L|G].
  - rewrite E in *. destruct (Nat.compare_spec (a mod b) (a' mod b));
      [apply Nat.compare_eq_iff|apply Nat.compare_lt_iff|apply Nat.compare_gt_iff]; lia.
  - apply Nat.compare_lt_iff. nia.
  - apply Nat.compare_gt_iff. nia.
Qed.

Lemma digit_compare n m :
  n < 10 -> m < 10 -> Ascii.compare (digit n) (digit m) = Nat.compare n m.
Proof.
  intros Hn Hm. unfold Ascii.compare, digit, ascii_of_nat.
  rewrite !N_ascii_embedding by lia. rewrite <-Nat2N.inj_compare.
  destruct (Nat.compare_spec n m);
    [apply Nat.compare_eq_iff|apply Nat.compare_lt_iff|apply Nat.compare_gt_iff]; lia.
Qed.

Lemma pad2_compare a b :
  a < 100 -> b < 100 -> String.compare (pad2 a) (pad2 b) = Nat.compare a b.
Proof.
  intros Ha Hb. unfold pad2. cbn [String.compare].
  rewrite (Nat.mod_small (a / 10)), (Nat.mod_small (b / 10)) by (apply Nat.Div0.div_lt_upper_bound; lia).
  rewrite !digit_compare by (apply Nat.mod_upper_bound || apply Nat.Div0.div_lt_upper_bound; lia).
  rewrite (lex_divmod 10 a b) by lia. by destruct (Nat.compare (a mod 10) (b mod 10)).
Qed.

Lemma pad4_compare a b :
  a < 100 * 100 -> b < 100 * 100 -> String.compare (pad4 a) (pad4 b) = Nat.compare a b.
Proof.
  intros Ha Hb. unfold pad4. rewrite compare_app_eqlen by done.
  rewrite !pad2_compare by (apply Nat.mod_upper_bound || apply Nat.Div0.div_lt_upper_bound; lia).
  by rewrite (lex_divmod 100 a b) by lia.
Qed.

Lemma pad2_length n : String.length (pad2 n) = 2.
Proof. done. Qed.

Lemma pad4_length n : String.length (pad4 n) = 4.
Proof. done. Qed.


(** ** The calendar of [datetime.date] *)

Definition is_leap (y : nat) : bool :=
  (y mod 4 =? 0) && (negb (y mod 100 =? 0) || (y mod 400 =? 0)).

Definition days_in_month (y m : nat) : nat :=
  match m with
  | 1 | 3 | 5 | 7 | 8 | 10 | 12 => 31
  | 4 | 6 | 9 | 11 => 30
  | 2 => if is_leap y then 29 else 28
  | _ => 0
  end.

(** The checks of [date(year, month, day)]: [MINYEAR = 1],
    [MAXYEAR = 9999]. *)
Definition date_ok (y m d : nat) : bool :=
  (1 <=? y) && (y <? 100 * 100) && (1 <=? m) && (m <=? 12) && (1 <=? d) && (d <=? days_in_month y m).

(** [date.isoformat()]: [%04d-%02d-%02d]. *)
Definition date_isoformat (y m d : nat) : string :=
  pad4 y +:+ String "-" (pad2 m +:+ String "-" (pad2 d)).

(** ** [datetime.strptime(s, '%Y-%m-%d')] *)

Definition digit_val (c : ascii) : nat := Ascii.nat_of_ascii c - 48.

Definition in_range (lo hi : nat) (c : ascii) : bool :=
  is_digit c && (lo <=? digit_val c) && (digit_val c <=? hi).

Definition strip_char (c : ascii) (s : string) : option string :=
  match s with String c' r => if Ascii.eqb c' c then Some r else None | EmptyString => None end.

(** [(?P<Y>\d\d\d\d)] *)
Definition rx_Y (s : string) : option (nat * string) :=
  match s with
  | String a (String b (String c (String d r))) =>
      if is_digit a && is_digit b && is_digit c && is_digit d
      then Some (1000 * digit_val a + 100 * digit_val b + 10 * digit_val c + digit_val d, r)
      else None
  | _ => None
  end.

(** One alternative [x[lo-hi]] of two characters. *)
Definition rx_two (ok1 : ascii -> bool) (lo hi : nat) (val : ascii -> nat -> nat) (s : string)
    : list (nat * string) :=
  match s with
  | String a (String b r) => if ok1 a && in_range lo hi b then [(val a (digit_val b), r)] else []
  | _ => []
  end.

(** [(?P<m>1[0-2]|0[1-9]|[1-9])]: the matches of the alternatives, in
    the order the regular expression tries them. *)
Definition rx_m (s : string) : list (nat * string) :=
  rx_two (fun a => Ascii.eqb a "1") 0 2 (fun _ v => 10 + v) s ++
  rx_two (fun a => Ascii.eqb a "0") 1 9 (fun _ v => v) s ++
  match s with String a r => if in_range 1 9 a then [(digit_val a, r)] else [] | _ => [] end.

(** [(?P<d>3[01]|[12]\d|0[1-9]|[1-9]| [1-9])]; [int(' 5')] is [5]. *)
Definition rx_d (s : string) : list (nat * string) :=
  rx_two (fun a => Ascii.eqb a "3") 0 1 (fun _ v => 30 + v) s ++
  rx_two (in_range 1 2) 0 9 (fun a v => 10 * digit_val a + v) s ++
  rx_two (fun a => Ascii.eqb a "0") 1 9 (fun _ v => v) s ++
  match s with String a r => if in_range 1 9 a then [(digit_val a, r)] else [] | _ => [] end ++
  rx_two (fun a => Ascii.eqb a " ") 1 9 (fun _ v => v) s.

Fixpoint first_some {A B} (f : A -> option B) (l : list A) : option B :=
  match l with
  | [] => None
  | x :: l' => match f x with Some b => Some b | None => first_some f l' end
  end.

(** [format_regex.match(s)]: the first match of the pattern on a prefix
    of [s], in backtracking order, with the text after it. *)
Definition rx_ymd (s : string) : option (nat * nat * nat * string) :=
  '(y, r1) ← rx_Y s;
  r2 ← strip_char "-" r1;
  first_some (fun '(m, r3) =>
    r4 ← strip_char "-" r3;
    '(d, r5) ← head (rx_d r4);
    Some (y, m, d, r5)) (rx_m r2).

(** [datetime.strptime(s, '%Y-%m-%d')]; [None] is the [ValueError] of a
    failed match, of unconverted data, or of a day out of range. *)
Definition strptime_ymd (s : string) : option DateTime :=
  match rx_ymd s with
  | Some (y, m, d, EmptyString) => if date_ok y m d then Some (mkDateTime y m d 0 0 0) else None
  | _ => None
  end.

(** ** [strptime] reads back what [isoformat] writes *)

Lemma digit_val_digit n : n < 10 -> digit_val (digit n) = n.
Proof. intros Hn. unfold digit_val, digit. rewrite Ascii.nat_ascii_embedding; lia. Qed.

Lemma is_digit_digit n : n < 10 -> is_digit (digit n) = true.
Proof.
  intros Hn. unfold is_digit, digit. rewrite Ascii.nat_ascii_embedding by lia.
  apply andb_true_iff. rewrite !Nat.leb_le. lia.
Qed.

Lemma pad2_digits n :
  pad2 n = String (digit (n / 10 mod 10)) (String (digit (n mod 10)) EmptyString).
Proof. reflexivity. Qed.

Lemma pad4_app y r :
  pad4 y +:+ r =
  String (digit (y / 100 / 10 mod 10)) (String (digit (y / 100 mod 10))
    (String (digit (y mod 100 / 10 mod 10)) (String (digit (y mod 100 mod 10)) r))).
Proof. reflexivity. Qed.

Lemma rx_Y_pad4 y r : y < 100 * 100 -> rx_Y (pad4 y +:+ r) = Some (y, r).
Proof.
  intros Hy. rewrite pad4_app.
  assert (y / 100 < 100) by (apply Nat.Div0.div_lt_upper_bound; lia).
  assert (y mod 100 < 100) by (apply Nat.mod_upper_bound; lia).
  rewrite (Nat.mod_small (y / 100 / 10)), (Nat.mod_small (y mod 100 / 10))
    by (apply Nat.Div0.div_lt_upper_bound; lia).
  assert (y / 100 / 10 < 10) by (apply Nat.Div0.div_lt_upper_bound; lia).
  assert (y mod 100 / 10 < 10) by (apply Nat.Div0.div_lt_upper_bound; lia).
  assert (y / 100 mod 10 < 10) by (apply Nat.mod_upper_bound; lia).
  assert (y mod 100 mod 10 < 10) by (apply Nat.mod_upper_bound; lia).
  unfold rx_Y. cbv beta iota. rewrite !is_digit_digit, !digit_val_digit by done.
  cbv beta iota delta [andb]. do 2 f_equal.
  pose proof (Nat.div_mod y 100 ltac:(lia)).
  pose proof (Nat.div_mod (y / 100) 10 ltac:(lia)). pose proof (Nat.div_mod (y mod 100) 10 ltac:(lia)).
  lia.
Qed.

Lemma rx_m_pad2 m r :
  1 <= m <= 12 -> exists l, rx_m (pad2 m +:+ String "-" r) = (m, String "-" r) :: l.
Proof. intros Hm. do 13 (destruct m as [|m]; [try lia; eexists; reflexivity|]). lia. Qed.

Lemma rx_d_pad2 d : 1 <= d <= 31 -> exists l, rx_d (pad2 d) = (d, EmptyString) :: l.
Proof. intros Hd. do 32 (destruct d as [|d]; [try lia; eexists; reflexivity|]). lia. Qed.

Lemma date_ok_spec y m d :
  date_ok y m d = true <-> 1 <= y < 100 * 100 /\ 1 <= m <= 12 /\ 1 <= d <= days_in_month y m.
Proof. unfold date_ok. rewrite !andb_true_iff, !Nat.leb_le, !Nat.ltb_lt. lia. Qed.

Lemma days_in_month_le y m : days_in_month y m <= 31.
Proof. unfold days_in_month. repeat case_match; lia. Qed.

(** [datetime.strptime(date(y, m, d).isoformat(), '%Y-%m-%d')] is the
    date itself, at midnight. *)
Lemma strptime_isoformat y m d :
  date_ok y m d = true -> strptime_ymd (date_isoformat y m d) = Some (mkDateTime y m d 0 0 0).
Proof.
  intros Hok. pose proof Hok as (Hy & Hm & Hd)%date_ok_spec.
  pose proof (days_in_month_le y m).
  unfold strptime_ymd, rx_ymd, date_isoformat. rewrite rx_Y_pad4 by lia. cbn -[pad2 rx_m rx_d].
  destruct (rx_m_pad2 m (pad2 d) ltac:(lia)) as [l ->]. cbn -[pad2 rx_d].
  destruct (rx_d_pad2 d ltac:(lia)) as [l' ->]. cbn -[date_ok]. by rewrite Hok.
Qed.
