(* ===== verification/OcsLogs.v ===== *)
(** * The ocs app: its model module and its log views

    ocs/models.py declares the single model [OCSLog]; ocs/views.py
    imports [LISLog] from it, so importing the views module raises
    [ImportError] ([ocs_views_import]).  The view bodies are modelled as
    written, over a [LISLog] table with the fields they use:
    [LISLogListAPIView.get_queryset], [create_log_view], [get_logs_view]
    and [combined_log_view], the last one merging the table with the
    documents of a MongoDB collection (an external answer, which may
    raise) and sorting the merged entries by their formatted time,
    newest first.  Timestamps are naive date-times; Django's
    [make_aware] and time zones are not modelled, [parse_datetime] is a
    parameter (Django's parser), and [strftime("%Y-%m-%d %H:%M:%S")] is
    modelled for four-digit years. *)

From Stdlib Require Import Ascii.
From stdpp Require Import base list strings sorting.
From S2P Require Import Prelude Services PatientViews PyDateTime.

(** ** ocs/models.py *)

(** The Django field kinds the ocs schema uses. *)
Inductive FieldKind :=
| BigAutoField
| CharField (max_length : nat)
| TextField
| DateTimeField (auto_now_add : bool)
| UUIDField
| JSONField
| IntegerField.

Record Field := mkField {
  field_name : string;
  field_kind : FieldKind;
  field_null : bool
}.

(** A module's models: name and fields (the implicit [id] included). *)
Definition ModelDecls := list (string * list Field).

(** [class OCSLog(models.Model)], models.py 38-49. *)
Definition ocs_models : ModelDecls :=
  [("OCSLog",
    [mkField "id" BigAutoField false;
     mkField "timestamp" (DateTimeField true) false;
     mkField "patient_id" UUIDField true;
     mkField "doctor_id" UUIDField true;
     mkField "raw_data" JSONField false;
     mkField "system" (CharField 50) false])].

(** [from .models import LISLog] at views.py 13, run when Django loads
    the module. *)
Definition ocs_views_import (models : ModelDecls) : exc (list Field) :=
  match assoc models "LISLog" with
  | Some fs => Ok fs
  | None => Raise "ImportError: cannot import name 'LISLog' from 'ocs.models'"
  end.

(** ** [strftime] of the log times *)

(** [strftime("%Y-%m-%d %H:%M:%S")] *)
Definition strftime_ymdhms (d : DateTime) : string :=
  cat [pad4 (dt_year d); "-"; pad2 (dt_month d); "-"; pad2 (dt_day d); " ";
       pad2 (dt_hour d); ":"; pad2 (dt_minute d); ":"; pad2 (dt_second d)].

(** The ranges of a [datetime] with a four-digit year. *)
Definition dt_in_range (d : DateTime) : bool :=
  (1000 <=? dt_year d) && (dt_year d <? 100 * 100) && (dt_month d <? 100) && (dt_day d <? 100)
  && (dt_hour d <? 100) && (dt_minute d <? 100) && (dt_second d <? 100).

(** ** Formatted times sort like the times *)

Lemma dt_in_range_spec d :
  dt_in_range d = true ->
  1000 <= dt_year d < 100 * 100 /\ dt_month d < 100 /\ dt_day d < 100 /\
  dt_hour d < 100 /\ dt_minute d < 100 /\ dt_second d < 100.
Proof.
  unfold dt_in_range. rewrite !andb_true_iff, !Nat.leb_le, !Nat.ltb_lt. lia.
Qed.

(** The formatted times compare as the times, within the ranges. *)
Lemma strftime_compare a b :
  dt_in_range a = true -> dt_in_range b = true ->
  String.compare (strftime_ymdhms a) (strftime_ymdhms b) = dt_compare a b.
Proof.
  intros (Ya & Ma & Da & Ha & Mia & Sa)%dt_in_range_spec (Yb & Mb & Db & Hb & Mib & Sb)%dt_in_range_spec.
  unfold strftime_ymdhms, cat, dt_compare, dt_fields. cbn [foldr lex_compare].
  rewrite !compare_app_eqlen by done.
  rewrite pad4_compare by lia. rewrite !pad2_compare by done. cbn [String.compare].
  repeat case_match; done.
Qed.

(** ** The LISLog table the views use *)

Record LISLog := mkLISLog {
  log_id : nat;
  log_step : string;
  log_patient_id : string;
  log_doctor_id : string;
  log_order_id : option string;
  log_sample_id : option string;
  log_request_detail : option string;
  log_result_detail : option string;
  log_created_at : DateTime
}.

Record LogTable := mkLogTable {
  logs : list LISLog;
  next_log_id : nat;
  clock : DateTime
}.

(** [request.data] and [request.GET]: [None] is JSON [null]. *)
Definition LogData := list (string * option string).

(** [data.get(k)] *)
Definition data_get (d : LogData) (k : string) : option string :=
  match assoc d k with Some v => v | None => None end.

(** [data.get(k, default)] *)
Definition data_get_default (d : LogData) (k : string) (def : string) : option string :=
  match assoc d k with Some v => v | None => Some def end.

(** Newest first: [order_by('-created_at')]. *)
Definition newer_first (a b : LISLog) : Prop :=
  dt_le (log_created_at b) (log_created_at a) = true.

#[export] Instance newer_first_dec : RelDecision newer_first.
Proof. intros a b. unfold newer_first. apply _. Defined.

Definition order_newest_first (l : list LISLog) : list LISLog := merge_sort newer_first l.

(** ** LISLogListAPIView.get_queryset (views.py 25-29) *)

Definition lis_log_queryset (params : LogData) (t : LogTable) : list LISLog :=
  match data_get params "patient_id" with
  | Some p => if str_truthy (Some p)
              then order_newest_first (List.filter (fun l => String.eqb (log_patient_id l) p) (logs t))
              else order_newest_first (logs t)
  | None => order_newest_first (logs t)
  end.

(** ** create_log_view (views.py 32-60) *)

Inductive CreateLogResponse :=
| CL_missing_fields
| CL_created (log_id : nat)
| CL_server_error (e : string).

Definition create_log_status (r : CreateLogResponse) : nat :=
  match r with CL_missing_fields => 400 | CL_created _ => 201 | CL_server_error _ => 500 end.

(** [LISLog.objects.create(...)]: the next id, [created_at] now. *)
Definition lislog_create (step patient doctor : string) (order sample req res : option string)
    : st LogTable LISLog :=
  fun t => let l := mkLISLog (next_log_id t) step patient doctor order sample req res (clock t) in
           (Ok l, mkLogTable (logs t ++ [l]) (S (next_log_id t)) (clock t)).

Definition create_log_view (data : LogData) : st LogTable CreateLogResponse :=
  try_except
    (let patient_id := data_get_default data "patient_id" "" in
     let doctor_id := data_get_default data "doctor_id" "" in
     let step := data_get_default data "step" "" in
     match patient_id, doctor_id, step with
     | Some p, Some d, Some s =>
         if str_truthy (Some p) && str_truthy (Some d) && str_truthy (Some s) then
           do l <- lislog_create s p d (data_get data "order_id") (data_get data "sample_id")
                     (data_get_default data "request_detail" "")
                     (data_get_default data "result_detail" "");
           st_ret (CL_created (log_id l))
         else st_ret CL_missing_fields
     | _, _, _ => st_ret CL_missing_fields
     end)
    (fun e => st_ret (CL_server_error e)).

(** ** get_logs_view (views.py 63-97) *)

Inductive GetLogsResponse :=
| GL_ok (data : list LISLog)
| GL_server_error (e : string).

Section GetLogs.
(** Django's [parse_datetime]: [None] for a string it cannot read. *)
Variable parse_datetime : string -> option DateTime.

(** One [if x: logs = logs.filter(...)] step. *)
Definition filter_if (o : option string) (p : string -> LISLog -> bool) (l : list LISLog)
    : list LISLog :=
  match o with
  | Some x => if str_truthy (Some x) then List.filter (p x) l else l
  | None => l
  end.

(** The date filters run only when the string parses. *)
Definition date_filter (o : option string) (p : DateTime -> LISLog -> bool) (l : list LISLog)
    : list LISLog :=
  filter_if o (fun x r => match parse_datetime x with Some dt => p dt r | None => true end) l.

Definition apply_log_filters (params : LogData) (l : list LISLog) : list LISLog :=
  date_filter (data_get params "end_date") (fun dt r => dt_le (log_created_at r) dt)
  (date_filter (data_get params "start_date") (fun dt r => dt_le dt (log_created_at r))
  (filter_if (data_get params "step") (fun x r => String.eqb (log_step r) x)
  (filter_if (data_get params "doctor_id") (fun x r => String.eqb (log_doctor_id r) x)
  (filter_if (data_get params "patient_id") (fun x r => String.eqb (log_patient_id r) x) l)))).

Definition get_logs_view (params : LogData) : st LogTable GetLogsResponse :=
  try_except
    (do t <- st_get;
     st_ret (GL_ok (order_newest_first (apply_log_filters params (logs t)))))
    (fun e => st_ret (GL_server_error e)).
End GetLogs.

(** ** combined_log_view (views.py 100-142) *)

(** A document of the Mongo [logs] collection; [None] is a missing key. *)
Record MongoDoc := mkMongoDoc {
  md_patient_id : option string;
  md_doctor_id : option string;
  md_request_type : option string;
  md_request_detail : option string;
  md_timestamp : option DateTime;
  md_diagnosis_detail : option string
}.

Record CombinedEntry := mkCombinedEntry {
  ce_patient_id : string;
  ce_doctor_id : string;
  ce_request_type : string;
  ce_request_and_result : string;
  ce_request_and_return_time : string;
  ce_diagnosis_detail : string
}.

(** views.py 104-114 *)
Definition lis_entry (l : LISLog) : CombinedEntry :=
  mkCombinedEntry (log_patient_id l) (log_doctor_id l) "검사"
    (py_strip (String.append (default "" (log_request_detail l))
                 (String "010"%char (default "" (log_result_detail l)))))
    (strftime_ymdhms (log_created_at l)) "-".

(** views.py 125-132 *)
Definition mongo_entry (m : MongoDoc) : CombinedEntry :=
  mkCombinedEntry (default "-" (md_patient_id m)) (default "-" (md_doctor_id m))
    (default "-" (md_request_type m)) (default "-" (md_request_detail m))
    (match md_timestamp m with Some t => strftime_ymdhms t | None => "-" end)
    (default "-" (md_diagnosis_detail m)).

(** [sort(key=lambda x: x["request_and_return_time"], reverse=True)]:
    Python's sort is stable, also in reverse. *)
Definition later_time_first (a b : CombinedEntry) : Prop :=
  String.leb (ce_request_and_return_time b) (ce_request_and_return_time a) = true.

#[export] Instance later_time_first_dec : RelDecision later_time_first.
Proof. intros a b. unfold later_time_first. apply _. Defined.

Definition combined_log_view (mongo : exc (list MongoDoc)) : st LogTable (list CombinedEntry) :=
  do t <- st_get;
  let lis_data := map lis_entry (order_newest_first (logs t)) in
  let mongo_data := match mongo with Ok ms => map mongo_entry ms | Raise _ => [] end in
  st_ret (merge_sort later_time_first (lis_data ++ mongo_data)).

(** ** Orders *)

Lemma lex_compare_antisym l1 l2 : lex_compare l1 l2 = CompOpp (lex_compare l2 l1).
Proof.
  revert l2. induction l1 as [|x l1 IH]; intros [|y l2]; cbn; try done.
  destruct (Nat.compare_spec x y) as [->|Hl|Hg].
  - rewrite Nat.compare_refl. apply IH.
  - by rewrite (proj2 (Nat.compare_gt_iff y x) Hl).
  - by rewrite (proj2 (Nat.compare_lt_iff y x) Hg).
Qed.

Lemma dt_le_total a b : dt_le a b = true \/ dt_le b a = true.
Proof.
  unfold dt_le, dt_compare. rewrite (lex_compare_antisym (dt_fields a)).
  destruct (lex_compare (dt_fields b) (dt_fields a)); cbn; auto.
Qed.

#[export] Instance newer_first_total : Total newer_first.
Proof. intros a b. unfold newer_first. destruct (dt_le_total (log_created_at a) (log_created_at b)); auto. Qed.

Lemma string_leb_total a b : String.leb a b = true \/ String.leb b a = true.
Proof.
  unfold String.leb. rewrite (String.compare_antisym a b).
  destruct (String.compare b a); cbn; auto.
Qed.

#[export] Instance later_time_first_total : Total later_time_first.
Proof.
  intros a b. unfold later_time_first.
  destruct (string_leb_total (ce_request_and_return_time a) (ce_request_and_return_time b)); auto.
Qed.

Lemma filter_filter {A} (p q : A -> bool) l :
  List.filter p (List.filter q l) = List.filter (fun x => q x && p x) l.
Proof.
  induction l as [|x l IH]; cbn; [done|].
  destruct (q x); cbn; [destruct (p x); cbn|]; by rewrite IH.
Qed.

(** ** The log table invariant *)

Record log_table_wf (t : LogTable) : Prop := {
  lwf_ids_nodup : NoDup (map log_id (logs t));
  lwf_ids_fresh : Forall (fun l => log_id l < next_log_id t) (logs t)
}.

Lemma lislog_create_wf s p d o sa rq rs t :
  log_table_wf t -> log_table_wf (snd (lislog_create s p d o sa rq rs t)).
Proof.
  intros [Hnd Hfr]. split; cbn.
  - rewrite map_app. apply NoDup_app. split_and!; [done| |apply NoDup_singleton].
    intros x Hx [Hx'|[]]%list_elem_of_In. subst x.
    apply list_elem_of_In, in_map_iff in Hx as (l & Hid & Hl).
    eapply List.Forall_forall in Hfr; [|exact Hl]. cbn in Hid, Hfr. lia.
  - apply List.Forall_app. split; [|by repeat constructor; cbn; lia].
    eapply List.Forall_impl; [|exact Hfr]. cbn. lia.
Qed.

(** ** The filters of get_logs_view as one predicate *)

Definition cond (o : option string) (p : string -> bool) : bool :=
  match o with
  | Some x => if str_truthy (Some x) then p x else true
  | None => true
  end.

Section LogMatches.
Variable parse_datetime : string -> option DateTime.

(** A log passes every filter whose parameter is given. *)
Definition log_matches (params : LogData) (r : LISLog) : bool :=
  cond (data_get params "patient_id") (fun x => String.eqb (log_patient_id r) x) &&
  cond (data_get params "doctor_id") (fun x => String.eqb (log_doctor_id r) x) &&
  cond (data_get params "step") (fun x => String.eqb (log_step r) x) &&
  cond (data_get params "start_date")
    (fun x => match parse_datetime x with Some dt => dt_le dt (log_created_at r) | None => true end) &&
  cond (data_get params "end_date")
    (fun x => match parse_datetime x with Some dt => dt_le (log_created_at r) dt | None => true end).

Lemma filter_if_cond o p l :
  filter_if o p l = List.filter (fun r => cond o (fun x => p x r)) l.
Proof.
  unfold filter_if, cond. destruct o as [x|]; [|by rewrite List.filter_true].
  destruct (str_truthy (Some x)); [done|]. by rewrite List.filter_true.
Qed.

Lemma apply_log_filters_eq params l :
  apply_log_filters parse_datetime params l = List.filter (log_matches params) l.
Proof.
  unfold apply_log_filters, date_filter. rewrite !filter_if_cond, !filter_filter.
  apply List.filter_ext. intros r. unfold log_matches. by rewrite !andb_assoc.
Qed.
End LogMatches.

Lemma order_newest_first_spec l :
  Sorted newer_first (order_newest_first l) /\ order_newest_first l ≡ₚ l.
Proof. split; [apply Sorted_merge_sort, _|apply merge_sort_Permutation]. Qed.

(** ** Theorems *)

(** Loading the ocs views fails: views.py imports [LISLog] from
    ocs/models.py, which declares only [OCSLog], so the import raises and
    none of the log views can be served. *)
Theorem ocs_views_import_fails :
  ocs_views_import ocs_models
  = Raise "ImportError: cannot import name 'LISLog' from 'ocs.models'".
Proof. reflexivity. Qed.




(** The time strings combined_log_view sorts on order like the
    times themselves for date-times with a four-digit year: the string
    of [a] is at most the string of [b] exactly when [a] is not after
    [b]. *)
Theorem strftime_order a b :
  dt_in_range a = true -> dt_in_range b = true ->
  String.leb (strftime_ymdhms a) (strftime_ymdhms b) = dt_le a b.
Proof. intros Ha Hb. unfold String.leb, dt_le. by rewrite strftime_compare. Qed.

(** ** Witnesses *)

Definition demo_time (y mo d h mi s : nat) : DateTime := mkDateTime y mo d h mi s.

Definition empty_log_table : LogTable := mkLogTable [] 1 (demo_time 2025 6 11 9 30 0).


Lemma strftime_order_witness :
  String.leb (strftime_ymdhms (demo_time 2025 6 11 9 30 0))
             (strftime_ymdhms (demo_time 2025 6 11 10 5 0))
  = dt_le (demo_time 2025 6 11 9 30 0) (demo_time 2025 6 11 10 5 0).
Proof. apply strftime_order; reflexivity. Defined.
