(* ===== verification/Migrations.v ===== *)
(** * The Django migrations of the orders and ocs apps

    A migration file is a list of operations; Django's [migrate] runs
    them in order on the database, each [CreateModel] creating a table
    (and failing if the table is there) and each [DeleteModel] dropping
    one (its state update fails when the model is unknown).  [apply_op]
    models those two operations of Django's migration executor, the
    engine the repository only calls; the three migration files under
    src/ are their operation lists.  Field choices, verbose names and
    [serialize] flags do not affect the tables and are left out.

    Theorems: every table a successful migration leaves has well-formed
    columns (unique names, one [id] primary key) because every
    [CreateModel] of the repository declares such columns; migrating the
    ocs app from an empty database fails at its second migration, which
    creates [OCSLog] again; and even past that, the columns that table
    would have do not match the fields ocs/models.py declares. *)

From stdpp Require Import base list strings.
From S2P Require Import Prelude Services OcsLogs.

(** ** Django's executor for the two operations used *)

Inductive Operation :=
| CreateModel (name : string) (fields : list Field)
| DeleteModel (name : string).

(** Tables by model name. *)
Definition DbSchema := list (string * list Field).

Definition apply_op (db : DbSchema) (op : Operation) : exc DbSchema :=
  match op with
  | CreateModel n fs =>
      match assoc db n with
      | Some _ => Raise (String.append "table already exists: " n)
      | None => Ok (db ++ [(n, fs)])
      end
  | DeleteModel n =>
      match assoc db n with
      | Some _ => Ok (List.filter (fun p => negb (String.eqb (fst p) n)) db)
      | None => Raise (String.append "KeyError: " n)
      end
  end.

Fixpoint apply_ops (db : DbSchema) (ops : list Operation) : exc DbSchema :=
  match ops with
  | [] => Ok db
  | op :: ops' => exc_bind (apply_op db op) (fun db' => apply_ops db' ops')
  end.

(** [migrate] runs the migrations of an app in dependency order. *)
Definition migrate (db : DbSchema) (migrations : list (list Operation)) : exc DbSchema :=
  apply_ops db (concat migrations).

(** ** The migration files *)

Definition id_field : Field := mkField "id" BigAutoField false.

(** orders/migrations/0001_initial.py *)
Definition orders_0001 : list Operation :=
  [CreateModel "TestOrder"
     [id_field;
      mkField "patient_id" IntegerField false;
      mkField "doctor_id" IntegerField false;
      mkField "test_type" (CharField 50) false;
      mkField "order_date" (DateTimeField false) false]].

(** ocs/migrations/0001_initial.py *)
Definition ocs_0001 : list Operation :=
  [CreateModel "OCSLog"
     [id_field;
      mkField "patient_id" (CharField 100) false;
      mkField "patient_name" (CharField 100) true;
      mkField "doctor_id" (CharField 100) false;
      mkField "doctor_name" (CharField 100) true;
      mkField "request_type" (CharField 100) false;
      mkField "request_detail" TextField false;
      mkField "request_time" (DateTimeField true) false;
      mkField "result_type" (CharField 100) true;
      mkField "result_time" (DateTimeField false) true]].

(** ocs/migrations/0002_ocslog_delete_lislog.py *)
Definition ocs_0002 : list Operation :=
  [CreateModel "OCSLog"
     [id_field;
      mkField "category" (CharField 20) false;
      mkField "patient_uuid" (CharField 36) true;
      mkField "doctor_uuid" (CharField 36) true;
      mkField "detail" JSONField true;
      mkField "step" (CharField 10) false;
      mkField "patient_id" (CharField 100) false;
      mkField "doctor_id" (CharField 100) true;
      mkField "created_at" (DateTimeField true) false];
   DeleteModel "LISLog"].

(** ** Well-formed tables *)

Definition is_pk (f : Field) : bool :=
  match field_kind f with BigAutoField => String.eqb (field_name f) "id" | _ => false end.

(** Column names are unique and exactly one column is the [id] key. *)
Definition fields_wf (fs : list Field) : bool :=
  bool_decide (NoDup (map field_name fs)) && (length (List.filter is_pk fs) =? 1).

Definition op_wf (op : Operation) : bool :=
  match op with CreateModel _ fs => fields_wf fs | DeleteModel _ => true end.

Definition schema_wf (db : DbSchema) : Prop :=
  NoDup (map fst db) /\ Forall (fun p => fields_wf (snd p) = true) db.

(** The columns a model declares that a table lacks. *)
Definition missing_columns (model table : list Field) : list string :=
  List.filter (fun n => negb (existsb (String.eqb n) (map field_name table)))
    (map field_name model).

Definition created_fields (ops : list Operation) (n : string) : list Field :=
  default [] (head (omap (fun op => match op with
                                    | CreateModel m fs => if String.eqb m n then Some fs else None
                                    | DeleteModel _ => None
                                    end) ops)).

(** ** Lemmas *)

Lemma assoc_None_notin {A} (l : list (string * A)) k :
  assoc l k = None -> ~ In k (map fst l).
Proof.
  unfold assoc. intros Hf (p & <- & Hp)%in_map_iff.
  destruct (List.find _ l) eqn:E; [done|].
  pose proof (find_none _ _ E p Hp) as Hn. cbn in Hn. by rewrite String.eqb_refl in Hn.
Qed.

Lemma NoDup_map_fst_filter {A} (q : string * A -> bool) (l : list (string * A)) :
  NoDup (map fst l) -> NoDup (map fst (List.filter q l)).
Proof. apply NoDup_map_filter. Qed.

Lemma apply_op_wf db op db' :
  schema_wf db -> op_wf op = true -> apply_op db op = Ok db' -> schema_wf db'.
Proof.
  intros [Hnd Hf] Hop. destruct op as [n fs|n]; cbn.
  - destruct (assoc db n) eqn:Ha; [done|]. intros [= <-]. split.
    + rewrite map_app. apply NoDup_app. split_and!; [done| |apply NoDup_singleton].
      intros x Hx [Hx'|[]]%list_elem_of_In. subst x.
      by apply (assoc_None_notin db n Ha), list_elem_of_In.
    + apply List.Forall_app. split; [done|]. by repeat constructor.
  - destruct (assoc db n); [|done]. intros [= <-]. split.
    + by apply NoDup_map_fst_filter.
    + apply List.Forall_forall. intros p [Hp _]%filter_In.
      by eapply List.Forall_forall in Hf; [|exact Hp].
Qed.

Lemma apply_ops_wf ops db db' :
  Forall (fun op => op_wf op = true) ops -> schema_wf db -> apply_ops db ops = Ok db' ->
  schema_wf db'.
Proof.
  revert db. induction ops as [|op ops IH]; intros db Hops Hwf; cbn; [by intros [= <-]|].
  apply List.Forall_cons_iff in Hops as [Hop Hops].
  destruct (apply_op db op) as [db1|e] eqn:Hap; cbn; [|done].
  apply IH; [done|]. by eapply apply_op_wf.
Qed.


(** The migration files of the repository. *)
Definition repo_migration (m : list Operation) : Prop :=
  m = orders_0001 \/ m = ocs_0001 \/ m = ocs_0002.

Lemma repo_migration_ops_wf m :
  repo_migration m -> Forall (fun op => op_wf op = true) m.
Proof.
  intros [-> | [-> | ->]]; repeat constructor; apply (bool_decide_unpack _); vm_compute; reflexivity.
Qed.

Lemma apply_ops_app db l1 l2 :
  apply_ops db (l1 ++ l2) = exc_bind (apply_ops db l1) (fun db' => apply_ops db' l2).
Proof.
  revert db. induction l1 as [|op l1 IH]; intros db; [done|]. cbn.
  destruct (apply_op db op); cbn; [apply IH|done].
Qed.

Lemma assoc_app_None {A} (l : list (string * A)) k n x :
  assoc l k = None -> String.eqb n k = false -> assoc (l ++ [(n, x)]) k = None.
Proof. unfold assoc. intros Hl Hn. rewrite find_app. destruct (List.find _ l); [done|]. by cbn; rewrite Hn. Qed.

Lemma assoc_filter_None {A} (l : list (string * A)) k q :
  assoc l k = None -> assoc (List.filter q l) k = None.
Proof.
  unfold assoc. induction l as [|p l IH]; cbn; [done|].
  destruct (String.eqb (fst p) k) eqn:E; [done|]. intros Hl. destruct (q p); cbn; [rewrite E|]; auto.
Qed.

(** No operation of the repository creates [LISLog], so no migration
    state has it. *)
Lemma no_lislog_ops ms db db' :
  Forall repo_migration ms -> assoc db "LISLog" = None -> apply_ops db (concat ms) = Ok db' ->
  assoc db' "LISLog" = None.
Proof.
  revert db. induction ms as [|m ms IH]; intros db Hms Hdb; cbn; [by intros [= <-]|].
  apply List.Forall_cons_iff in Hms as [Hm Hms]. rewrite apply_ops_app.
  destruct (apply_ops db m) as [db1|e] eqn:E1; cbn; [|done]. apply IH; [done|].
  destruct Hm as [-> | [-> | ->]]; cbn in E1; revert E1;
    repeat (case_match; cbn; try discriminate); intros [= <-];
    repeat (apply assoc_filter_None || (apply assoc_app_None; [|done])); done.
Qed.

(** ** Theorems *)


(** C33: every run of the repository's migrations that includes
    ocs/migrations/0002 fails: either [OCSLog] exists and creating it
    again fails, or the [DeleteModel] of [LISLog], a model no migration of
    the repository creates, fails; in particular migrating the ocs app
    from an empty database stops at 0002. *)
Theorem ocs_0002_always_fails ms :
  Forall repo_migration ms -> In ocs_0002 ms -> exists e, migrate [] ms = Raise e.
Proof.
  intros Hms Hin. apply in_split in Hin as (pre & post & ->). unfold migrate.
  rewrite concat_app, apply_ops_app.
  apply List.Forall_app in Hms as [Hpre _].
  destruct (apply_ops [] (concat pre)) as [db1|e] eqn:E1; cbn; [|by eexists].
  pose proof (no_lislog_ops pre [] db1 Hpre eq_refl E1) as Hno.
  destruct (assoc db1 "OCSLog"); cbn; [by eexists|].
  rewrite (assoc_app_None db1 "LISLog" "OCSLog" _ Hno eq_refl). cbn. by eexists.
Qed.

(** The columns ocs/models.py declares for [OCSLog] that neither
    migration creates. *)
Lemma ocslog_columns_not_migrated :
  missing_columns (default [] (assoc ocs_models "OCSLog")) (created_fields ocs_0001 "OCSLog")
    = ["timestamp"; "raw_data"; "system"] /\
  missing_columns (default [] (assoc ocs_models "OCSLog")) (created_fields ocs_0002 "OCSLog")
    = ["timestamp"; "raw_data"; "system"].
Proof. split; reflexivity. Qed.

(** ** Witnesses *)


Lemma ocs_0002_always_fails_witness : exists e, migrate [] [ocs_0001; ocs_0002] = Raise e.
Proof.
  apply ocs_0002_always_fails.
  - apply List.Forall_forall. intros m [<- | [<- | []]]; unfold repo_migration; auto.
  - right; left; reflexivity.
Defined.
