(* ===== verification/Routing.v ===== *)
(** * URL routing: medical_integration/urls.py

    [urlpatterns] is the list of [path(route, view, name=...)] entries of
    urls.py, in source order.  Django turns each route string into a
    regular expression ([_route_to_regex]): literal text, and a parameter
    [<conv:name>] for each converter, [str] matching [[^/]+] and [int]
    matching [[0-9]+], the whole anchored at both ends.  A request path is
    resolved by the first entry whose expression matches ([url_resolve]);
    [url_reverse] builds the path of a named entry from its keyword arguments
    and keeps it only if it matches that entry's expression, as Django's
    [_reverse_with_prefix] does.

    Matching is modelled greedily ([match_parts]): a parameter takes the
    longest run of characters of its class.  [match_parts_regex] shows
    that this is exactly the backtracking semantics of the regular
    expression ([rx_match]) for routes whose parameters are each followed
    by a [/] or by the end, which every route of urls.py is.  Only the
    [str] and [int] converters, the ones urls.py uses, are modelled; a
    route using another converter is refused ([route_to_parts] gives
    [None]).  Keyword arguments are given in the order of the route's
    parameters.

    Theorems: [url_resolve] inverts [url_reverse] on every named route except for
    three argument values that an earlier route catches. *)

From Stdlib Require Import Ascii DecimalString DecimalNat.
From stdpp Require Import base list strings.
From S2P Require Import Prelude.

(** ** Route strings *)

Inductive Conv := CStr | CInt.

Inductive Segment :=
| Lit (s : string)
| Param (cv : Conv) (name : string).

(** The views urls.py routes to. *)
Inductive View :=
| v_health_check | v_test_all_connections
| v_create_patient | v_search_patients | v_get_patient | v_get_all_patients_simple
| v_search_orthanc_patients | v_get_orthanc_patient
| v_upload_dicom_with_auto_mapping
| v_get_patient_dicom_studies | v_get_dicom_study_details
| v_get_patient_mappings | v_create_patient_mapping | v_create_manual_patient_mapping
| v_get_patient_mapping | v_delete_patient_mapping | v_sync_patient_mapping
| v_get_unmapped_orthanc_patients | v_batch_auto_mapping
| v_create_dummy_data | v_clear_dummy_data | v_get_mapping_test_status
| v_proxy_openmrs_providers | v_get_all_openmrs_patients.

#[export] Instance View_eq_dec : EqDecision View.
Proof. solve_decision. Defined.

(** [path(route, view, name=name)] *)
Record UrlPath := path { path_route : string; path_view : View; path_name : string }.

Definition urlpatterns : list UrlPath := [
  path "health/" v_health_check "health_check";
  path "test-connections/" v_test_all_connections "test_connections";
  path "openmrs/patients/create/" v_create_patient "create_openmrs_patient";
  path "openmrs/patients/search/" v_search_patients "search_openmrs_patients";
  path "openmrs/patients/<str:uuid>/" v_get_patient "get_openmrs_patient";
  path "openmrs/patients/" v_get_all_patients_simple "get_all_patients";
  path "orthanc/patients/search/" v_search_orthanc_patients "search_orthanc_patients";
  path "orthanc/patients/<str:patient_id>/" v_get_orthanc_patient "get_orthanc_patient";
  path "dicom/upload-with-mapping/" v_upload_dicom_with_auto_mapping "upload_dicom_with_auto_mapping";
  path "dicom/upload/" v_upload_dicom_with_auto_mapping "upload_dicom";
  path "patients/<str:patient_uuid>/dicom-studies/" v_get_patient_dicom_studies "get_patient_dicom_studies";
  path "dicom/studies/<str:study_id>/details/" v_get_dicom_study_details "get_dicom_study_details";
  path "patient-mappings/" v_get_patient_mappings "get_patient_mappings";
  path "patient-mappings/create/" v_create_patient_mapping "create_patient_mapping";
  path "patient-mappings/manual/" v_create_manual_patient_mapping "create_manual_patient_mapping";
  path "patient-mappings/<int:mapping_id>/" v_get_patient_mapping "get_patient_mapping";
  path "patient-mappings/<int:mapping_id>/delete/" v_delete_patient_mapping "delete_patient_mapping";
  path "patient-mappings/<int:mapping_id>/sync/" v_sync_patient_mapping "sync_patient_mapping";
  path "orthanc/unmapped-patients/" v_get_unmapped_orthanc_patients "get_unmapped_orthanc_patients";
  path "mappings/batch-auto-mapping/" v_batch_auto_mapping "batch_auto_mapping";
  path "dummy-data/create/" v_create_dummy_data "create_dummy_data";
  path "dummy-data/clear/" v_clear_dummy_data "clear_dummy_data";
  path "mappings/test-status/" v_get_mapping_test_status "get_mapping_test_status";
  path "openmrs/providers/" v_proxy_openmrs_providers "openmrs_providers";
  path "openmrs-patients/" v_get_all_openmrs_patients "get_all_openmrs_patients"].

(** [_route_to_regex]: literal text up to a [<], then [<conv:name>] (the
    converter defaults to [str]); a [<] with no closing [>] is text. *)
Definition conv_of (c : string) : option Conv :=
  if String.eqb c "str" then Some CStr else if String.eqb c "int" then Some CInt else None.

Fixpoint split_at (c : ascii) (s : string) : option (string * string) :=
  match s with
  | EmptyString => None
  | String c' s' =>
      if Ascii.eqb c' c then Some (EmptyString, s')
      else (fun '(a, b) => (String c' a, b)) <$> split_at c s'
  end.

Definition param_of (spec : string) : option Segment :=
  match split_at ":" spec with
  | Some (c, n) => cv ← conv_of c; if String.eqb n "" then None else Some (Param cv n)
  | None => if String.eqb spec "" then None else Some (Param CStr spec)
  end.

Definition lit_seg (acc : string) : list Segment :=
  if String.eqb acc "" then [] else [Lit acc].

(** [acc] is the literal text read so far. *)
Fixpoint parse_route (fuel : nat) (acc s : string) : option (list Segment) :=
  match fuel with
  | 0 => None
  | S fuel' =>
      match s with
      | EmptyString => Some (lit_seg acc)
      | String c s' =>
          if Ascii.eqb c "<" then
            match split_at ">" s' with
            | Some (spec, rest) =>
                p ← param_of spec; ps ← parse_route fuel' "" rest; Some (lit_seg acc ++ p :: ps)
            | None => Some (lit_seg (acc +:+ s))
            end
          else parse_route fuel' (acc +:+ String c EmptyString) s'
      end
  end.

(** Each step consumes a character, so [length s + 1] steps suffice. *)
Definition route_to_parts (r : string) : option (list Segment) :=
  parse_route (S (String.length r)) "" r.

(** ** Converters *)

Inductive Arg := AStr (s : string) | AInt (n : nat).

#[export] Instance Arg_eq_dec : EqDecision Arg.
Proof. solve_decision. Defined.

Definition not_slash (c : ascii) : bool := negb (Ascii.eqb c "/").

Definition conv_class (cv : Conv) : ascii -> bool :=
  match cv with CStr => not_slash | CInt => is_digit end.

(** Python's [int(s)] on a digit string. *)
Definition int_of_str (s : string) : nat :=
  match NilEmpty.uint_of_string s with Some d => Nat.of_uint d | None => 0 end.

(** [converter.to_python] and [converter.to_url]. *)
Definition to_python (cv : Conv) (x : string) : Arg :=
  match cv with CStr => AStr x | CInt => AInt (int_of_str x) end.

Definition to_url (a : Arg) : string :=
  match a with AStr s => s | AInt n => str_of_nat n end.

(** ** Matching *)

Fixpoint strip_prefix (l s : string) : option string :=
  match l, s with
  | EmptyString, _ => Some s
  | String a l', String b s' => if Ascii.eqb a b then strip_prefix l' s' else None
  | String _ _, EmptyString => None
  end.

(** The longest prefix of characters of a class, and the rest. *)
Fixpoint take_run (p : ascii -> bool) (s : string) : string * string :=
  match s with
  | EmptyString => (EmptyString, EmptyString)
  | String c s' => if p c then let '(x, r) := take_run p s' in (String c x, r) else (EmptyString, s)
  end.

Definition Kwargs := list (string * Arg).

Fixpoint match_parts (ps : list Segment) (s : string) : option Kwargs :=
  match ps with
  | [] => match s with EmptyString => Some [] | _ => None end
  | Lit l :: ps' => r ← strip_prefix l s; match_parts ps' r
  | Param cv n :: ps' =>
      let '(x, r) := take_run (conv_class cv) s in
      if String.eqb x "" then None
      else kw ← match_parts ps' r; Some ((n, to_python cv x) :: kw)
  end.

(** [URLResolver.resolve]: the view, the url name and the keyword
    arguments of the first entry that matches; [None] is [Resolver404]. *)
Fixpoint resolve_in (ups : list UrlPath) (p : string) : option (View * string * Kwargs) :=
  match ups with
  | [] => None
  | u :: ups' =>
      match route_to_parts (path_route u) ≫= fun ps => match_parts ps p with
      | Some kw => Some (path_view u, path_name u, kw)
      | None => resolve_in ups' p
      end
  end.

Definition url_resolve (p : string) : option (View * string * Kwargs) := resolve_in urlpatterns p.

(** ** Reversing *)

(** The candidate path: each parameter replaced by [to_url] of its
    argument. *)
Fixpoint fill (ps : list Segment) (kw : Kwargs) : option string :=
  match ps, kw with
  | [], [] => Some EmptyString
  | Lit l :: ps', _ => s ← fill ps' kw; Some (l +:+ s)
  | Param _ n :: ps', (n', a) :: kw' =>
      if String.eqb n n' then s ← fill ps' kw'; Some (to_url a +:+ s) else None
  | _, _ => None
  end.

(** [reverse(name, kwargs=...)]: the candidate is kept only when it
    matches the entry's own expression ([NoReverseMatch] otherwise). *)
Definition url_reverse (name : string) (kw : Kwargs) : option string :=
  u ← List.find (fun u => String.eqb (path_name u) name) urlpatterns;
  ps ← route_to_parts (path_route u);
  cand ← fill ps kw;
  match match_parts ps cand with Some _ => Some cand | None => None end.

(** ** Conditions on routes and arguments *)

(** Every parameter is followed by a [/] or ends the route. *)
Fixpoint parts_wf (ps : list Segment) : bool :=
  match ps with
  | [] => true
  | Lit _ :: ps' => parts_wf ps'
  | Param _ _ :: ps' =>
      match ps' with
      | [] => true
      | Lit (String c _) :: _ => Ascii.eqb c "/"
      | _ => false
      end && parts_wf ps'
  end.

(** An argument its converter accepts back: a non-empty string without
    [/] for [str], a number for [int]. *)
Definition arg_ok (cv : Conv) (a : Arg) : bool :=
  match cv, a with
  | CStr, AStr s => negb (String.eqb s "") && str_forall not_slash s
  | CInt, AInt _ => true
  | _, _ => false
  end.

Fixpoint kw_ok (ps : list Segment) (kw : Kwargs) : bool :=
  match ps, kw with
  | [], [] => true
  | Lit _ :: ps', _ => kw_ok ps' kw
  | Param cv n :: ps', (n', a) :: kw' => String.eqb n n' && arg_ok cv a && kw_ok ps' kw'
  | _, _ => false
  end.

Definition args_ok (u : UrlPath) (kw : Kwargs) : bool :=
  match route_to_parts (path_route u) with Some ps => kw_ok ps kw | None => false end.

(** The regular expression of a route, with Python's backtracking
    semantics: a parameter matches any non-empty run of its class. *)
Inductive rx_match : list Segment -> string -> Kwargs -> Prop :=
| rx_nil : rx_match [] EmptyString []
| rx_lit l ps s kw : rx_match ps s kw -> rx_match (Lit l :: ps) (l +:+ s) kw
| rx_param cv n ps x s kw :
    x <> EmptyString -> str_forall (conv_class cv) x = true -> rx_match ps s kw ->
    rx_match (Param cv n :: ps) (x +:+ s) ((n, to_python cv x) :: kw).

(** ** Lemmas on strings and numbers *)

Lemma strip_prefix_app l s : strip_prefix l (l +:+ s) = Some s.
Proof. induction l as [|c l IH]; [done|]. rewrite append_cons. cbn. by rewrite Ascii.eqb_refl. Qed.

Lemma strip_prefix_Some l s r : strip_prefix l s = Some r -> s = l +:+ r.
Proof.
  revert s. induction l as [|a l IH]; intros s; cbn; [by intros [= ->]|].
  destruct s as [|b s]; [done|].
  destruct (Ascii.eqb_spec a b) as [->|]; [|done]. intros H. rewrite append_cons. f_equal. by apply IH.
Qed.

(** A run followed by the end or by a character outside the class is
    taken whole. *)
Lemma take_run_app p x s :
  str_forall p x = true ->
  match s with EmptyString => True | String c _ => p c = false end ->
  take_run p (x +:+ s) = (x, s).
Proof.
  induction x as [|c x IH]; cbn.
  - intros _. rewrite append_nil_l. destruct s as [|c s]; cbn; [done|]. by intros ->.
  - intros [Hc Hx]%andb_prop Hs. rewrite append_cons. cbn. rewrite Hc, IH; done.
Qed.

Lemma take_run_spec p s x r :
  take_run p s = (x, r) ->
  s = x +:+ r /\ str_forall p x = true /\
  match r with EmptyString => True | String c _ => p c = false end.
Proof.
  revert x r. induction s as [|c s IH]; intros x r; cbn.
  - intros [= <- <-]. done.
  - destruct (p c) eqn:Hc.
    + destruct (take_run p s) as [x' r'] eqn:E. intros [= <- <-].
      destruct (IH _ _ eq_refl) as (-> & Hx & Hr). cbn. by rewrite Hc, Hx, append_cons.
    + intros [= <- <-]. done.
Qed.

Lemma str_of_nat_digits n : str_forall is_digit (str_of_nat n) = true.
Proof. unfold str_of_nat. generalize (Nat.to_uint n). induction u; cbn; auto. Qed.

Lemma to_uint_not_nil n : Nat.to_uint n <> Decimal.Nil.
Proof.
  intros H. pose proof (Unsigned.of_to n) as E. rewrite H in E. cbn in E. subst n.
  discriminate H.
Qed.

Lemma str_of_nat_nonempty n : str_of_nat n <> EmptyString.
Proof.
  unfold str_of_nat. pose proof (to_uint_not_nil n).
  destruct (Nat.to_uint n); cbn; congruence.
Qed.

(** [int(str(n)) = n]. *)
Lemma int_of_str_of_nat n : int_of_str (str_of_nat n) = n.
Proof. unfold int_of_str, str_of_nat. rewrite NilEmpty.usu. apply Unsigned.of_to. Qed.

Lemma to_python_to_url cv a : arg_ok cv a = true -> to_python cv (to_url a) = a.
Proof. destruct cv, a; cbn; try done. intros _. by rewrite int_of_str_of_nat. Qed.

Lemma arg_ok_class cv a :
  arg_ok cv a = true -> to_url a <> EmptyString /\ str_forall (conv_class cv) (to_url a) = true.
Proof.
  destruct cv, a as [s|n]; cbn; try done.
  - intros [Hne Hs]%andb_prop. split; [|done]. intros ->. done.
  - intros _. split; [apply str_of_nat_nonempty|apply str_of_nat_digits].
Qed.

Lemma not_slash_slash : not_slash "/" = false.
Proof. reflexivity. Qed.

Lemma is_digit_slash : is_digit "/" = false.
Proof. reflexivity. Qed.

Lemma conv_class_slash cv : conv_class cv "/" = false.
Proof. by destruct cv. Qed.

#[export] Hint Resolve strip_prefix_app str_of_nat_digits str_of_nat_nonempty : medsys.

(** ** Greedy matching is the regular expression's matching *)

Lemma fill_lit l ps kw p : fill (Lit l :: ps) kw = Some p -> exists r, p = l +:+ r.
Proof. cbn. destruct (fill ps kw) as [r|]; cbn; [|done]. intros [= <-]. by exists r. Qed.

Lemma rx_match_lit c l ps s kw :
  rx_match (Lit (String c l) :: ps) s kw -> exists s', s = String c s'.
Proof. inversion 1; subst. rewrite append_cons. by eexists. Qed.

(** What may follow a parameter's run in a well-formed route. *)
Definition follows_param (cv : Conv) (s : string) : Prop :=
  match s with EmptyString => True | String c _ => conv_class cv c = false end.

Lemma rx_match_follows cv ps s kw :
  parts_wf (Param cv "" :: ps) = true -> rx_match ps s kw -> follows_param cv s.
Proof.
  cbn. destruct ps as [|[[|c l]|] ps]; cbn; try done.
  - intros _ Hm. by inversion Hm.
  - intros [Hc _]%andb_prop Hm. apply Ascii.eqb_eq in Hc. subst c.
    destruct (rx_match_lit _ _ _ _ _ Hm) as [s' ->]. apply conv_class_slash.
Qed.

Lemma parts_wf_param cv n ps : parts_wf (Param cv n :: ps) = parts_wf (Param cv "" :: ps).
Proof. reflexivity. Qed.

Lemma parts_wf_tail sg ps : parts_wf (sg :: ps) = true -> parts_wf ps = true.
Proof. destruct sg; cbn; [done|]. by intros [_ ?]%andb_prop. Qed.

(** For a well-formed route, the greedy matcher finds exactly the
    matches of the route's regular expression. *)
Lemma match_parts_regex ps s kw :
  parts_wf ps = true -> match_parts ps s = Some kw <-> rx_match ps s kw.
Proof.
  intros Hwf. split.
  - revert s kw Hwf. induction ps as [|[l|cv n] ps IH]; intros s kw Hwf; cbn.
    + destruct s; [intros [= <-]; constructor|done].
    + destruct (strip_prefix l s) as [r|] eqn:E; cbn; [|done].
      intros H. rewrite (strip_prefix_Some _ _ _ E). constructor. by apply IH.
    + destruct (take_run _ s) as [x r] eqn:E.
      destruct (take_run_spec _ _ _ _ E) as (-> & Hx & _).
      destruct (String.eqb_spec x "") as [|Hne]; [done|].
      destruct (match_parts ps r) as [kw'|] eqn:Em; cbn; [|done]. intros [= <-].
      constructor; [done|done|]. apply IH; [|done]. by eapply parts_wf_tail.
  - intros Hm. revert Hwf. induction Hm as [|l ps s kw Hm IH|cv n ps x s kw Hne Hx Hm IH];
      intros Hwf; cbn.
    + done.
    + by rewrite strip_prefix_app; apply IH.
    + rewrite take_run_app; [|done|].
      * destruct (String.eqb_spec x "") as [->|_]; [done|].
        rewrite IH; [done|]. by eapply parts_wf_tail.
      * rewrite parts_wf_param in Hwf. exact (rx_match_follows _ _ _ _ Hwf Hm).
Qed.

(** Building a path and matching it back gives the arguments. *)
Lemma fill_match ps kw :
  parts_wf ps = true -> kw_ok ps kw = true ->
  exists p, fill ps kw = Some p /\ match_parts ps p = Some kw.
Proof.
  intros Hwf Hkw. pose proof (fun p => match_parts_regex ps p kw Hwf) as Hrx.
  enough (exists p, fill ps kw = Some p /\ rx_match ps p kw) as (p & Hf & Hm)
    by (exists p; split; [done|by apply Hrx]).
  clear Hrx Hwf. revert kw Hkw. induction ps as [|[l|cv n] ps IH]; intros kw Hkw.
  - destruct kw; [|done]. exists EmptyString. split; [done|constructor].
  - destruct (IH kw Hkw) as (p & Hf & Hm). exists (l +:+ p). cbn. rewrite Hf. split; [done|].
    by constructor.
  - destruct kw as [|[n' a] kw]; [done|]. cbn in Hkw.
    apply andb_prop in Hkw as [[Hn Ha]%andb_prop Hkw]. apply String.eqb_eq in Hn. subst n'.
    destruct (IH kw Hkw) as (p & Hf & Hm). exists (to_url a +:+ p). cbn.
    rewrite String.eqb_refl, Hf. split; [done|].
    destruct (arg_ok_class _ _ Ha) as [Hne Hc].
    rewrite <- (to_python_to_url cv a Ha) at 2. by constructor.
Qed.

(** ** Resolving paths built from argument values *)

Lemma take_run_slash p t r :
  str_forall p t = true -> p "/"%char = false ->
  take_run p (t +:+ String "/" r) = (t, String "/" r).
Proof. intros Ht Hs. by apply take_run_app. Qed.

(** A literal that reaches into a slash-free argument compares its text
    up to its first [/] with the whole argument. *)
Lemma strip_prefix_run l t r :
  is_Some (split_at "/" l) -> str_forall not_slash t = true ->
  strip_prefix l (t +:+ String "/" r) =
  match split_at "/" l with
  | Some (w, l') => if String.eqb w t then strip_prefix l' r else None
  | None => None
  end.
Proof.
  revert t. induction l as [|a l IH]; intros t [x Hx] Ht; [done|].
  cbn [split_at] in *.
  destruct t as [|b t]; [rewrite append_nil_l|rewrite append_cons]; cbn [strip_prefix].
  - destruct (Ascii.eqb_spec a "/") as [->|Ha]; [done|].
    destruct (split_at "/" l) as [[w l']|]; cbn; [|done].
    destruct (Ascii.eqb_spec "/" a); [congruence|done].
  - apply andb_prop in Ht as [Hb Ht]. unfold not_slash in Hb.
    destruct (Ascii.eqb_spec b "/") as [|Hb']; [done|].
    destruct (Ascii.eqb_spec a "/") as [->|Ha].
    + destruct (Ascii.eqb_spec "/" b); [congruence|done].
    + destruct (split_at "/" l) as [[w l']|] eqn:E; cbn in *; [|done].
      rewrite (IH t) by (eauto; by rewrite E). rewrite ?E. cbn.
      destruct (Ascii.eqb_spec a b) as [->|Hab].
      * destruct (String.eqb_spec w t); destruct (String.eqb_spec (String b w) (String b t)); congruence.
      * destruct (String.eqb_spec (String a w) (String b t)); congruence.
Qed.

(** A word with a character outside a class differs from every word of
    the class. *)
Lemma eqb_class_false p w t :
  str_forall p w = false -> str_forall p t = true -> String.eqb w t = false.
Proof. intros Hw Ht. destruct (String.eqb_spec w t) as [->|]; congruence. Qed.

Lemma match_parts_nil_nonempty s : s <> EmptyString -> match_parts [] s = None.
Proof. by destruct s. Qed.

Lemma append_nonempty t u : t <> EmptyString -> t +:+ u <> EmptyString.
Proof. by destruct t. Qed.

Lemma digits_not_slash t : str_forall is_digit t = true -> str_forall not_slash t = true.
Proof.
  induction t as [|c t IH]; cbn; [done|]. intros [Hc Ht]%andb_prop.
  rewrite IH by done. unfold not_slash.
  destruct (Ascii.eqb_spec c "/") as [->|]; [by vm_compute in Hc|done].
Qed.

(** A parameter followed by a [/] takes a whole argument of its class. *)
Lemma match_parts_param_slash cv n ps t r :
  t <> EmptyString -> str_forall (conv_class cv) t = true ->
  match_parts (Param cv n :: ps) (t +:+ String "/" r) =
  kw ← match_parts ps (String "/" r); Some ((n, to_python cv t) :: kw).
Proof.
  intros Hne Ht. cbn [match_parts]. rewrite take_run_slash by (done || apply conv_class_slash).
  destruct (String.eqb_spec t "") as [->|_]; done.
Qed.

Lemma negb_eqb_nonempty t : negb (String.eqb t "") = true -> t <> EmptyString.
Proof. by destruct t. Qed.


(** ** The compiled patterns

    Django compiles each route once; [compiled_patterns] is the list of
    compiled entries, and resolving against it is resolving against
    [urlpatterns]. *)

Definition compile (u : UrlPath) : option (View * string * list Segment) :=
  ps ← route_to_parts (path_route u); Some (path_view u, path_name u, ps).

Fixpoint resolve_compiled (cs : list (View * string * list Segment)) (p : string)
    : option (View * string * Kwargs) :=
  match cs with
  | [] => None
  | (v, n, ps) :: cs' =>
      match match_parts ps p with
      | Some kw => Some (v, n, kw)
      | None => resolve_compiled cs' p
      end
  end.

Definition compiled_patterns : list (View * string * list Segment) :=
  Eval vm_compute in omap compile urlpatterns.

Lemma resolve_in_compiled ups p : resolve_in ups p = resolve_compiled (omap compile ups) p.
Proof.
  induction ups as [|u ups IH]; [done|].
  change (omap compile (u :: ups))
    with (match compile u with Some y => y :: omap compile ups | None => omap compile ups end).
  unfold compile at 1. cbn [resolve_in].
  destruct (route_to_parts (path_route u)) as [ps|]; cbn [mbind option_bind resolve_compiled];
    [|exact IH].
  destruct (match_parts ps p); [done|exact IH].
Qed.

Lemma resolve_eq_compiled p : url_resolve p = resolve_compiled compiled_patterns p.
Proof. unfold url_resolve. rewrite resolve_in_compiled. reflexivity. Qed.
Section Resolve.
Local Arguments String.append : simpl nomatch.
Local Arguments strip_prefix : simpl nomatch.
Local Arguments take_run : simpl nomatch.
Local Arguments match_parts : simpl nomatch.
Local Arguments String.eqb : simpl nomatch.

(** Step through the entries of [urlpatterns] on a path whose argument
    is a variable. *)
Ltac route_rw :=
  repeat first
    [ progress cbv [lit_seg]
    | rewrite match_parts_param_slash by (done || reflexivity)
    | rewrite strip_prefix_run by (done || (eexists; reflexivity))
    | rewrite match_parts_nil_nonempty by (apply append_nonempty; done)
    | rewrite (eqb_class_false is_digit) by (done || reflexivity)
    | rewrite int_of_str_of_nat
    | progress simpl ].

Ltac args_facts :=
  repeat match goal with
         | H : _ && _ = true |- _ => apply andb_prop in H as [? ?]
         | H : String.eqb _ _ = true |- _ => apply String.eqb_eq in H; subst
         | H : negb (String.eqb _ "") = true |- _ => apply negb_eqb_nonempty in H
         end.

Ltac int_facts k :=
  pose proof (str_of_nat_digits k); pose proof (str_of_nat_nonempty k);
  pose proof (digits_not_slash _ (str_of_nat_digits k)).

Ltac shadow_cases :=
  repeat match goal with
         | |- context [String.eqb ?w ?t] => is_var t; destruct (String.eqb_spec w t) as [<-|?]
         end; simpl;
  first [ left; reflexivity
        | right; left; split_and!; reflexivity
        | right; right; left; split_and!; reflexivity
        | right; right; right; split_and!; reflexivity ].

(** Every path built from an entry's parameters resolves to that entry,
    except when the argument is the text of an earlier literal entry. *)
Lemma resolve_compiled_filled u kw ps p :
  In u urlpatterns -> route_to_parts (path_route u) = Some ps ->
  kw_ok ps kw = true -> fill ps kw = Some p ->
  resolve_compiled compiled_patterns p = Some (path_view u, path_name u, kw)
  \/ (path_name u = "get_openmrs_patient" /\ kw = [("uuid", AStr "create")] /\
      resolve_compiled compiled_patterns p = Some (v_create_patient, "create_openmrs_patient", []))
  \/ (path_name u = "get_openmrs_patient" /\ kw = [("uuid", AStr "search")] /\
      resolve_compiled compiled_patterns p = Some (v_search_patients, "search_openmrs_patients", []))
  \/ (path_name u = "get_orthanc_patient" /\ kw = [("patient_id", AStr "search")] /\
      resolve_compiled compiled_patterns p = Some (v_search_orthanc_patients, "search_orthanc_patients", [])).
Proof.
  intros Hin. repeat destruct Hin as [<-|Hin]; [..|done]; cbn [path_route path_name path_view];
    intros Hps; vm_compute in Hps; injection Hps as <-; intros Hkw Hf.
  all: destruct kw as [|[n a] [|? ?]]; simpl in Hkw; try discriminate; args_facts.
  all: try (destruct a as [t|k]; cbn [arg_ok] in *; try discriminate; args_facts).
  all: simpl in Hf.
  all: injection Hf as <-.
  all: try (left; reflexivity).
  all: try int_facts k.
  all: unfold compiled_patterns; simpl.
  all: route_rw.
  all: shadow_cases.
Qed.
End Resolve.

Lemma urlpatterns_wf :
  Forall (fun u => exists ps, route_to_parts (path_route u) = Some ps /\ parts_wf ps = true)
    urlpatterns.
Proof. repeat constructor; eexists; split; reflexivity. Qed.

(** The url names of urls.py are distinct, so [url_reverse] finds the entry
    it is given. *)
Lemma urlpatterns_find_name :
  Forall (fun u => List.find (fun u' => String.eqb (path_name u') (path_name u)) urlpatterns = Some u)
    urlpatterns.
Proof. repeat constructor. Qed.

Lemma reverse_fill u kw ps :
  In u urlpatterns -> route_to_parts (path_route u) = Some ps -> kw_ok ps kw = true ->
  exists p, fill ps kw = Some p /\ url_reverse (path_name u) kw = Some p.
Proof.
  intros Hin Hps Hkw.
  destruct (proj1 (List.Forall_forall _ _) urlpatterns_wf u Hin) as (ps' & Hps' & Hwf).
  rewrite Hps in Hps'. injection Hps' as <-.
  destruct (fill_match ps kw Hwf Hkw) as (p & Hf & Hm). exists p. split; [done|].
  unfold url_reverse. rewrite (proj1 (List.Forall_forall _ _) urlpatterns_find_name u Hin).
  cbn -[route_to_parts fill match_parts]. rewrite Hps. cbn -[fill match_parts].
  rewrite Hf. cbn -[match_parts]. by rewrite Hm.
Qed.

(** ** Theorems *)

(** C34: for every entry of urls.py and every keyword arguments its
    converters accept back, [url_reverse] builds a path and resolving that
    path gives the entry's view, name and the same arguments; the only
    exceptions are the UUID [create] or [search] for
    [openmrs/patients/<str:uuid>/] and the patient id [search] for
    [orthanc/patients/<str:patient_id>/], whose paths the earlier
    literal entries catch. *)
Theorem resolve_reverse u kw :
  In u urlpatterns -> args_ok u kw = true ->
  exists p, url_reverse (path_name u) kw = Some p /\
  (url_resolve p = Some (path_view u, path_name u, kw)
   \/ (path_name u = "get_openmrs_patient" /\ kw = [("uuid", AStr "create")] /\
       url_resolve p = Some (v_create_patient, "create_openmrs_patient", []))
   \/ (path_name u = "get_openmrs_patient" /\ kw = [("uuid", AStr "search")] /\
       url_resolve p = Some (v_search_patients, "search_openmrs_patients", []))
   \/ (path_name u = "get_orthanc_patient" /\ kw = [("patient_id", AStr "search")] /\
       url_resolve p = Some (v_search_orthanc_patients, "search_orthanc_patients", []))).
Proof.
  intros Hin Hok. unfold args_ok in Hok.
  destruct (route_to_parts (path_route u)) as [ps|] eqn:Hps; [|done].
  destruct (reverse_fill u kw ps Hin Hps Hok) as (p & Hf & Hrev).
  exists p. split; [done|]. rewrite (resolve_eq_compiled p).
  exact (resolve_compiled_filled u kw ps p Hin Hps Hok Hf).
Qed.

(** ** Witnesses *)

Lemma resolve_reverse_witness :
  exists p, url_reverse "get_openmrs_patient" [("uuid", AStr "search")] = Some p /\
  (url_resolve p = Some (v_get_patient, "get_openmrs_patient", [("uuid", AStr "search")])
   \/ ("get_openmrs_patient" = "get_openmrs_patient" /\
       [("uuid", AStr "search")] = [("uuid", AStr "create")] /\
       url_resolve p = Some (v_create_patient, "create_openmrs_patient", []))
   \/ ("get_openmrs_patient" = "get_openmrs_patient" /\
       [("uuid", AStr "search")] = [("uuid", AStr "search")] /\
       url_resolve p = Some (v_search_patients, "search_openmrs_patients", []))
   \/ ("get_openmrs_patient" = "get_orthanc_patient" /\
       [("uuid", AStr "search")] = [("patient_id", AStr "search")] /\
       url_resolve p = Some (v_search_orthanc_patients, "search_orthanc_patients", []))).
Proof.
  apply (resolve_reverse (path "openmrs/patients/<str:uuid>/" v_get_patient "get_openmrs_patient")).
  - cbn. do 4 right. by left.
  - reflexivity.
Defined.
