(* ===== verification/Modules.v ===== *)
(** * Loading the modules: the top-level statements of views.py and urls.py

    Before any request is served, Django imports [medical_integration.urls],
    which imports [medical_integration.views]; Python runs each module's
    top-level statements in order.  An [import] of a module that is not
    installed raises [ModuleNotFoundError], a [from m import x] of a name
    [m] does not define raises [ImportError], a [def] binds its name to the
    function (a later [def] of the same name rebinds it), and [views.x]
    of an unbound name raises [AttributeError].  The loaded namespace is
    an association list, newest binding first, so lookup sees the last
    binding as Python's module dict does.

    [views_module] lists the top-level statements of views.py with the
    line of each [def]; [load_urls] runs the imports of urls.py and
    [urls_entries], its [path(...)] calls as they name the views.  The
    installed modules are a parameter [env]: the names each importable
    module defines.  [view_def] is the function each [View] of [Routing]
    stands for. *)

From stdpp Require Import base list strings.
From S2P Require Import Prelude Services Routing.

(** ** Python values and statements *)

Inductive PyValue :=
| PyFunc (name : string) (line : nat)
| PyModule (m : string)
| PyObject (what : string).

#[export] Instance PyValue_eq_dec : EqDecision PyValue.
Proof. solve_decision. Defined.

Inductive Stmt :=
| SImport (m : string)
| SFromImport (m : string) (names : list string)
| SDef (name : string) (line : nat)
| SAssign (name : string) (v : PyValue).

Definition Namespace := list (string * PyValue).

(** The importable modules and the names each defines. *)
Definition Env := string -> option (list (string * PyValue)).

(** [from m import a, b, ...] *)
Fixpoint import_names (m : string) (exports : list (string * PyValue)) (names : list string)
    (ns : Namespace) : exc Namespace :=
  match names with
  | [] => Ok ns
  | n :: names' =>
      match assoc exports n with
      | Some v => import_names m exports names' ((n, v) :: ns)
      | None => Raise ("cannot import name '" +:+ n +:+ "' from '" +:+ m +:+ "'")
      end
  end.

Fixpoint exec (env : Env) (ns : Namespace) (ss : list Stmt) : exc Namespace :=
  match ss with
  | [] => Ok ns
  | s :: ss' =>
      match s with
      | SImport m =>
          match env m with
          | Some _ => exec env ((m, PyModule m) :: ns) ss'
          | None => Raise ("No module named '" +:+ m +:+ "'")
          end
      | SFromImport m names =>
          match env m with
          | Some exports => ns' ← import_names m exports names ns; exec env ns' ss'
          | None => Raise ("No module named '" +:+ m +:+ "'")
          end
      | SDef n l => exec env ((n, PyFunc n l) :: ns) ss'
      | SAssign n v => exec env ((n, v) :: ns) ss'
      end
  end.

(** ** views.py *)

(** Lines 1-20. *)
Definition views_imports : list Stmt := [
  SFromImport "rest_framework.decorators" ["api_view"];
  SFromImport "rest_framework.response" ["Response"];
  SFromImport "rest_framework" ["status"];
  SImport "logging";
  SFromImport "django.conf" ["settings"];
  SFromImport "datetime" ["datetime"];
  SFromImport "medical_integration.openmrs_api" ["OpenMRSAPI"];
  SFromImport "medical_integration.orthanc_api" ["OrthancAPI"];
  SFromImport "medical_integration.models" ["PatientMapping"];
  SFromImport "django.http" ["JsonResponse"];
  SFromImport "django.views.decorators.http" ["require_http_methods"];
  SFromImport "django.views.decorators.csrf" ["csrf_exempt"];
  SFromImport "medical_integration.dicom_patient_mapper" ["DicomPatientMapper"];
  SImport "tempfile";
  SImport "os";
  SImport "requests";
  SFromImport "requests.auth" ["HTTPBasicAuth"];
  SFromImport "requests.exceptions" ["RequestException"; "ConnectionError"; "Timeout"];
  SAssign "logger" (PyObject "logging.getLogger('medical_integration')")].

(** The [def]s of lines 22-1262, in order, each with the line of its
    [def]. *)
Definition views_defs : list Stmt := [
  SDef "health_check" 23; SDef "test_all_connections" 32; SDef "search_patients" 68;
  SDef "get_patient" 123; SDef "get_patient_by_identifier" 178; SDef "create_patient" 209;
  SDef "get_patient_mappings" 289; SDef "create_patient_mapping" 318;
  SDef "get_patient_mapping" 370; SDef "delete_patient_mapping" 400;
  SDef "sync_patient_mapping" 421; SDef "search_orthanc_patients" 452;
  SDef "get_orthanc_patient" 488; SDef "upload_dicom_with_auto_mapping" 519;
  SDef "get_patient_dicom_studies" 600; SDef "create_manual_patient_mapping" 621;
  SDef "get_unmapped_orthanc_patients" 649; SDef "get_dicom_study_details" 699;
  SDef "delete_patient_mapping" 725; SDef "batch_auto_mapping" 752;
  SDef "create_dummy_data" 870; SDef "create_simple_dummy_dicom" 971;
  SDef "clear_dummy_data" 1035; SDef "get_mapping_test_status" 1069;
  SDef "get_all_patients_simple" 1119; SDef "calculate_age_from_birthdate" 1179;
  SDef "get_mapping_status" 1194; SDef "create_test_mapping" 1236].

(** Lines 1267-1279: the imports repeated before get_all_openmrs_patients,
    and the models of the [openmrs_models] app. *)
Definition views_openmrs_models : list Stmt := [
  SFromImport "rest_framework.decorators" ["api_view"];
  SFromImport "rest_framework.response" ["Response"];
  SFromImport "rest_framework" ["status"];
  SFromImport "openmrs_models.models" ["Patient"; "Person"];
  SDef "get_all_openmrs_patients" 1279].

(** Lines 1326-1332. *)
Definition views_providers : list Stmt := [
  SFromImport "rest_framework.decorators" ["api_view"];
  SFromImport "rest_framework.response" ["Response"];
  SImport "requests";
  SFromImport "requests.auth" ["HTTPBasicAuth"];
  SDef "proxy_openmrs_providers" 1332].

Definition views_module : list Stmt :=
  views_imports ++ views_defs ++ views_openmrs_models ++ views_providers.

Definition load_views (env : Env) : exc Namespace := exec env [] views_module.

(** ** urls.py *)

(** The [views.<name>] (or imported [<name>]) each [path(...)] of lines
    10-48 passes, with its route and url name. *)
Definition urls_entries : list (string * string * string) := [
  ("health/", "health_check", "health_check");
  ("test-connections/", "test_all_connections", "test_connections");
  ("openmrs/patients/create/", "create_patient", "create_openmrs_patient");
  ("openmrs/patients/search/", "search_patients", "search_openmrs_patients");
  ("openmrs/patients/<str:uuid>/", "get_patient", "get_openmrs_patient");
  ("openmrs/patients/", "get_all_patients_simple", "get_all_patients");
  ("orthanc/patients/search/", "search_orthanc_patients", "search_orthanc_patients");
  ("orthanc/patients/<str:patient_id>/", "get_orthanc_patient", "get_orthanc_patient");
  ("dicom/upload-with-mapping/", "upload_dicom_with_auto_mapping", "upload_dicom_with_auto_mapping");
  ("dicom/upload/", "upload_dicom_with_auto_mapping", "upload_dicom");
  ("patients/<str:patient_uuid>/dicom-studies/", "get_patient_dicom_studies", "get_patient_dicom_studies");
  ("dicom/studies/<str:study_id>/details/", "get_dicom_study_details", "get_dicom_study_details");
  ("patient-mappings/", "get_patient_mappings", "get_patient_mappings");
  ("patient-mappings/create/", "create_patient_mapping", "create_patient_mapping");
  ("patient-mappings/manual/", "create_manual_patient_mapping", "create_manual_patient_mapping");
  ("patient-mappings/<int:mapping_id>/", "get_patient_mapping", "get_patient_mapping");
  ("patient-mappings/<int:mapping_id>/delete/", "delete_patient_mapping", "delete_patient_mapping");
  ("patient-mappings/<int:mapping_id>/sync/", "sync_patient_mapping", "sync_patient_mapping");
  ("orthanc/unmapped-patients/", "get_unmapped_orthanc_patients", "get_unmapped_orthanc_patients");
  ("mappings/batch-auto-mapping/", "batch_auto_mapping", "batch_auto_mapping");
  ("dummy-data/create/", "create_dummy_data", "create_dummy_data");
  ("dummy-data/clear/", "clear_dummy_data", "clear_dummy_data");
  ("mappings/test-status/", "get_mapping_test_status", "get_mapping_test_status");
  ("openmrs/providers/", "proxy_openmrs_providers", "openmrs_providers");
  ("openmrs-patients/", "get_all_openmrs_patients", "get_all_openmrs_patients")].

(** Lines 3-6 of urls.py: [from . import views] runs views.py;
    [from .views import ...] then reads two of its names. *)
Definition load_urls (env : Env) : exc (list (string * PyValue * string)) :=
  match env "django.urls" with
  | None => Raise "No module named 'django.urls'"
  | Some _ =>
      views ← load_views env;
      _ ← import_names "medical_integration.views" views
            ["get_all_openmrs_patients"; "proxy_openmrs_providers"] [];
      mapM (fun '(route, attr, name) =>
              match assoc views attr with
              | Some f => Ok (route, f, name)
              | None => Raise ("module 'medical_integration.views' has no attribute '" +:+ attr +:+ "'")
              end) urls_entries
  end.

(** The function each view of [Routing] stands for. *)
Definition view_def (v : View) : PyValue :=
  match v with
  | v_health_check => PyFunc "health_check" 23
  | v_test_all_connections => PyFunc "test_all_connections" 32
  | v_create_patient => PyFunc "create_patient" 209
  | v_search_patients => PyFunc "search_patients" 68
  | v_get_patient => PyFunc "get_patient" 123
  | v_get_all_patients_simple => PyFunc "get_all_patients_simple" 1119
  | v_search_orthanc_patients => PyFunc "search_orthanc_patients" 452
  | v_get_orthanc_patient => PyFunc "get_orthanc_patient" 488
  | v_upload_dicom_with_auto_mapping => PyFunc "upload_dicom_with_auto_mapping" 519
  | v_get_patient_dicom_studies => PyFunc "get_patient_dicom_studies" 600
  | v_get_dicom_study_details => PyFunc "get_dicom_study_details" 699
  | v_get_patient_mappings => PyFunc "get_patient_mappings" 289
  | v_create_patient_mapping => PyFunc "create_patient_mapping" 318
  | v_create_manual_patient_mapping => PyFunc "create_manual_patient_mapping" 621
  | v_get_patient_mapping => PyFunc "get_patient_mapping" 370
  | v_delete_patient_mapping => PyFunc "delete_patient_mapping" 725
  | v_sync_patient_mapping => PyFunc "sync_patient_mapping" 421
  | v_get_unmapped_orthanc_patients => PyFunc "get_unmapped_orthanc_patients" 649
  | v_batch_auto_mapping => PyFunc "batch_auto_mapping" 752
  | v_create_dummy_data => PyFunc "create_dummy_data" 870
  | v_clear_dummy_data => PyFunc "clear_dummy_data" 1035
  | v_get_mapping_test_status => PyFunc "get_mapping_test_status" 1069
  | v_proxy_openmrs_providers => PyFunc "proxy_openmrs_providers" 1332
  | v_get_all_openmrs_patients => PyFunc "get_all_openmrs_patients" 1279
  end.

(** The modules views.py and urls.py import, each with the names it is
    asked for: every dependency installed. *)
Definition full_env : Env := fun m =>
  if decide (m = "openmrs_models.models") then Some [("Patient", PyObject "Patient"); ("Person", PyObject "Person")]
  else Some (map (fun n => (n, PyObject (m +:+ "." +:+ n)))
               ["api_view"; "Response"; "status"; "settings"; "datetime"; "OpenMRSAPI"; "OrthancAPI";
                "PatientMapping"; "JsonResponse"; "require_http_methods"; "csrf_exempt";
                "DicomPatientMapper"; "HTTPBasicAuth"; "RequestException"; "ConnectionError";
                "Timeout"; "path"]).

(** The same without the [openmrs_models] app. *)
Definition env_without_openmrs_models : Env := fun m =>
  if decide (m = "openmrs_models.models") then None else full_env m.

(** ** What loading gives *)

(** With every dependency installed, urls.py loads and its [path(...)]
    calls name exactly the functions [Routing.urlpatterns] routes to, the
    [delete_patient_mapping] route taking the second definition (line
    725), which rebinds the first (line 400). *)
Lemma load_urls_routes :
  exists entries, load_urls full_env = Ok entries /\
    entries = map (fun u => (path_route u, view_def (path_view u), path_name u)) urlpatterns.
Proof. eexists. split; [vm_compute; reflexivity|reflexivity]. Qed.

Lemma delete_patient_mapping_rebound :
  exists views, load_views full_env = Ok views /\
    assoc views "delete_patient_mapping" = Some (PyFunc "delete_patient_mapping" 725) /\
    In ("delete_patient_mapping", PyFunc "delete_patient_mapping" 400) views.
Proof. eexists. split; [vm_compute; reflexivity|]. split; [reflexivity|]. vm_compute. tauto. Qed.

(** Without the [openmrs_models] app, outside src/, importing views.py
    raises at line 1276, so urls.py does not load and no route is served,
    the routes of the mapping views included. *)
Lemma load_urls_needs_openmrs_models :
  load_urls env_without_openmrs_models = Raise "No module named 'openmrs_models.models'".
Proof. vm_compute. reflexivity. Qed.
