(* ===== verification/StatusViews.v ===== *)
(** * Status, statistics and test views of views.py

    [health_check] (views.py 22-29) answers the clock; [test_all_connections]
    (31-65) asks each service for a sign of life, each in its own
    [try]; [calculate_age_from_birthdate] (1179-1190) reads the date part
    of a birthdate with [datetime.strptime] and counts the birthdays
    passed by comparing [(month, day)] tuples; [get_mapping_status]
    (1193-1233) counts the active mappings by type and lists the ten
    newest; [create_test_mapping] (1235-1262) only checks its two fields.
    None of them writes the mapping table.

    The session probe and the connection test of the two service clients
    (openmrs_api.py, orthanc_api.py, outside src/) are an interface,
    [StatusProbes], with no behaviour assumed.  The [notes] attribute
    [get_mapping_status] reads is not among the fields of spec.md section
    3; its access is a parameter that may raise.  Django's
    [order_by('-created_date')] leaves rows of equal creation time in an
    order the database chooses; the model keeps them in primary-key
    order. *)

From Stdlib Require Import Ascii ZArith.
From stdpp Require Import base list strings sorting.
From S2P Require Import Prelude Services MappingModel PyDateTime.

(** ** health_check *)

Record HealthResponse := mkHealth {
  health_status : string;
  health_timestamp : nat;
  health_service : string
}.

Definition health_check : st Store HealthResponse :=
  do s <- st_get; st_ret (mkHealth "healthy" (now s) "Django 의료 통합 API").

(** ** test_all_connections *)

(** [session_info.get('error')]; a session answer that is [None] or an
    empty dict is [None]. *)
Record SessionInfo := mkSession { session_error : option string }.

Class StatusProbes := {
  openmrs_get_session : exc (option SessionInfo);
  orthanc_test_connection : exc bool
}.

Section Connections.
Context `{StatusProbes}.

(** [if session_info and not session_info.get('error')], an exception
    leaving the flag [False]. *)
Definition openmrs_connected : bool :=
  match openmrs_get_session with
  | Ok (Some si) => negb (str_truthy (session_error si))
  | _ => false
  end.

Definition orthanc_connected : bool :=
  match orthanc_test_connection with Ok b => b | Raise _ => false end.

(** ['success' if all(results.values()) else 'partial' if any(...) else 'failure'] *)
Definition overall_status (results : list bool) : string :=
  if forallb id results then "success" else if existsb id results then "partial" else "failure".

Record ConnectionsResponse := mkConnections {
  conn_status : string;
  conn_openmrs : bool;
  conn_orthanc : bool
}.

Definition test_all_connections : ConnectionsResponse :=
  let o := openmrs_connected in
  let r := orthanc_connected in
  mkConnections (overall_status [o; r]) o r.
End Connections.

(** ** calculate_age_from_birthdate *)

(** [s.split('T')[0]] *)
Fixpoint before_T (s : string) : string :=
  match s with
  | EmptyString => EmptyString
  | String c s' => if Ascii.eqb c "T" then EmptyString else String c (before_T s')
  end.

(** Python's [(a1, a2) < (b1, b2)] on integers. *)
Definition pair_lt (a b : nat * nat) : bool :=
  (a.1 <? b.1) || ((a.1 =? b.1) && (a.2 <? b.2)).

(** A birthdate that is not a non-empty string, including any value
    that is not a [str], is [None]; every exception of the body is
    swallowed by the bare [except] and gives [None]. *)
Definition calculate_age_from_birthdate (today : DateTime) (birthdate : option string)
    : option Z :=
  match birthdate with
  | Some b =>
      if String.eqb b "" then None
      else match strptime_ymd (before_T b) with
           | Some bd =>
               Some (Z.of_nat (dt_year today) - Z.of_nat (dt_year bd)
                     - (if pair_lt (dt_month today, dt_day today) (dt_month bd, dt_day bd)
                        then 1 else 0))%Z
           | None => None
           end
  | None => None
  end.

(** ** create_test_mapping *)

Inductive TestMappingResponse :=
| TM_missing_fields
| TM_ready (openmrs_uuid patient_id : string).

Definition create_test_mapping (openmrs_uuid patient_id : option string) : TestMappingResponse :=
  match openmrs_uuid, patient_id with
  | Some u, Some p => if str_truthy openmrs_uuid && str_truthy patient_id then TM_ready u p
                      else TM_missing_fields
  | _, _ => TM_missing_fields
  end.

Definition test_mapping_status (r : TestMappingResponse) : nat :=
  match r with TM_missing_fields => 400 | TM_ready _ _ => 200 end.

(** ** get_mapping_status *)

(** The order of [order_by('-created_date')]: newer first. *)
Definition created_later (a b : PatientMapping) : Prop := created_date b <= created_date a.

#[export] Instance created_later_dec : RelDecision created_later.
Proof. intros a b. unfold created_later. apply _. Defined.

(** [filter(is_active=True, mapping_type=t).count()] over the active rows. *)
Definition count_type (t : MappingType) (act : list PatientMapping) : nat :=
  length (List.filter (fun r => bool_decide (mapping_type r = Some t)) act).

(** [filter(is_active=True).order_by('-created_date')[:10]] *)
Definition recent_mappings (s : Store) : list PatientMapping :=
  take 10 (merge_sort created_later (get_active_mappings s)).

(** One entry of [recent_mappings] in the answer; [created_date] is
    always set, so its [isoformat()] is always given. *)
Record StatusEntry := mkStatusEntry {
  se_mapping_id : nat;
  se_orthanc_patient_id : string;
  se_openmrs_patient_uuid : string;
  se_mapping_type : option MappingType;
  se_sync_status : option SyncStatus;
  se_created_date : nat;
  se_notes : option string
}.

Inductive MappingStatusResponse :=
| MS_ok (total auto manual : nat) (recent : list StatusEntry)
| MS_error (e : string).

Definition mapping_status_code (r : MappingStatusResponse) : nat :=
  match r with MS_ok _ _ _ _ => 200 | MS_error _ => 500 end.

Section MappingStatus.
(** [mapping.notes], which may raise [AttributeError]. *)
Variable notes_of : PatientMapping -> exc (option string).

Definition status_entry (m : PatientMapping) : exc StatusEntry :=
  exc_bind (notes_of m) (fun n =>
    Ok (mkStatusEntry (mapping_id m) (orthanc_patient_id m) (openmrs_patient_uuid m)
          (mapping_type m) (sync_status m) (created_date m) n)).

Definition get_mapping_status : st Store MappingStatusResponse :=
  try_except
    (do s <- st_get;
     let act := get_active_mappings s in
     do entries <- st_map (fun m => st_lift (status_entry m)) (recent_mappings s);
     st_ret (MS_ok (length act) (count_type AUTO act) (count_type MANUAL act) entries))
    (fun e => st_ret (MS_error e)).
End MappingStatus.

(** ** Lemmas *)

(** The order of two dates [(y, m, d)], years being integers. *)
Definition ymd_lt (y1 : Z) (m1 d1 : nat) (y2 : Z) (m2 d2 : nat) : Prop :=
  (y1 < y2)%Z \/ (y1 = y2 /\ (m1 < m2 \/ (m1 = m2 /\ d1 < d2))).

Definition ymd_le (y1 : Z) (m1 d1 : nat) (y2 : Z) (m2 d2 : nat) : Prop :=
  ymd_lt y1 m1 d1 y2 m2 d2 \/ (y1 = y2 /\ m1 = m2 /\ d1 = d2).

Definition not_T (c : ascii) : bool := negb (Ascii.eqb c "T").

Lemma pair_lt_spec a1 a2 b1 b2 :
  pair_lt (a1, a2) (b1, b2) = true <-> a1 < b1 \/ (a1 = b1 /\ a2 < b2).
Proof.
  unfold pair_lt. cbn [fst snd]. rewrite orb_true_iff, andb_true_iff, !Nat.ltb_lt, Nat.eqb_eq.
  done.
Qed.

Lemma before_T_app s t : str_forall not_T s = true -> before_T (s +:+ t) = s +:+ before_T t.
Proof.
  induction s as [|c s IH]; [done|]. cbn. intros [Hc Hs]%andb_prop.
  rewrite append_cons. cbn. unfold not_T in Hc. destruct (Ascii.eqb c "T"); [done|].
  by rewrite IH.
Qed.

Lemma digit_not_T n : n < 10 -> not_T (digit n) = true.
Proof.
  intros Hn. pose proof (is_digit_digit n Hn) as Hd. unfold not_T.
  destruct (Ascii.eqb_spec (digit n) "T") as [E|]; [|done]. by rewrite E in Hd.
Qed.

Lemma pad2_not_T n : str_forall not_T (pad2 n) = true.
Proof.
  rewrite pad2_digits. cbn [str_forall].
  rewrite !digit_not_T by (apply Nat.mod_upper_bound; lia). done.
Qed.

Lemma isoformat_not_T y m d : str_forall not_T (date_isoformat y m d) = true.
Proof.
  unfold date_isoformat, pad4.
  do 3 (rewrite ?str_forall_app, ?pad2_not_T; cbn [str_forall andb]). reflexivity.
Qed.

Lemma created_later_total : Total created_later.
Proof. intros a b. unfold created_later. lia. Qed.

#[export] Instance created_later_trans : Transitive created_later.
Proof. intros a b c. unfold created_later. lia. Qed.

(** Of a sorted list, the first [k] elements are related to all the
    others. *)
Lemma sorted_take_drop {A} (R : relation A) `{!Transitive R} k l :
  Sorted R l -> Forall (fun x => Forall (fun y => R y x) (take k l)) (drop k l).
Proof.
  intros Hs%Sorted_StronglySorted; [|done]. revert k.
  induction Hs as [|a l Hs IH Ha]; intros [|k]; cbn; [constructor|constructor| |].
  - apply List.Forall_forall. intros x _. constructor.
  - apply List.Forall_forall. intros x Hx. constructor.
    + eapply List.Forall_forall; [apply Forall_drop, Ha|exact Hx].
    + exact (proj1 (List.Forall_forall _ _) (IH k) x Hx).
Qed.

Lemma count_type_split act :
  length act = count_type AUTO act + count_type MANUAL act
               + length (List.filter (fun r => bool_decide (mapping_type r = None)) act).
Proof.
  unfold count_type. induction act as [|r act IH]; [done|]. cbn.
  repeat case_bool_decide; cbn; try lia; destruct (mapping_type r) as [[]|]; congruence.
Qed.

Lemma status_entries_ok notes_of l (s : Store) :
  (forall m, exists n, notes_of m = Ok n) ->
  exists es, st_map (fun m => st_lift (status_entry notes_of m)) l s = (Ok es, s) /\
             map se_mapping_id es = map mapping_id l.
Proof.
  intros Hn. apply st_map_lift_keys.
  - intros m _. destruct (Hn m) as [n Hm]. unfold status_entry. rewrite Hm. by eexists.
  - intros m e. unfold status_entry. destruct (notes_of m); cbn; [by intros [= <-]|done].
Qed.

Lemma recent_mappings_spec s :
  length (recent_mappings s) = Nat.min 10 (length (get_active_mappings s)) /\
  Sorted created_later (recent_mappings s) /\
  exists rest, recent_mappings s ++ rest ≡ₚ get_active_mappings s /\
    Forall (fun x => Forall (fun y => created_date x <= created_date y) (recent_mappings s)) rest.
Proof.
  unfold recent_mappings. pose proof created_later_total.
  pose proof (Sorted_merge_sort created_later (get_active_mappings s)) as Hs.
  pose proof (merge_sort_Permutation created_later (get_active_mappings s)) as Hp.
  split_and!.
  - rewrite length_take, Hp. lia.
  - rewrite <- (take_drop 10 (merge_sort _ _)) in Hs.
    apply Sorted_StronglySorted in Hs; [|apply _].
    apply StronglySorted_Sorted. by apply StronglySorted_app_1_l in Hs.
  - exists (drop 10 (merge_sort created_later (get_active_mappings s))).
    rewrite take_drop. split; [done|]. by apply (sorted_take_drop created_later).
Qed.

Lemma isoformat_nonempty y m d suffix : String.eqb (date_isoformat y m d +:+ suffix) "" = false.
Proof. unfold date_isoformat. by rewrite pad4_app. Qed.

(** ** Theorems *)

(** C35: for a birthdate given as an ISO date [YYYY-MM-DD] of a valid
    calendar day, followed by nothing or by a time part starting with
    [T] as OpenMRS sends it, calculate_age_from_birthdate answers the
    number [n] of birthdays passed: the [n]-th anniversary
    [(year + n, month, day)] is on or before today and the next one is
    after today, comparing dates as Python compares the tuples (a
    29 February birthday is passed on 1 March).  A birthdate after today
    gives a negative [n]. *)
Theorem calculate_age_completed_years today y m d suffix :
  date_ok y m d = true -> before_T suffix = EmptyString ->
  exists n, calculate_age_from_birthdate today (Some (date_isoformat y m d +:+ suffix)) = Some n /\
    ymd_le (Z.of_nat y + n) m d (Z.of_nat (dt_year today)) (dt_month today) (dt_day today) /\
    ymd_lt (Z.of_nat (dt_year today)) (dt_month today) (dt_day today) (Z.of_nat y + n + 1) m d.
Proof.
  intros Hok HT. cbn [calculate_age_from_birthdate]. rewrite isoformat_nonempty.
  rewrite before_T_app, HT, append_nil_r, strptime_isoformat by (done || apply isoformat_not_T).
  eexists. split; [reflexivity|]. cbn [dt_year dt_month dt_day].
  pose proof (pair_lt_spec (dt_month today) (dt_day today) m d) as Hs.
  unfold ymd_le, ymd_lt.
  destruct (pair_lt _ _); [apply proj1 in Hs; specialize (Hs eq_refl); lia|].
  assert (~ (dt_month today < m \/ (dt_month today = m /\ dt_day today < d)))
    by (intros Hp; apply Hs in Hp; discriminate).
  lia.
Qed.

(** C36: get_mapping_status never writes the table and, when reading
    [notes] does not raise, answers the number of active mappings, of
    active AUTO and of active MANUAL mappings (the three need not add
    up: the rows whose type is the model default count only in the
    total) and the entries of at most ten active mappings, the newest
    first: exactly [min 10 total] entries, ordered by decreasing
    creation time, and every active mapping left out is no newer than
    any listed one. *)
Theorem get_mapping_status_spec notes_of s :
  (forall m, exists n, notes_of m = Ok n) ->
  exists total auto manual entries,
    get_mapping_status notes_of s = (Ok (MS_ok total auto manual entries), s) /\
    auto = count_type AUTO (get_active_mappings s) /\
    manual = count_type MANUAL (get_active_mappings s) /\
    total = auto + manual
            + length (List.filter (fun r => bool_decide (mapping_type r = None)) (get_active_mappings s)) /\
    map se_mapping_id entries = map mapping_id (recent_mappings s) /\
    length entries = Nat.min 10 total /\
    Sorted created_later (recent_mappings s) /\
    exists rest, recent_mappings s ++ rest ≡ₚ get_active_mappings s /\
      Forall (fun x => Forall (fun y => created_date x <= created_date y) (recent_mappings s)) rest.
Proof.
  intros Hn. destruct (status_entries_ok notes_of (recent_mappings s) s Hn) as (es & Hes & Hids).
  destruct (recent_mappings_spec s) as (Hlen & Hsort & Hrest).
  do 4 eexists. split.
  - unfold get_mapping_status. apply try_except_ok. rewrite st_bind_get. unfold st_bind. by rewrite Hes.
  - split_and!; try done; [apply count_type_split|].
    rewrite <- Hlen. apply (f_equal length) in Hids. by rewrite !length_map in Hids.
Qed.

(** ** Witnesses *)

Lemma calculate_age_completed_years_witness :
  exists n, calculate_age_from_birthdate (mkDateTime 2025 6 1 0 0 0)
              (Some (date_isoformat 1985 3 15 +:+ "T00:00:00.000+0000")) = Some n /\
    ymd_le (Z.of_nat 1985 + n) 3 15 (Z.of_nat 2025) 6 1 /\
    ymd_lt (Z.of_nat 2025) 6 1 (Z.of_nat 1985 + n + 1) 3 15.
Proof.
  apply (calculate_age_completed_years (mkDateTime 2025 6 1 0 0 0) 1985 3 15); reflexivity.
Defined.

(** Two active mappings, one of the model's default type, and a
    deactivated one. *)
Definition status_demo_store : Store :=
  mkStore [mkMapping 1 "orth-1" "uuid-a" (Some AUTO) None None 5 None true;
           mkMapping 2 "orth-2" "uuid-b" None None None 7 None true;
           mkMapping 3 "orth-3" "uuid-c" (Some MANUAL) None None 6 None false] 4 10.

Lemma get_mapping_status_spec_witness :
  exists total auto manual entries,
    get_mapping_status (fun _ => Ok None) status_demo_store
      = (Ok (MS_ok total auto manual entries), status_demo_store) /\
    auto = count_type AUTO (get_active_mappings status_demo_store) /\
    manual = count_type MANUAL (get_active_mappings status_demo_store) /\
    total = auto + manual
            + length (List.filter (fun r => bool_decide (mapping_type r = None))
                        (get_active_mappings status_demo_store)) /\
    map se_mapping_id entries = map mapping_id (recent_mappings status_demo_store) /\
    length entries = Nat.min 10 total /\
    Sorted created_later (recent_mappings status_demo_store) /\
    exists rest, recent_mappings status_demo_store ++ rest ≡ₚ get_active_mappings status_demo_store /\
      Forall (fun x => Forall (fun y => created_date x <= created_date y)
                              (recent_mappings status_demo_store)) rest.
Proof. apply get_mapping_status_spec. intros m. by exists None. Defined.
