(* ===== verification/ProxyViews.v ===== *)
(** * The views that pass OpenMRS and Orthanc answers through

    views.py reads the JSON answers of the two services and reshapes
    them: [get_patient] (122-175) and [get_patient_by_identifier]
    (177-204) for one registry patient, [search_orthanc_patients]
    (451-485), [get_orthanc_patient] (487-515) and
    [get_dicom_study_details] (698-722) for the archive,
    [get_patient_dicom_studies] (599-618) through the mapper, and
    [get_all_patients_simple] (1118-1176) and [proxy_openmrs_providers]
    (1331-1350), which call OpenMRS over HTTP themselves, and
    [get_all_openmrs_patients] (1278-1321), which reads the [Patient]
    rows of the [openmrs_models] app, an app outside src/ and the spec,
    through the interface [OpenmrsModels].

    The service clients are interfaces that answer JSON values and may
    raise.  The two HTTP views are modelled with the requests they send:
    each returns its answer and the list of requests, so that the order
    of the external call and of the checks on the parameters is part of
    the model.  [response.json()] raises [requests]' [JSONDecodeError],
    a [RequestException] since requests 2.27.  A view without
    [try]/[except] ([get_patient]) returns [Raise] for an exception that
    reaches Django. *)

From Stdlib Require Import ZArith.
From stdpp Require Import base list strings.
From S2P Require Import Prelude Services Json.

(** ** Interfaces *)

(** [OpenMRSAPI().get_patient(uuid)] and
    [get_patient_by_identifier(identifier)]: a dict or [None]. *)
Class RegistryJson := {
  rj_get_patient : string -> exc json;
  rj_get_patient_by_identifier : string -> exc json
}.

(** [OrthancAPI()] and [DicomPatientMapper()] calls. *)
Class ArchiveJson := {
  aj_search_patients_by_name : string -> exc json;
  aj_get_patient : string -> exc json;
  aj_get_patient_studies : string -> exc json;
  aj_get_study_with_series_and_instances : string -> exc json;
  aj_mapper_patient_dicom_studies : string -> exc json
}.

(** An HTTP answer: its status code and what [response.json()] gives. *)
Record HttpResponse := mkHttpResponse {
  http_status : nat;
  http_json : exc json
}.

(** A request: the URL, the query parameters and the basic-auth user. *)
Record HttpRequest := mkHttpRequest {
  req_url : string;
  req_params : list (string * string);
  req_user : string
}.

(** [requests.get]: an answer, or a [RequestException]. *)
Class HttpClient := {
  http_get : HttpRequest -> exc HttpResponse
}.

(** ** get_patient *)

Section Registry.
Context `{RegistryJson}.
Variable container_repr : json -> string.

Definition fmt_identifier (i : json) : exc json :=
  v ← py_get i "identifier" JNull;
  t ← py_get i "identifierType" (JDict []);
  d ← py_get t "display" JNull;
  mret (JDict [("identifier", v); ("identifierType", d)]).

Definition fmt_name (n : json) : exc json :=
  g ← py_get n "givenName" JNull;
  m ← py_get n "middleName" JNull;
  f ← py_get n "familyName" JNull;
  p ← py_get n "preferred" (JBool false);
  mret (JDict [("givenName", g); ("middleName", m); ("familyName", f); ("preferred", p)]).

Definition fmt_address (a : json) : exc json :=
  a1 ← py_get a "address1" JNull;
  a2 ← py_get a "address2" JNull;
  c ← py_get a "cityVillage" JNull;
  sp ← py_get a "stateProvince" JNull;
  co ← py_get a "country" JNull;
  pc ← py_get a "postalCode" JNull;
  p ← py_get a "preferred" (JBool false);
  mret (JDict [("address1", a1); ("address2", a2); ("cityVillage", c); ("stateProvince", sp);
               ("country", co); ("postalCode", pc); ("preferred", p)]).

Definition fmt_attribute (a : json) : exc json :=
  t ← py_get a "attributeType" (JDict []);
  d ← py_get t "display" JNull;
  v ← py_get a "value" JNull;
  mret (JDict [("attributeType", d); ("value", v)]).

(** [[f(x) for x in person.get(k, [])]] *)
Definition fmt_each (f : json -> exc json) (d : json) (k : string) : exc json :=
  l ← py_get d k (JList []); xs ← py_iter l; JList <$> mapM f xs.

(** The [formatted_patient] dict; [patient.get('person', {})], read
    again for each field, is read once. *)
Definition format_patient (patient : json) : exc json :=
  uuid ← py_get patient "uuid" JNull;
  ids ← py_get patient "identifiers" (JList []);
  id_list ← py_iter ids;
  first ← (match id_list with [] => mret JNull | i :: _ => py_get i "identifier" JNull end);
  identifiers ← fmt_each fmt_identifier patient "identifiers";
  person ← py_get patient "person" (JDict []);
  pn ← py_get person "preferredName" (JDict []);
  given ← py_get pn "givenName" (JStr "");
  family ← py_get pn "familyName" (JStr "");
  names ← fmt_each fmt_name person "names";
  gender ← py_get person "gender" JNull;
  birthdate ← py_get person "birthdate" JNull;
  age ← py_get person "age" JNull;
  addresses ← fmt_each fmt_address person "addresses";
  attributes ← fmt_each fmt_attribute person "attributes";
  dead ← py_get person "dead" (JBool false);
  death_date ← py_get person "deathDate" JNull;
  cause ← py_get person "causeOfDeath" JNull;
  cause_display ← (if py_truthy cause
                   then c ← py_get person "causeOfDeath" (JDict []); py_get c "display" JNull
                   else mret JNull);
  mret (JDict [("uuid", uuid); ("identifier", first); ("identifiers", identifiers);
               ("name", JStr (py_str container_repr given +:+ " " +:+ py_str container_repr family));
               ("names", names); ("gender", gender); ("birthdate", birthdate); ("age", age);
               ("addresses", addresses); ("attributes", attributes); ("dead", dead);
               ("deathDate", death_date); ("causeOfDeath", cause_display)]).

Inductive GetPatientResponse :=
| GP_not_found (uuid : string)
| GP_ok (formatted : json).

(** No [try]: an exception of the client or of the formatting reaches
    Django. *)
Definition get_patient (uuid : string) : exc GetPatientResponse :=
  patient ← rj_get_patient uuid;
  match patient with
  | JNull => mret (GP_not_found uuid)
  | _ => GP_ok <$> format_patient patient
  end.

(** ** get_patient_by_identifier *)

Inductive ByIdentifierResponse :=
| GI_not_found (identifier : string)
| GI_ok (formatted : json)
| GI_server_error (e : string).

Definition get_patient_by_identifier (identifier : string) : ByIdentifierResponse :=
  match (patient ← rj_get_patient_by_identifier identifier;
         if negb (py_truthy patient) then mret (GI_not_found identifier) else
         uuid ← py_get patient "uuid" JNull;
         display ← py_get patient "display" JNull;
         ids ← py_get patient "identifiers" (JList []);
         person ← py_get patient "person" (JDict []);
         addresses ← py_get person "addresses" (JList []);
         attributes ← py_get person "attributes" (JList []);
         mret (GI_ok (JDict [("uuid", uuid); ("patient_identifier", JStr identifier);
                             ("display", display); ("identifiers", ids); ("person", person);
                             ("addresses", addresses); ("attributes", attributes)])))
  with
  | Ok r => r
  | Raise e => GI_server_error e
  end.
End Registry.

(** ** The archive views *)

Section Archive.
Context `{ArchiveJson}.

Inductive OrthancSearchResponse :=
| OS_missing_query
| OS_ok (results : list json) (total : nat)
| OS_server_error (e : string).

(** One entry of [search_orthanc_patients]. *)
Definition fmt_search_result (result : json) : exc json :=
  info ← py_get result "patient_info" (JDict []);
  tags ← py_get info "MainDicomTags" (JDict []);
  pid ← py_get result "patient_id" JNull;
  name ← py_get tags "PatientName" (JStr "");
  bd ← py_get tags "PatientBirthDate" (JStr "");
  sex ← py_get tags "PatientSex" (JStr "");
  pid_dicom ← py_get tags "PatientID" (JStr "");
  studies ← py_get info "Studies" (JList []);
  n ← py_len studies;
  lu ← py_get info "LastUpdate" (JStr "");
  mret (JDict [("patient_id", pid); ("patient_name", name); ("patient_birth_date", bd);
               ("patient_sex", sex); ("patient_id_dicom", pid_dicom);
               ("studies_count", JInt (Z.of_nat n)); ("last_update", lu)]).

(** [query = request.query_params.get('q', '')] *)
Definition search_orthanc_patients (q : option string) : OrthancSearchResponse :=
  let query := default "" q in
  if String.eqb query "" then OS_missing_query
  else match (results ← aj_search_patients_by_name query;
              rs ← py_iter results;
              patients ← mapM fmt_search_result rs;
              mret (OS_ok patients (length patients))) with
       | Ok r => r
       | Raise e => OS_server_error e
       end.

Inductive OrthancPatientResponse :=
| OP_not_found (patient_id : string)
| OP_ok (formatted : json)
| OP_server_error (e : string).

Definition get_orthanc_patient (patient_id : string) : OrthancPatientResponse :=
  match (info ← aj_get_patient patient_id;
         if negb (py_truthy info) then mret (OP_not_found patient_id) else
         studies ← aj_get_patient_studies patient_id;
         tags ← py_get info "MainDicomTags" (JDict []);
         count ← (if py_truthy studies then py_len studies else mret 0);
         lu ← py_get info "LastUpdate" (JStr "");
         ty ← py_get info "Type" (JStr "");
         stable ← py_get info "IsStable" (JBool false);
         mret (OP_ok (JDict [("patient_id", JStr patient_id); ("main_dicom_tags", tags);
                             ("studies", py_or studies (JList []));
                             ("studies_count", JInt (Z.of_nat count)); ("last_update", lu);
                             ("type", ty); ("is_stable", stable)])))
  with
  | Ok r => r
  | Raise e => OP_server_error e
  end.

Inductive StudyDetailsResponse :=
| SD_not_found (study_id : string)
| SD_ok (study_id : string) (details : json)
| SD_server_error (e : string).

Definition get_dicom_study_details (study_id : string) : StudyDetailsResponse :=
  match aj_get_study_with_series_and_instances study_id with
  | Ok d => if py_truthy d then SD_ok study_id d else SD_not_found study_id
  | Raise e => SD_server_error e
  end.

Inductive PatientStudiesResponse :=
| PS_ok (patient_uuid : string) (studies : json) (total : nat)
| PS_server_error (e : string).

Definition get_patient_dicom_studies (patient_uuid : string) : PatientStudiesResponse :=
  match (studies ← aj_mapper_patient_dicom_studies patient_uuid;
         n ← py_len studies;
         mret (PS_ok patient_uuid studies n)) with
  | Ok r => r
  | Raise e => PS_server_error e
  end.
End Archive.

(** ** The HTTP views *)

Section Http.
Context `{HttpClient}.

(** [settings.EXTERNAL_SERVICES['openmrs']], or the exception reading it. *)
Variable openmrs_config : exc (list (string * string)).

(** [config[k]] *)
Definition dict_index (d : list (string * string)) (k : string) : exc string :=
  match assoc d k with Some v => Ok v | None => Raise ("'" +:+ k +:+ "'") end.

(** [int(s)], raising [ValueError]. *)
Definition py_int_exc (s : string) : exc Z :=
  match py_int s with
  | Some z => Ok z
  | None => Raise ("invalid literal for int() with base 10: '" +:+ s +:+ "'")
  end.

Inductive AllPatientsResponse :=
| AP_config_error (e : string)
| AP_api_error (code : nat)
| AP_request_failed (e : string)
| AP_internal_error (e : string)
| AP_ok (results : json) (total : nat) (limit start_index : Z).

Definition all_patients_status (r : AllPatientsResponse) : nat :=
  match r with AP_ok _ _ _ _ => 200 | _ => 500 end.

Definition custompatient_request (host port user limit start : string) : HttpRequest :=
  mkHttpRequest ("http://" +:+ host +:+ ":" +:+ port +:+ "/openmrs/ws/rest/v1/custompatient")
    [("limit", limit); ("startIndex", start)] user.

(** The answer and the requests sent.  The [RequestException] handler
    covers [requests.get] and [response.json()]; every other exception
    of the outer [try] gives the internal error. *)
Definition get_all_patients_simple (limit_q start_q : option string)
    : AllPatientsResponse * list HttpRequest :=
  match openmrs_config with
  | Raise e => (AP_config_error ("OpenMRS 설정 오류: " +:+ e), [])
  | Ok cfg =>
      let limit := default "20" limit_q in
      let start := default "0" start_q in
      match (host ← dict_index cfg "host"; port ← dict_index cfg "port";
             user ← dict_index cfg "username"; _ ← dict_index cfg "password";
             mret (host, port, user)) with
      | Raise e => (AP_internal_error ("서버 내부 오류: " +:+ e), [])
      | Ok (host, port, user) =>
          let req := custompatient_request host port user limit start in
          match http_get req with
          | Raise e => (AP_request_failed ("OpenMRS 서버 요청 실패: " +:+ e), [req])
          | Ok resp =>
              if negb (Nat.eqb (http_status resp) 200) then (AP_api_error (http_status resp), [req])
              else match http_json resp with
                   | Raise e => (AP_request_failed ("OpenMRS 서버 요청 실패: " +:+ e), [req])
                   | Ok data =>
                       match (results ← py_get data "results" (JList []);
                              n ← py_len results;
                              l ← py_int_exc limit;
                              s ← py_int_exc start;
                              mret (AP_ok results n l s)) with
                       | Ok r => (r, [req])
                       | Raise e => (AP_internal_error ("서버 내부 오류: " +:+ e), [req])
                       end
                   end
          end
      end
  end.

Inductive ProxyResponse :=
| PR_ok (body : json)
| PR_failed (status : nat)
| PR_error (e : string).

Definition providers_request : HttpRequest :=
  mkHttpRequest "http://localhost:8082/openmrs/ws/rest/v1/provider" [] "admin".

(** The answer keeps OpenMRS's status code when it is not 200. *)
Definition proxy_openmrs_providers : ProxyResponse * list HttpRequest :=
  match http_get providers_request with
  | Raise e => (PR_error e, [providers_request])
  | Ok res =>
      if Nat.eqb (http_status res) 200
      then match http_json res with
           | Ok j => (PR_ok j, [providers_request])
           | Raise e => (PR_error e, [providers_request])
           end
      else (PR_failed (http_status res), [providers_request])
  end.
End Http.

(** ** get_all_openmrs_patients *)

(** A row of [Patient.objects.select_related('patient_id')]: its
    [voided] flag, the [Person] it points to, and the full name of
    [get_active_name()], [None] when there is no active name; the
    methods of the external [openmrs_models] app may raise. *)
Record PatientEntry := mkPatientEntry {
  pe_voided : bool;
  pe_person_uuid : string;
  pe_gender : json;
  pe_birthdate : json;
  pe_full_name : exc (option string)
}.

(** The [Patient] table of the [openmrs_models] app. *)
Class OpenmrsModels := {
  om_patients : exc (list PatientEntry)
}.

Section Models.
Context `{OpenmrsModels}.

Inductive AllOpenmrsResponse :=
| AO_ok (patients : list json)
| AO_error (e : string).

(** The dict appended for one row; the identifier is the person's uuid. *)
Definition openmrs_patient_entry (p : PatientEntry) : exc json :=
  n ← pe_full_name p;
  let full_name := JStr (default "N/A" n) in
  let identifier := JStr (pe_person_uuid p) in
  mret (JDict [("uuid", JStr (pe_person_uuid p)); ("identifier", identifier);
               ("display", full_name);
               ("person", JDict [("display", full_name); ("gender", pe_gender p);
                                 ("birthdate", pe_birthdate p)]);
               ("identifiers", JList [JDict [("identifier", identifier)]])]).

(** [filter(voided=False)], then one dict per row, in the query's order. *)
Definition get_all_openmrs_patients : AllOpenmrsResponse :=
  match (ps ← om_patients; mapM openmrs_patient_entry (List.filter (fun p => negb (pe_voided p)) ps)) with
  | Ok l => AO_ok l
  | Raise e => AO_error e
  end.

Definition all_openmrs_status (r : AllOpenmrsResponse) : nat :=
  match r with AO_ok _ => 200 | AO_error _ => 500 end.
End Models.

(** ** The shapes of the registry's answers that [get_patient] reads *)

Definition dict_ok (v : option json) : bool :=
  match v with None | Some (JDict _) => true | _ => false end.

(** Absent, or a list of dicts each satisfying [p]. *)
Definition dicts_ok (p : list (string * json) -> bool) (v : option json) : bool :=
  match v with
  | None => true
  | Some (JList l) => forallb (fun x => match x with JDict d => p d | _ => false end) l
  | _ => false
  end.

Definition person_ok (v : json) : bool :=
  match v with
  | JDict kvs =>
      dict_ok (assoc kvs "preferredName") && dicts_ok (fun _ => true) (assoc kvs "names")
      && dicts_ok (fun _ => true) (assoc kvs "addresses")
      && dicts_ok (fun d => dict_ok (assoc d "attributeType")) (assoc kvs "attributes")
      && match assoc kvs "causeOfDeath" with
         | Some c => negb (py_truthy c) || dict_ok (Some c)
         | None => true
         end
  | _ => false
  end.

(** A patient dict whose nested values have the types the formatting
    reads: identifiers, names, addresses and attributes are lists of
    dicts, the identifier and attribute types, the person, its
    preferred name and a set cause of death are dicts. *)
Definition patient_ok (v : json) : bool :=
  match v with
  | JDict kvs =>
      dicts_ok (fun d => dict_ok (assoc d "identifierType")) (assoc kvs "identifiers")
      && match assoc kvs "person" with Some q => person_ok q | None => true end
  | _ => false
  end.

(** The value of [identifier] of the first identifier, or [None]. *)
Definition first_identifier (v : json) : json :=
  match v with
  | JDict kvs =>
      match assoc kvs "identifiers" with
      | Some (JList (JDict d :: _)) => default JNull (assoc d "identifier")
      | _ => JNull
      end
  | _ => JNull
  end.

Definition json_field (v : json) (k : string) : option json :=
  match v with JDict kvs => assoc kvs k | _ => None end.

(** ** Lemmas *)

Lemma mapM_exc_ok {A B} (f : A -> exc B) l :
  Forall (fun x => exists y, f x = Ok y) l -> exists ys, mapM f l = Ok ys.
Proof.
  induction 1 as [|x l [y Hy] _ [ys Hys]]; [by exists []|].
  exists (y :: ys). cbn [mapM]. rewrite Hy, Hys. reflexivity.
Qed.

Lemma py_get_dict_ok kvs k :
  dict_ok (assoc kvs k) = true -> exists d, py_get (JDict kvs) k (JDict []) = Ok (JDict d).
Proof. cbn. destruct (assoc kvs k) as [[]|]; try done; by eexists. Qed.

Lemma fmt_each_ok (f : json -> exc json) p kvs k :
  (forall d, p d = true -> exists y, f (JDict d) = Ok y) ->
  dicts_ok p (assoc kvs k) = true -> exists j, fmt_each f (JDict kvs) k = Ok j.
Proof.
  intros Hf. unfold fmt_each. cbn -[mapM]. destruct (assoc kvs k) as [[| | | |l|]|]; try done.
  - intros Hl. destruct (mapM_exc_ok f l) as [ys Hys].
    + apply List.Forall_forall. intros x Hin.
      pose proof (proj1 (forallb_forall _ _) Hl x Hin) as Hx. destruct x; try done. by apply Hf.
    + cbn -[mapM]. rewrite Hys. by eexists.
  - intros _. by eexists.
Qed.

Lemma fmt_identifier_ok d :
  dict_ok (assoc d "identifierType") = true -> exists y, fmt_identifier (JDict d) = Ok y.
Proof.
  intros Ht. destruct (py_get_dict_ok d "identifierType" Ht) as [t Hget].
  unfold fmt_identifier. cbn [py_get]. cbn in Hget. rewrite Hget. by eexists.
Qed.

Lemma fmt_name_ok d : exists y, fmt_name (JDict d) = Ok y.
Proof. by eexists. Qed.

Lemma fmt_address_ok d : exists y, fmt_address (JDict d) = Ok y.
Proof. by eexists. Qed.

Lemma fmt_attribute_ok d :
  dict_ok (assoc d "attributeType") = true -> exists y, fmt_attribute (JDict d) = Ok y.
Proof.
  intros Ht. destruct (py_get_dict_ok d "attributeType" Ht) as [t Hget].
  unfold fmt_attribute. cbn [py_get]. cbn in Hget. rewrite Hget. by eexists.
Qed.

Lemma bind_ok_l {A B} (a : A) (k : A -> exc B) : (Ok a ≫= k) = k a.
Proof. reflexivity. Qed.

Lemma py_iter_list l : py_iter (JList l) = Ok l.
Proof. reflexivity. Qed.

Lemma fmap_ok {A B} (f : A -> B) (a : A) : f <$> (Ok a : exc A) = Ok (f a).
Proof. reflexivity. Qed.

(** The person dict [get_patient] reads: the patient's, or [{}]. *)
Lemma person_get_ok kvs :
  match assoc kvs "person" with Some q => person_ok q | None => true end = true ->
  exists pk, py_get (JDict kvs) "person" (JDict []) = Ok (JDict pk) /\ person_ok (JDict pk) = true.
Proof.
  cbn. destruct (assoc kvs "person") as [q|]; [|by exists []].
  destruct q as [| | | | |pk]; try done. by exists pk.
Qed.

(** [format_patient] does not raise on a well-shaped patient, and its
    [identifier] is the first identifier's. *)
Lemma format_patient_ok repr p :
  patient_ok p = true ->
  exists j, format_patient repr p = Ok j /\ json_field j "identifier" = Some (first_identifier p).
Proof.
  destruct p as [| | | | |kvs]; try done. cbn [patient_ok]. intros [Hids Hper]%andb_prop.
  destruct (person_get_ok kvs Hper) as (pk & Hpget & Hpok).
  cbn [person_ok] in Hpok. apply andb_prop in Hpok as [Hpok Hcause].
  apply andb_prop in Hpok as [Hpok Hattr]. apply andb_prop in Hpok as [Hpok Haddr].
  apply andb_prop in Hpok as [Hpn Hnames].
  destruct (fmt_each_ok _ _ kvs "identifiers" fmt_identifier_ok Hids) as [idj Hidj].
  destruct (py_get_dict_ok pk "preferredName" Hpn) as [pn Hpn'].
  destruct (fmt_each_ok fmt_name _ pk "names" (fun d _ => fmt_name_ok d) Hnames) as [nj Hnj].
  destruct (fmt_each_ok fmt_address _ pk "addresses" (fun d _ => fmt_address_ok d) Haddr) as [aj Haj].
  destruct (fmt_each_ok _ _ pk "attributes" fmt_attribute_ok Hattr) as [tj Htj].
  assert (Hfirst : exists idl first,
            py_iter (match assoc kvs "identifiers" with Some v => v | None => JList [] end) = Ok idl /\
            (match idl with [] => mret JNull | i :: _ => py_get i "identifier" JNull end) = Ok first /\
            first = first_identifier (JDict kvs)).
  { cbn [first_identifier]. destruct (assoc kvs "identifiers") as [[| | | |[|[| | | | |d] l]|]|];
      try done; by do 2 eexists. }
  destruct Hfirst as (idl & first & Hiter & Hm & ->).
  assert (Hc : exists cd, (if py_truthy (match assoc pk "causeOfDeath" with Some v => v | None => JNull end)
            then c ← py_get (JDict pk) "causeOfDeath" (JDict []); py_get c "display" JNull
            else mret JNull) = Ok cd).
  { destruct (assoc pk "causeOfDeath") as [c|] eqn:Ec; [|by eexists].
    destruct (py_truthy c) eqn:Ht; [|by eexists]. cbn in Hcause.
    destruct c as [| | | | |cd]; try done. cbn. rewrite Ec. by eexists. }
  destruct Hc as [cd Hc]. rewrite ?py_get_dict, ?bind_ok_l in Hc. cbv beta in Hc.
  unfold format_patient.
  repeat (first [rewrite Hidj | rewrite Hpget | rewrite Hiter | rewrite Hm | rewrite Hpn'
                | rewrite Hnj | rewrite Haj | rewrite Htj | rewrite Hc | rewrite py_get_dict
                | rewrite bind_ok_l]; cbv beta).
  eexists. split; [reflexivity|done].
Qed.

Lemma dict_index_some cfg k v : assoc cfg k = Some v -> dict_index cfg k = Ok v.
Proof. unfold dict_index. by intros ->. Qed.

(** A patient whose preferred name is [null] makes [get_patient] raise:
    [None.get('givenName', '')]. *)
Lemma get_patient_null_preferred_name `{RegistryJson} repr uuid :
  rj_get_patient uuid = Ok (JDict [("person", JDict [("preferredName", JNull)])]) ->
  get_patient repr uuid = Raise "'NoneType' object has no attribute 'get'".
Proof. intros Hp. unfold get_patient. rewrite Hp. reflexivity. Qed.

Lemma mapM_exc_Forall2 {A B} (f : A -> exc B) l ys :
  Forall2 (fun x y => f x = Ok y) l ys -> mapM f l = Ok ys.
Proof. induction 1 as [|x y l ys Hy _ IH]; [done|]. cbn [mapM]. by rewrite Hy, IH. Qed.

(** [get_all_openmrs_patients] answers one entry per non-voided row, in
    the table's order, as soon as the name of every such row can be
    read (a voided row is never read), and each entry's identifier is
    the person's uuid. *)
Lemma get_all_openmrs_patients_ok `{OpenmrsModels} ps :
  om_patients = Ok ps ->
  Forall (fun p => pe_voided p = false -> exists n, pe_full_name p = Ok n) ps ->
  exists l, get_all_openmrs_patients = AO_ok l /\
    map (fun j => json_field j "uuid") l
      = map (fun p => Some (JStr (pe_person_uuid p))) (List.filter (fun p => negb (pe_voided p)) ps) /\
    Forall (fun j => json_field j "identifier" = json_field j "uuid") l.
Proof.
  intros Hps Hn. unfold get_all_openmrs_patients. rewrite Hps. cbn [mbind exc_mbind exc_bind].
  assert (Hf : exists ys, Forall2 (fun p y => openmrs_patient_entry p = Ok y
              /\ json_field y "uuid" = Some (JStr (pe_person_uuid p))
              /\ json_field y "identifier" = json_field y "uuid")
              (List.filter (fun p => negb (pe_voided p)) ps) ys).
  { clear Hps. induction Hn as [|p ps Hp _ [ys Hys]]. { by exists []. } cbn [List.filter].
    destruct (pe_voided p) eqn:Hv; cbn [negb]; [by exists ys|].
    destruct (Hp eq_refl) as [n Hpn].
    eexists (_ :: ys). constructor; [|exact Hys].
    unfold openmrs_patient_entry. rewrite Hpn. cbn. auto. }
  destruct Hf as [ys Hys]. exists ys.
  rewrite (mapM_exc_Forall2 _ _ ys); [|by eapply Forall2_impl; [exact Hys|]; intros ? ? []].
  split; [done|]. split.
  - clear -Hys. induction Hys as [|p y qs zs [_ [Hu _]] _ IH]; cbn; by f_equal.
  - clear -Hys. induction Hys as [|p y qs zs [_ [_ Hi]] _ IH]; by constructor.
Qed.

(** ** Theorems *)


(** C38: get_patient answers every patient the registry returns with
    the shapes the formatting reads (lists of dicts for identifiers,
    names, addresses and attributes; dicts for the person, its preferred
    name, the identifier and attribute types and a set cause of death)
    without raising, and its [identifier] is the [identifier] of the
    first identifier, [None] when there is none. *)
Theorem get_patient_wellformed `{RegistryJson} repr uuid p :
  rj_get_patient uuid = Ok p -> patient_ok p = true ->
  exists j, get_patient repr uuid = Ok (GP_ok j) /\ json_field j "identifier" = Some (first_identifier p).
Proof.
  intros Hget Hok. destruct (format_patient_ok repr p Hok) as (j & Hj & Hid).
  exists j. split; [|done]. unfold get_patient. rewrite Hget, bind_ok_l.
  destruct p; try done. by rewrite Hj.
Qed.

(** ** Witnesses *)

(** OpenMRS answering two patients to every request. *)
Definition demo_http : HttpClient := {|
  http_get _ := Ok (mkHttpResponse 200 (Ok (JDict [("results", JList [JStr "p1"; JStr "p2"])])))
|}.

Definition demo_config : list (string * string) :=
  [("host", "localhost"); ("port", "8082"); ("username", "admin"); ("password", "Admin123")].


(** A registry answering one patient with an identifier and a person. *)
Definition demo_patient_json : json :=
  JDict [("uuid", JStr "uuid-a");
         ("identifiers", JList [JDict [("identifier", JStr "P100");
                                       ("identifierType", JDict [("display", JStr "OpenMRS ID")])]]);
         ("person", JDict [("preferredName", JDict [("givenName", JStr "Min"); ("familyName", JStr "Kim")]);
                           ("gender", JStr "M"); ("birthdate", JStr "1985-03-15T00:00:00.000+0000")])].

Definition demo_registry_json : RegistryJson := {|
  rj_get_patient u := Ok (if String.eqb u "uuid-a" then demo_patient_json else JNull);
  rj_get_patient_by_identifier _ := Ok JNull
|}.

Lemma get_patient_wellformed_witness :
  exists j, @get_patient demo_registry_json (fun _ => "") "uuid-a" = Ok (GP_ok j) /\
            json_field j "identifier" = Some (first_identifier demo_patient_json).
Proof. apply (@get_patient_wellformed demo_registry_json); reflexivity. Defined.
