(* ===== verification/App.v ===== *)
(** * The application: HTTP requests through urls.py to the views

    Django answers a request by resolving its path against [urlpatterns]
    (file [Routing]) and calling the view with the route's keyword
    arguments; every view of views.py is wrapped by Django REST
    framework's [@api_view([...])], whose [APIView.dispatch] calls the
    view for a listed method, answers [OPTIONS] with the view's metadata
    when it is not listed, and answers any other method 405 Method Not
    Allowed.  A path no route matches is answered 404 ([Resolver404]).

    [handle] composes the two for every route that reads or writes the
    mapping table: the five mapping views ([MappingViews]), the upload,
    manual-mapping, unmapped-listing and batch views ([BatchSweep]) and
    the three dummy-data views ([DummyData]).  The other routes (patient,
    archive and status views, modelled in [PatientViews], [ProxyViews] and
    [StatusViews] against their own service interfaces) never touch the
    table and answer [A_other].  Paths are relative to the prefix under
    which the project's urls.py (outside src/) includes this app.

    [app_reachable] is the set of tables produced by any sequence of HTTP
    requests, served while the services answer as they do at that moment;
    the theorem shows it contains every table the mapping views alone
    produce and keeps the table invariant. *)

From stdpp Require Import base list strings.
From S2P Require Import Prelude Services MappingModel MappingViews Matcher BatchSweep PyFloat DummyData Routing.

(** ** Requests *)

Inductive HttpMethod := M_GET | M_POST | M_PUT | M_PATCH | M_DELETE | M_HEAD | M_OPTIONS.

#[export] Instance HttpMethod_eq_dec : EqDecision HttpMethod.
Proof. solve_decision. Defined.

(** The method, the path, the string values of [request.data] and the
    uploaded [request.FILES['dicom_file']]. *)
Record Request := mkRequest {
  rq_method : HttpMethod;
  rq_path : string;
  rq_data : list (string * string);
  rq_file : option Bytes
}.

(** The methods each view lists in its [@api_view] decorator. *)
Definition api_methods (v : View) : list HttpMethod :=
  match v with
  | v_create_patient => [M_POST; M_OPTIONS]
  | v_upload_dicom_with_auto_mapping | v_create_patient_mapping
  | v_create_manual_patient_mapping | v_sync_patient_mapping
  | v_batch_auto_mapping | v_create_dummy_data => [M_POST]
  | v_delete_patient_mapping | v_clear_dummy_data => [M_DELETE]
  | _ => [M_GET]
  end.

Inductive Answer :=
| A_not_found
| A_method_not_allowed
| A_options
| A_missing_argument (name : string)
| A_list (r : ListMappingsResponse)
| A_create (r : CreateMappingResponse)
| A_get (r : GetMappingResponse)
| A_delete (r : DeleteMappingResponse)
| A_sync (r : SyncMappingResponse)
| A_upload (r : UploadResponse)
| A_manual (r : ManualResponse)
| A_unmapped (r : UnmappedResponse)
| A_batch (r : BatchResponse)
| A_dummy_create (r : CreateDummyResponse)
| A_dummy_clear (r : ClearResponse)
| A_test_status (r : TestStatusResponse)
| A_other (v : View).

(** ** Dispatch *)

Section App.
Context `{OrthancAPI} `{OpenMRSAPI} `{DicomCodec}.
Variable openmrs_create_patient : OpenMRSCreate -> exc (option (option string * option string)).
Variable dicom_write : tagmap -> option Bytes.
Variable studies_count_of : PatientMapping -> exc nat.

(** The [int] keyword argument [k] the route passes to the view. *)
Definition int_kwarg (kw : Kwargs) (k : string) : option nat :=
  match assoc kw k with Some (AInt n) => Some n | _ => None end.

(** A view called with [mapping_id]; a route without it would make the
    call raise [TypeError]. *)
Definition with_mapping_id (kw : Kwargs) (f : nat -> st Store Answer) : st Store Answer :=
  match int_kwarg kw "mapping_id" with
  | Some i => f i
  | None => st_ret (A_missing_argument "mapping_id")
  end.

Definition call_view (v : View) (kw : Kwargs) (r : Request) : st Store Answer :=
  let data := assoc (rq_data r) in
  match v with
  | v_get_patient_mappings => do x <- get_patient_mappings; st_ret (A_list x)
  | v_create_patient_mapping =>
      do x <- create_patient_mapping (data "orthanc_patient_id") (data "openmrs_patient_uuid");
      st_ret (A_create x)
  | v_get_patient_mapping => with_mapping_id kw (fun i => do x <- get_patient_mapping i; st_ret (A_get x))
  | v_delete_patient_mapping =>
      with_mapping_id kw (fun i => do x <- delete_patient_mapping i; st_ret (A_delete x))
  | v_sync_patient_mapping =>
      with_mapping_id kw (fun i => do x <- sync_patient_mapping i; st_ret (A_sync x))
  | v_upload_dicom_with_auto_mapping =>
      do x <- upload_dicom_with_auto_mapping (rq_file r); st_ret (A_upload x)
  | v_create_manual_patient_mapping =>
      do x <- create_manual_patient_mapping (data "orthanc_patient_id") (data "openmrs_patient_uuid");
      st_ret (A_manual x)
  | v_get_unmapped_orthanc_patients => do x <- get_unmapped_orthanc_patients; st_ret (A_unmapped x)
  | v_batch_auto_mapping => do x <- batch_auto_mapping; st_ret (A_batch x)
  | v_create_dummy_data =>
      do x <- create_dummy_data openmrs_create_patient dicom_write; st_ret (A_dummy_create x)
  | v_clear_dummy_data => do x <- clear_dummy_data; st_ret (A_dummy_clear x)
  | v_get_mapping_test_status =>
      do x <- get_mapping_test_status studies_count_of; st_ret (A_test_status x)
  | _ => st_ret (A_other v)
  end.

(** Resolution, then [APIView.dispatch]. *)
Definition handle (r : Request) : st Store Answer :=
  match url_resolve (rq_path r) with
  | None => st_ret A_not_found
  | Some (v, _, kw) =>
      if bool_decide (rq_method r ∈ api_methods v) then call_view v kw r
      else if bool_decide (rq_method r = M_OPTIONS) then st_ret A_options
      else st_ret A_method_not_allowed
  end.
End App.

(** The tables produced from an empty one by any sequence of HTTP
    requests, each served while the services (and the parameters of the
    dummy-data views) are what they are at that moment, with the clock
    advancing in between. *)
Inductive app_reachable : Store -> Prop :=
| app_init t : app_reachable (empty_store t)
| app_request (O : OrthancAPI) (R : OpenMRSAPI) (C : DicomCodec) ocp dw sc r s :
    app_reachable s -> app_reachable (snd (@handle O R C ocp dw sc r s))
| app_tick s :
    app_reachable s -> app_reachable (mkStore (rows s) (next_id s) (S (now s))).

(** The HTTP request that carries a mapping request: its method, path and
    body fields. *)
Definition opt_field (k : string) (v : option string) : list (string * string) :=
  match v with Some x => [(k, x)] | None => [] end.

(** ** Every request keeps the table invariant *)

Section AppLemmas.
Context `{OrthancAPI} `{OpenMRSAPI} `{DicomCodec}.
Variable openmrs_create_patient : OpenMRSCreate -> exc (option (option string * option string)).
Variable dicom_write : tagmap -> option Bytes.
Variable studies_count_of : PatientMapping -> exc nat.

Lemma with_mapping_id_wf kw (f : nat -> st Store Answer) s :
  (forall i, store_wf s -> store_wf (snd (f i s))) ->
  store_wf s -> store_wf (snd (with_mapping_id kw f s)).
Proof. unfold with_mapping_id. destruct (int_kwarg kw "mapping_id"); auto. Qed.

Lemma call_view_wf v kw r s :
  store_wf s -> store_wf (snd (call_view openmrs_create_patient dicom_write studies_count_of v kw r s)).
Proof.
  intros Hwf. destruct v; cbn [call_view]; try done;
    try (apply with_mapping_id_wf; [intros i Hi|done]); rewrite st_bind_ret_snd.
  all: first
    [ exact (serve_wf ReqList s Hwf) | exact (serve_wf (ReqGet _) s Hi)
    | by apply create_patient_mapping_wf | by apply upload_dicom_wf
    | by apply create_manual_patient_mapping_wf | by apply delete_patient_mapping_wf
    | by apply sync_patient_mapping_wf | by rewrite get_unmapped_state
    | by apply batch_auto_mapping_wf | by apply create_dummy_data_wf
    | by apply clear_dummy_data_wf | by rewrite get_mapping_test_status_state ].
Qed.

Lemma handle_wf r s :
  store_wf s -> store_wf (snd (handle openmrs_create_patient dicom_write studies_count_of r s)).
Proof.
  intros Hwf. unfold handle. destruct (url_resolve (rq_path r)) as [[[v n] kw]|]; [|done].
  repeat case_bool_decide; try done. by apply call_view_wf.
Qed.
End AppLemmas.

(** ** Every mapping request is an HTTP request *)

(** The request a client sends for each mapping operation. *)
Definition mapping_path (q : MappingRequest) : string :=
  match q with
  | ReqList => "patient-mappings/"
  | ReqCreate _ _ => "patient-mappings/create/"
  | ReqGet i => "patient-mappings/" +:+ str_of_nat i +:+ "/"
  | ReqDelete i => "patient-mappings/" +:+ str_of_nat i +:+ "/delete/"
  | ReqSync i => "patient-mappings/" +:+ str_of_nat i +:+ "/sync/"
  end.

Definition request_of (q : MappingRequest) : Request :=
  match q with
  | ReqList => mkRequest M_GET (mapping_path q) [] None
  | ReqCreate o u =>
      mkRequest M_POST (mapping_path q)
        (opt_field "orthanc_patient_id" o ++ opt_field "openmrs_patient_uuid" u) None
  | ReqGet _ => mkRequest M_GET (mapping_path q) [] None
  | ReqDelete _ => mkRequest M_DELETE (mapping_path q) [] None
  | ReqSync _ => mkRequest M_POST (mapping_path q) [] None
  end.

(** An entry of urls.py that no earlier literal entry shadows resolves
    the paths built from it. *)
Lemma entry_resolves u kw ps p :
  In u urlpatterns -> route_to_parts (path_route u) = Some ps -> kw_ok ps kw = true ->
  fill ps kw = Some p -> path_name u <> "get_openmrs_patient" -> path_name u <> "get_orthanc_patient" ->
  url_resolve p = Some (path_view u, path_name u, kw).
Proof.
  intros Hin Hps Hkw Hf Hn1 Hn2. rewrite (resolve_eq_compiled p).
  by destruct (resolve_compiled_filled u kw ps p Hin Hps Hkw Hf)
    as [|[(? & _)|[(? & _)|(? & _)]]].
Qed.

Section Paths.
Local Arguments String.append : simpl nomatch.

Ltac entry_of route view name :=
  eapply (entry_resolves (path route view name));
  [ cbn [urlpatterns In]; repeat (try (left; reflexivity); right)
  | reflexivity | reflexivity | simpl; reflexivity | discriminate | discriminate ].

Lemma mapping_path_resolves q :
  url_resolve (mapping_path q)
  = Some (match q with
          | ReqList => (v_get_patient_mappings, "get_patient_mappings", [])
          | ReqCreate _ _ => (v_create_patient_mapping, "create_patient_mapping", [])
          | ReqGet i => (v_get_patient_mapping, "get_patient_mapping", [("mapping_id", AInt i)])
          | ReqDelete i => (v_delete_patient_mapping, "delete_patient_mapping", [("mapping_id", AInt i)])
          | ReqSync i => (v_sync_patient_mapping, "sync_patient_mapping", [("mapping_id", AInt i)])
          end).
Proof.
  destruct q as [|o u|i|i|i]; cbn [mapping_path].
  - entry_of "patient-mappings/" v_get_patient_mappings "get_patient_mappings".
  - entry_of "patient-mappings/create/" v_create_patient_mapping "create_patient_mapping".
  - entry_of "patient-mappings/<int:mapping_id>/" v_get_patient_mapping "get_patient_mapping".
  - entry_of "patient-mappings/<int:mapping_id>/delete/" v_delete_patient_mapping "delete_patient_mapping".
  - entry_of "patient-mappings/<int:mapping_id>/sync/" v_sync_patient_mapping "sync_patient_mapping".
Qed.
End Paths.

Section Refinement.
Context `{OrthancAPI} `{OpenMRSAPI} `{DicomCodec}.
Variable openmrs_create_patient : OpenMRSCreate -> exc (option (option string * option string)).
Variable dicom_write : tagmap -> option Bytes.
Variable studies_count_of : PatientMapping -> exc nat.

(** Serving [request_of q] over HTTP does to the table what the view of
    [q] does. *)
Lemma handle_request_of q s :
  snd (handle openmrs_create_patient dicom_write studies_count_of (request_of q) s) = serve q s.
Proof.
  unfold handle. replace (rq_path (request_of q)) with (mapping_path q) by (by destruct q).
  rewrite mapping_path_resolves.
  destruct q as [|o u|i|i|i]; cbn [request_of rq_method api_methods];
    rewrite bool_decide_eq_true_2 by (apply list_elem_of_singleton; reflexivity);
    cbn [call_view rq_data]; unfold with_mapping_id, int_kwarg; cbn [assoc].
  all: etransitivity; [apply st_bind_ret_snd|]; try done.
  by destruct o, u.
Qed.
End Refinement.

(** A codec that decodes nothing, for the steps that carry no upload. *)
Definition no_codec : DicomCodec := {| dicom_decode _ := None |}.

(** ** Theorem *)

(** C40: the application refines the mapping views and keeps their
    invariant: every table the mapping views produce by any sequence of
    requests is produced by HTTP requests routed through urls.py and the
    [@api_view] method check, and every table any sequence of HTTP
    requests to any route produces (mapping, upload, batch, dummy-data
    and read-only views alike) satisfies the table invariant. *)
Theorem app_refines_mapping_views :
  (forall s, reachable s -> app_reachable s) /\ (forall s, app_reachable s -> store_wf s).
Proof.
  split.
  - induction 1 as [t|O R q s _ IH|s _ IH]; [apply app_init| |by apply app_tick].
    rewrite <-(@handle_request_of O R no_codec (fun _ => Raise "") (fun _ => None) (fun _ => Ok 0)).
    by apply app_request.
  - induction 1 as [t|O R C ocp dw sc r s _ IH|s _ [Hnd Hfr Hc Hp]].
    + apply empty_store_wf.
    + by apply handle_wf.
    + by split.
Qed.

Lemma app_refines_mapping_views_witness :
  app_reachable (snd (handle (H:=archive_of demo_archive) (H0:=directory_of demo_registry) (H1:=demo_codec)
                        (fun _ => Raise "") (fun _ => None) (fun _ => Ok 0)
                        (request_of (ReqCreate (Some "orth-1") (Some "uuid-a"))) (empty_store 0))) /\
  store_wf (snd (handle (H:=archive_of demo_archive) (H0:=directory_of demo_registry) (H1:=demo_codec)
                   (fun _ => Raise "") (fun _ => None) (fun _ => Ok 0)
                   (request_of (ReqCreate (Some "orth-1") (Some "uuid-a"))) (empty_store 0))).
Proof.
  assert (Hr : app_reachable (snd (handle (H:=archive_of demo_archive) (H0:=directory_of demo_registry) (H1:=demo_codec)
                 (fun _ => Raise "") (fun _ => None) (fun _ => Ok 0)
                 (request_of (ReqCreate (Some "orth-1") (Some "uuid-a"))) (empty_store 0)))).
  { apply app_request. apply app_init. }
  split; [exact Hr|]. exact (proj2 app_refines_mapping_views _ Hr).
Defined.
